(** * Dental clinic billing and appointment engine

    A shallow embedding of the computational core of [Dental_Clinic.py]
    (and of its predecessor [dental_billing.py]): bill totals, whole-catalog
    edits, the appointment book and its JSON store, and the search over the
    combined bill log.  The Tk widgets are replaced by the values they hold:
    an entry or text box is the string it contains, a list box selection is
    a list of positions, a message box is a returned outcome. *)

From Stdlib Require Import ZArith QArith Qround Qpower Qabs Lia Lqa.
From Stdlib Require Import List String Ascii Bool DecimalString.
From Stdlib Require Import Sorting.Sorted Sorting.Permutation.
Import ListNotations.


(* ================================================================= *)
(** ** Python floats: binary64 rounding on rationals *)
(* ================================================================= *)

(** A finite Python [float] is modelled by the rational it denotes.  Every
    float operation returns the exact rational result rounded to the nearest
    binary64 number, ties to even mantissa ([fl]).  The format has 53 bits of
    precision and gradual underflow down to [2^-1074]; the exponent is not
    bounded above, so overflow to [inf] (amounts beyond 1.8e308) and [nan]
    are outside the model. *)
Module Float64.

Local Open Scope Q_scope.

Definition prec : Z := 53.
Definition emin : Z := -1074.

Definition pow2 (e : Z) : Q := 2 ^ e.

(** Nearest integer, ties to even. *)
Definition rne (x : Q) : Z :=
  let f := Qfloor x in
  match Qcompare (x - inject_Z f) (1 # 2) with
  | Lt => f
  | Gt => (f + 1)%Z
  | Eq => if Z.even f then f else (f + 1)%Z
  end.

(** For [0 < x], the exponent [e] with [2^(e-1) <= x < 2^e]. *)
Definition mag (x : Q) : Z :=
  let e0 := (Z.log2 (Qnum x) - Z.log2 (Zpos (Qden x)))%Z in
  if Qle_bool (pow2 e0) x then (e0 + 1)%Z else e0.

(** Exponent of the last place of a number of magnitude [e]. *)
Definition fexp (e : Z) : Z := Z.max (e - prec) emin.

Definition round_pos (x : Q) : Q :=
  let c := fexp (mag x) in
  Qred (inject_Z (rne (x / pow2 c)) * pow2 c).

(** Round to nearest binary64, ties to even. *)
Definition fl (x : Q) : Q :=
  match Qcompare x 0 with
  | Eq => 0
  | Gt => round_pos x
  | Lt => Qred (- round_pos (- x))
  end.

(** Python's [round(x, 2)] on a float: the exact value of [x] is rounded to
    two decimals (ties to even on the exact value), and the decimal result is
    converted back to the nearest float. *)
Definition round2 (x : Q) : Q :=
  fl (inject_Z (rne (x * 100)) / 100).

End Float64.

(* ================================================================= *)
(** ** Python numbers *)
(* ================================================================= *)

(** Prices and discounts are Python numbers: an [int] (the default price
    [1000], the literal catalog of [dental_billing.py], the default discount
    [10]) or a [float] (whatever went through [float(...)]). *)
Module PyNum.

Local Open Scope Q_scope.

Inductive pynum : Type :=
| PyInt (z : Z)
| PyFloat (x : Q).

(** The exact rational a number denotes. *)
Definition value (n : pynum) : Q :=
  match n with
  | PyInt z => inject_Z z
  | PyFloat x => x
  end.

(** [float(n)]. *)
Definition to_float (n : pynum) : Q :=
  match n with
  | PyInt z => Float64.fl (inject_Z z)
  | PyFloat x => x
  end.

(** [a + b]: exact on two ints, a float addition otherwise. *)
Definition add (a b : pynum) : pynum :=
  match a, b with
  | PyInt x, PyInt y => PyInt (x + y)
  | _, _ => PyFloat (Float64.fl (to_float a + to_float b))
  end.

Definition sub (a b : pynum) : pynum :=
  match a, b with
  | PyInt x, PyInt y => PyInt (x - y)
  | _, _ => PyFloat (Float64.fl (to_float a - to_float b))
  end.

Definition mul (a b : pynum) : pynum :=
  match a, b with
  | PyInt x, PyInt y => PyInt (x * y)
  | _, _ => PyFloat (Float64.fl (to_float a * to_float b))
  end.

(** [a / b] for a non-zero [b]: always a float; two ints give the correctly
    rounded quotient. *)
Definition truediv (a b : pynum) : pynum :=
  match a, b with
  | PyInt x, PyInt y => PyFloat (Float64.fl (inject_Z x / inject_Z y))
  | _, _ => PyFloat (Float64.fl (to_float a / to_float b))
  end.

(** [round(a, 2)]: an int is returned as it is, a float is rounded. *)
Definition round2 (a : pynum) : pynum :=
  match a with
  | PyInt z => PyInt z
  | PyFloat x => PyFloat (Float64.round2 x)
  end.

(** Comparisons between numbers are exact, whatever the mix of types. *)
Definition ltb (a b : pynum) : bool := negb (Qle_bool (value b) (value a)).
Definition leb (a b : pynum) : bool := Qle_bool (value a) (value b).


(** Python's [==] on numbers. *)
Definition eq (a b : pynum) : Prop := value a == value b.

(** A float object holds a binary64 number. *)
Definition valid (n : pynum) : Prop :=
  match n with
  | PyInt _ => True
  | PyFloat x => Float64.fl x == x
  end.

(** [sum(xs)]: accumulation from the left, starting from the int [0].
    (CPython 3.12 and later also carry the rounding errors of float
    additions along; that changes nothing where no addition rounds.) *)
Definition sum (xs : list pynum) : pynum := fold_left add xs (PyInt 0).

End PyNum.

Abbreviation pynum := PyNum.pynum.
Abbreviation PyInt := PyNum.PyInt.
Abbreviation PyFloat := PyNum.PyFloat.

(* ================================================================= *)
(** ** Python strings *)
(* ================================================================= *)

(** A [str] is a sequence of 8-bit characters; case mapping and white space
    are those of the ASCII range. *)
Module Str.

Local Open Scope string_scope.
Local Open Scope char_scope.

(** [c.isspace()]: tab, line feed, vertical tab, form feed, carriage return,
    the four separators 0x1c-0x1f, and the space. *)
Definition isspace (c : ascii) : bool :=
  let n := nat_of_ascii c in
  ((9 <=? n) && (n <=? 13) || (28 <=? n) && (n <=? 32))%nat.

Fixpoint lstrip (s : string) : string :=
  match s with
  | EmptyString => EmptyString
  | String c s' => if isspace c then lstrip s' else s
  end.

Fixpoint rstrip (s : string) : string :=
  match s with
  | EmptyString => EmptyString
  | String c s' =>
      match rstrip s' with
      | EmptyString => if isspace c then EmptyString else String c EmptyString
      | r => String c r
      end
  end.

(** [s.strip()] *)
Definition strip (s : string) : string := rstrip (lstrip s).

(** Truth value of a string: [bool(s)]. *)
Definition nonempty (s : string) : bool :=
  match s with
  | EmptyString => false
  | String _ _ => true
  end.

(** [s.split(sep)] for a one-character separator: never an empty list. *)
Fixpoint split (sep : ascii) (s : string) : list string :=
  match s with
  | EmptyString => [EmptyString]
  | String c s' =>
      if Ascii.eqb c sep then EmptyString :: split sep s'
      else match split sep s' with
           | h :: t => String c h :: t
           | [] => [String c EmptyString]
           end
  end.

(** [sep in s] *)
Fixpoint contains_char (sep : ascii) (s : string) : bool :=
  match s with
  | EmptyString => false
  | String c s' => Ascii.eqb c sep || contains_char sep s'
  end.

(** [s.split(sep, 1)] when [sep in s]: what is before and after the first
    separator. *)
Fixpoint split_once (sep : ascii) (s : string) : option (string * string) :=
  match s with
  | EmptyString => None
  | String c s' =>
      if Ascii.eqb c sep then Some (EmptyString, s')
      else match split_once sep s' with
           | Some (a, b) => Some (String c a, b)
           | None => None
           end
  end.

Definition lower_char (c : ascii) : ascii :=
  let n := nat_of_ascii c in
  if ((65 <=? n) && (n <=? 90))%nat then ascii_of_nat (n + 32) else c.

(** [s.lower()] *)
Fixpoint lower (s : string) : string :=
  match s with
  | EmptyString => EmptyString
  | String c s' => String (lower_char c) (lower s')
  end.

(** [q in s], which is also [re.search(re.escape(q), s)] being a match. *)
Fixpoint contains (q s : string) : bool :=
  String.prefix q s ||
  match s with
  | EmptyString => false
  | String _ s' => contains q s'
  end.

(** ["\n".join(lines)] *)
Fixpoint join_lines (lines : list string) : string :=
  match lines with
  | [] => EmptyString
  | [l] => l
  | l :: rest => l ++ String "010" (join_lines rest)
  end.

(** [str(i)] of an int. *)
Definition of_Z (z : Z) : string := DecimalString.NilZero.string_of_int (Z.to_int z).

(** [c * n]: a run of [n] copies of one character. *)
Fixpoint replicate (n : nat) (c : ascii) : string :=
  match n with
  | O => EmptyString
  | S n' => String c (replicate n' c)
  end.

End Str.

(* ================================================================= *)
(** ** Calendar dates and the Python built-ins the program calls *)
(* ================================================================= *)

(** A [datetime.date]. *)
Record date : Type := mkDate {
  year : Z;
  month : Z;
  day : Z
}.

Module Date.

(** Dates compare as the tuples [(year, month, day)]. *)
Definition compare (a b : date) : comparison :=
  match Z.compare (year a) (year b) with
  | Eq => match Z.compare (month a) (month b) with
          | Eq => Z.compare (day a) (day b)
          | c => c
          end
  | c => c
  end.

Definition ltb (a b : date) : bool :=
  match compare a b with Lt => true | _ => false end.

Definition leb (a b : date) : bool :=
  match compare a b with Gt => false | _ => true end.

Definition eqb (a b : date) : bool :=
  match compare a b with Eq => true | _ => false end.

End Date.

(** The library functions whose result the program only inspects:
    - [float_of_string s] is [float(s)], [None] when it raises [ValueError]
      (texts that [float] reads as [inf] or [nan] have no value here);
    - [str_of_float x] is the text an f-string gives a float;
    - [strptime_date s] is [datetime.strptime(s, "%Y-%m-%d").date()] and
      [strptime_time s] the hour and minute of
      [datetime.strptime(s, "%H:%M")], [None] when they raise [ValueError]. *)
Class Builtins : Type := {
  float_of_string : string -> option Q;
  str_of_float : Q -> string;
  strptime_date : string -> option date;
  strptime_time : string -> option (Z * Z)
}.

(** [str(n)] as an f-string renders a number. *)
Definition str_of_num `{Builtins} (n : pynum) : string :=
  match n with
  | PyInt z => Str.of_Z z
  | PyFloat x => str_of_float x
  end.

(* ================================================================= *)
(** ** Patients and bill totals *)
(* ================================================================= *)

(** A treatment is the tuple [(name, cost)] stored in the catalog. *)
Definition treatment : Type := (string * pynum)%type.

(** [class Clinic] / [class DentalClinic]: a name and the catalog, a [dict]
    from int keys to treatments.  A [dict] keeps its keys in insertion
    order, which is the order the list boxes show. *)
Definition dict : Type := list (Z * treatment).

Module Dict.

Definition keys (d : dict) : list Z := map fst d.
Definition values (d : dict) : list treatment := map snd d.

(** [d[k]], [None] for [KeyError]. *)
Fixpoint get (d : dict) (k : Z) : option treatment :=
  match d with
  | [] => None
  | (k', v) :: d' => if Z.eqb k' k then Some v else get d' k
  end.

(** [d[k] = v]: an existing key keeps its place, a new one goes last. *)
Fixpoint set (d : dict) (k : Z) (v : treatment) : dict :=
  match d with
  | [] => [(k, v)]
  | (k', v') :: d' =>
      if Z.eqb k' k then (k, v) :: d' else (k', v') :: set d' k v
  end.

End Dict.

Module Patient.

Local Open Scope string_scope.

(** [class Patient]: [_name], [_phone], [_treatments]. *)
Record t : Type := mk {
  _name : string;
  _phone : string;
  _treatments : list treatment
}.

Definition __init__ (name phone : string) : t :=
  mk (Str.strip name) (Str.strip phone) [].

(** A catalog tuple is truthy and a tuple, so it is appended. *)
Definition add_treatment (p : t) (tr : treatment) : t :=
  mk (_name p) (_phone p) (_treatments p ++ [tr]).

(** [sum(cost for _, cost in self._treatments)] *)
Definition calculate_total (p : t) : pynum :=
  PyNum.sum (map snd (_treatments p)).

Definition treatment_lines `{Builtins} (ts : list treatment) : list string :=
  match ts with
  | [] => ["- (No treatments selected)"]
  | _ => map (fun tc => "- " ++ fst tc ++ ": Rs. " ++ str_of_num (snd tc)) ts
  end.

Definition _build_bill_text `{Builtins} (p : t) (clinic_name title : string) : string :=
  Str.join_lines
    ([ String "010" ("===== " ++ title ++ " =====");
       "Clinic: " ++ clinic_name;
       "Patient Name: " ++ _name p;
       "Phone: " ++ _phone p;
       "---------------------------";
       "Treatments:" ]
     ++ treatment_lines (_treatments p)
     ++ [ "---------------------------";
          "Total Amount: Rs. " ++ str_of_num (calculate_total p);
          "===========================" ]).

End Patient.

Module VIPPatient.

Local Open Scope string_scope.

(** [class VIPPatient(Patient)]: a patient with a [discount]. *)
Record t : Type := mk {
  base : Patient.t;
  discount : pynum
}.

(** The constructor stores the discount it is given. *)
Definition __init__ (name phone : string) (discount : pynum) : t :=
  mk (Patient.__init__ name phone) discount.

Definition add_treatment (v : t) (tr : treatment) : t :=
  mk (Patient.add_treatment (base v) tr) (discount v).

(** [total * (1 - (self.discount / 100.0))], rounded to two decimals. *)
Definition calculate_total (v : t) : pynum :=
  let total := Patient.calculate_total (base v) in
  let discounted :=
    PyNum.mul total
      (PyNum.sub (PyInt 1) (PyNum.truediv (discount v) (PyFloat 100))) in
  PyNum.round2 discounted.

Definition _build_bill_text `{Builtins} (v : t) (clinic_name title : string) : string :=
  let p := base v in
  Str.join_lines
    ([ String "010" ("===== " ++ title ++ " =====");
       "Clinic: " ++ clinic_name;
       "VIP Patient Name: " ++ Patient._name p;
       "Phone: " ++ Patient._phone p;
       "---------------------------";
       "Treatments:" ]
     ++ Patient.treatment_lines (Patient._treatments p)
     ++ [ "---------------------------";
          "Original Total: Rs. " ++ str_of_num (PyNum.sum (map snd (Patient._treatments p)));
          "Discount: " ++ str_of_num (discount v) ++ "%";
          "Total Amount after Discount: Rs. " ++ str_of_num (calculate_total v);
          "===========================" ]).

End VIPPatient.





(** No price of a selection is negative. *)
Definition nonneg_prices (ts : list treatment) : Prop :=
  Forall (fun tc => (0 <= PyNum.value (snd tc))%Q) ts.

(** [self.patient] holds an object of either class; the methods dispatch on
    the class. *)
Inductive Billable : Type :=
| Normal (p : Patient.t)
| VIP (v : VIPPatient.t).

Module BillableM.

Definition calculate_total (b : Billable) : pynum :=
  match b with
  | Normal p => Patient.calculate_total p
  | VIP v => VIPPatient.calculate_total v
  end.

Definition add_treatment (b : Billable) (tr : treatment) : Billable :=
  match b with
  | Normal p => Normal (Patient.add_treatment p tr)
  | VIP v => VIP (VIPPatient.add_treatment v tr)
  end.

(** [self.patient._treatments.clear()] *)
Definition clear_treatments (b : Billable) : Billable :=
  match b with
  | Normal p => Normal (Patient.mk (Patient._name p) (Patient._phone p) [])
  | VIP v =>
      VIP (VIPPatient.mk
             (Patient.mk (Patient._name (VIPPatient.base v))
                         (Patient._phone (VIPPatient.base v)) [])
             (VIPPatient.discount v))
  end.

Definition _build_bill_text `{Builtins} (b : Billable) (clinic_name title : string) : string :=
  match b with
  | Normal p => Patient._build_bill_text p clinic_name title
  | VIP v => VIPPatient._build_bill_text v clinic_name title
  end.

End BillableM.

(* ================================================================= *)
(** ** What a handler shows, and the JSON store *)
(* ================================================================= *)

(** The [tkinter.messagebox] call a handler ends with. *)
Inductive messagebox : Type :=
| showwarning (title message : string)
| showinfo (title message : string)
| showerror (title message : string).

(** How a handler ends: with a message box, silently, or with an exception
    that leaves the callback. *)
Inductive outcome : Type :=
| Shown (m : messagebox)
| Quiet
| Raised (exc : string).

(** The value [json.dump] writes and [json.load] reads back.  The text in
    the file is not modelled: writing a value and parsing the text again
    gives the same tree, where a tuple has become a list. *)
#[warnings="-register-all"] Inductive json : Type :=
| JString (s : string)
| JNumber (n : pynum)
| JArray (items : list json)
| JObject (members : list (string * json)).

(** All the results when every element succeeds, [None] as soon as one
    fails (the exception leaves the comprehension). *)
Fixpoint traverse {A B : Type} (f : A -> option B) (l : list A) : option (list B) :=
  match l with
  | [] => Some []
  | x :: rest =>
      match f x, traverse f rest with
      | Some y, Some ys => Some (y :: ys)
      | _, _ => None
      end
  end.

Module Json.

(** [data[key]] on a loaded object; the last member of that name counts. *)
Fixpoint member (key : string) (members : list (string * json)) : option json :=
  match members with
  | [] => None
  | (k, v) :: rest =>
      match member key rest with
      | Some v' => Some v'
      | None => if String.eqb k key then Some v else None
      end
  end.

End Json.

(* ================================================================= *)
(** ** Appointments *)
(* ================================================================= *)

(** The type of days, under a name the fields of an appointment do not
    hide. *)
Abbreviation calendar_date := date.

Module Appointment.

Local Open Scope string_scope.

(** [class Appointment] *)
Record t : Type := mk {
  patient_name : string;
  phone : string;
  date : string;        (* YYYY-MM-DD text, as typed *)
  time_slot : string;   (* HH:MM text, as typed *)
  treatments : list treatment
}.

Definition __init__ (patient_name phone date time_slot : string)
    (treatments : list treatment) : t :=
  mk (Str.strip patient_name) (Str.strip phone) date time_slot treatments.

(** [to_dict]: every cost goes through [float(cost)]. *)
Definition to_dict (a : t) : json :=
  JObject
    [ ("patient_name", JString (patient_name a));
      ("phone", JString (phone a));
      ("date", JString (date a));
      ("time_slot", JString (time_slot a));
      ("treatments",
       JArray (map (fun nc => JArray [JString (fst nc);
                                      JNumber (PyFloat (PyNum.to_float (snd nc)))])
                   (treatments a))) ].

(** One element of [data['treatments']], unpacked as [name, cost]. *)
Definition treatment_of_json (j : json) : option treatment :=
  match j with
  | JArray [JString name; JNumber cost] => Some (name, cost)
  | _ => None
  end.

(** [from_dict]: [None] when the record lacks a key or holds a value of
    another type than [to_dict] writes. *)
Definition from_dict (data : json) : option t :=
  match data with
  | JObject ms =>
      match Json.member "treatments" ms, Json.member "patient_name" ms,
            Json.member "phone" ms, Json.member "date" ms,
            Json.member "time_slot" ms with
      | Some (JArray ts), Some (JString n), Some (JString p),
        Some (JString d), Some (JString s) =>
          match traverse treatment_of_json ts with
          | Some treatments => Some (__init__ n p d s treatments)
          | None => None
          end
      | _, _, _, _, _ => None
      end
  | _ => None
  end.

(** [is_upcoming], with the day [date.today()] returns. *)
Definition is_upcoming `{Builtins} (today : calendar_date) (a : t) : bool :=
  match strptime_date (date a) with
  | Some appt_date => Date.leb today appt_date
  | None => false
  end.

Definition __str__ (a : t) : string :=
  let treatments_str :=
    match treatments a with
    | [] => "None"
    | ts => String.concat ", " (map fst ts)
    end in
  patient_name a ++ " - " ++ date a ++ " " ++ time_slot a
    ++ " (" ++ treatments_str ++ ")".

End Appointment.

(** [load_appointments]: the file is absent ([None]) or holds a JSON value;
    anything that is not a list of well-formed records gives no
    appointments. *)
Definition load_appointments (file : option json) : list Appointment.t :=
  match file with
  | Some (JArray records) =>
      match traverse Appointment.from_dict records with
      | Some appts => appts
      | None => []
      end
  | _ => []
  end.

(** [save_appointments]: the whole collection replaces the file. *)
Definition save_appointments (appointments : list Appointment.t) : option json :=
  Some (JArray (map Appointment.to_dict appointments)).

(* ================================================================= *)
(** ** Whole-catalog edits *)
(* ================================================================= *)

(** The two edit windows rebuild the catalog from the lines of a text box.
    [enumerate(lines, 1)] numbers the lines; the number of a line is the key
    its treatment gets. *)
Module CatalogEdit.

Local Open Scope string_scope.
Local Open Scope Z_scope.

(** [text_box.get(1.0, tk.END).strip().split("\n")] *)
Definition text_lines (text : string) : list string :=
  Str.split "010"%char (Str.strip text).

(** [old_treatments.get(name, 1000)] for
    [old_treatments = {v[0]: v[1] for v in treatments.values()}]: of several
    treatments with one name the last one gives the price. *)
Definition old_price (treatments : dict) (name : string) : pynum :=
  match find (fun v => String.eqb (fst v) name) (rev (Dict.values treatments)) with
  | Some v => snd v
  | None => PyInt 1000
  end.

(** The loop of [save_treatments], from line number [i] on. *)
Fixpoint names_loop (treatments : dict) (i : Z) (lines : list string)
    (new_treatments : dict) : dict :=
  match lines with
  | [] => new_treatments
  | name :: rest =>
      let name := Str.strip name in
      if negb (Str.nonempty name) then
        names_loop treatments (i + 1) rest new_treatments
      else
        let price := old_price treatments name in
        names_loop treatments (i + 1) rest (Dict.set new_treatments i (name, price))
  end.

(** The result of an edit: the catalog to install, or the warning shown
    when there is none. *)
Inductive edited : Type :=
| Installed (new_treatments : dict)
| Rejected (message : string).

End CatalogEdit.

(* ================================================================= *)
(** ** [dental_billing.py] *)
(* ================================================================= *)

Module dental_billing.

Import CatalogEdit.
Local Open Scope string_scope.
Local Open Scope Z_scope.

(** [DentalClinic.__init__]: the literal catalog. *)
Definition initial_treatments : dict :=
  [ (1, ("Dental Check-up & Consultation", PyInt 2000));
    (2, ("Teeth Cleaning (Scaling & Polishing)", PyInt 7000));
    (3, ("Tooth Extraction", PyInt 2500));
    (4, ("Dental Fillings (Cavity Treatment)", PyInt 5000));
    (5, ("Root Canal Treatment", PyInt 15000));
    (6, ("Teeth Whitening", PyInt 12000));
    (7, ("Braces Consultation", PyInt 5000)) ].

(** [save_treatments] of [edit_treatments]; [treatments] is the catalog the
    window was opened on. *)
Definition save_treatments (treatments : dict) (text : string) : edited :=
  let lines := text_lines text in
  match lines with
  | [] => Rejected "At least one treatment is required."
  | _ =>
      match names_loop treatments 1 lines [] with
      | [] => Rejected "At least one valid treatment is required."
      | new_treatments => Installed new_treatments
      end
  end.

(** The loop of [save_prices]: every line must be [name: price]. *)
Fixpoint prices_loop `{Builtins} (i : Z) (lines : list string)
    (new_treatments : dict) : edited :=
  match lines with
  | [] => Installed new_treatments
  | line :: rest =>
      match Str.split_once ":"%char line with
      | None =>
          Rejected ("Line " ++ Str.of_Z i ++ " is invalid. Use 'Treatment: price' format.")
      | Some (name, price_str) =>
          let name := Str.strip name in
          let price_str := Str.strip price_str in
          if negb (Str.nonempty name) then
            Rejected ("Line " ++ Str.of_Z i ++ " has empty treatment name.")
          else
            match float_of_string price_str with
            | Some price =>
                if PyNum.ltb (PyFloat price) (PyInt 0) then
                  Rejected ("Line " ++ Str.of_Z i ++ " has negative price.")
                else
                  prices_loop (i + 1) rest (Dict.set new_treatments i (name, PyFloat price))
            | None => Rejected ("Line " ++ Str.of_Z i ++ " has invalid price.")
            end
      end
  end.

Definition save_prices `{Builtins} (text : string) : edited :=
  match prices_loop 1 (text_lines text) [] with
  | Installed [] => Rejected "At least one valid treatment is required."
  | r => r
  end.

(** What the handler does to [self.clinic._treatments]. *)
Definition install (treatments : dict) (r : edited) : dict :=
  match r with
  | Installed new_treatments => new_treatments
  | Rejected _ => treatments
  end.

End dental_billing.

(* ================================================================= *)
(** ** [Dental_Clinic.py] *)
(* ================================================================= *)

Module Dental_Clinic.

Import CatalogEdit.
Local Open Scope string_scope.
Local Open Scope Z_scope.

(** *** Catalog edits *)

(** [save_treatments] of [edit_treatments]; [treatments] is the catalog the
    window was opened on. *)
Definition save_treatments (treatments : dict) (text : string) : edited :=
  let lines := text_lines text in
  if match lines with [] => true | _ => false end
     || forallb (fun line => negb (Str.nonempty (Str.strip line))) lines
  then Rejected "At least one treatment is required."
  else
    match names_loop treatments 1 lines [] with
    | [] => Rejected "At least one valid treatment is required."
    | new_treatments => Installed new_treatments
    end.

(** The loop of [save_prices]: blank lines, lines without a colon and
    lines without a name are passed over. *)
Fixpoint prices_loop `{Builtins} (i : Z) (lines : list string)
    (new_treatments : dict) : edited :=
  match lines with
  | [] => Installed new_treatments
  | line :: rest =>
      let line := Str.strip line in
      if negb (Str.nonempty line) || negb (Str.contains_char ":"%char line) then
        prices_loop (i + 1) rest new_treatments
      else
        match Str.split_once ":"%char line with
        | None => prices_loop (i + 1) rest new_treatments
        | Some (name, price_str) =>
            let name := Str.strip name in
            let price_str := Str.strip price_str in
            if negb (Str.nonempty name) then
              prices_loop (i + 1) rest new_treatments
            else
              match float_of_string price_str with
              | Some price =>
                  if PyNum.ltb (PyFloat price) (PyInt 0) then
                    Rejected ("Line " ++ Str.of_Z i ++ ": Price cannot be negative.")
                  else
                    prices_loop (i + 1) rest
                      (Dict.set new_treatments i (name, PyFloat price))
              | None =>
                  Rejected ("Line " ++ Str.of_Z i ++ ": Invalid price '"
                            ++ price_str ++ "'.")
              end
        end
  end.

Definition save_prices `{Builtins} (text : string) : edited :=
  match prices_loop 1 (text_lines text) [] with
  | Installed [] => Rejected "At least one valid treatment:price is required."
  | r => r
  end.

(** *** The application state *)

(** The fields of [DentalClinicGUI] the handlers read and write, and the
    two files next to the script. *)
Record State : Type := mkState {
  clinic_name : string;
  _treatments : dict;                       (* self.clinic._treatments *)
  treatment_keys : list Z;
  appt_treatment_keys : list Z;
  patient : option Billable;
  appointments : list Appointment.t;
  bill_text : string;
  search_results_text : string;
  appointments_listbox : list string;
  patient_bills_txt : option string;        (* [None]: no such file *)
  appointments_json : option json
}.

Definition set_treatments (st : State) (d : dict) : State :=
  mkState (clinic_name st) d (Dict.keys d) (Dict.keys d) (patient st)
          (appointments st) (bill_text st) (search_results_text st)
          (appointments_listbox st) (patient_bills_txt st) (appointments_json st).

Definition set_patient (st : State) (p : option Billable) : State :=
  mkState (clinic_name st) (_treatments st) (treatment_keys st)
          (appt_treatment_keys st) p (appointments st) (bill_text st)
          (search_results_text st) (appointments_listbox st)
          (patient_bills_txt st) (appointments_json st).

Definition set_bill (st : State) (text : string) (log : option string) : State :=
  mkState (clinic_name st) (_treatments st) (treatment_keys st)
          (appt_treatment_keys st) (patient st) (appointments st) text
          (search_results_text st) (appointments_listbox st) log
          (appointments_json st).

Definition set_search_results (st : State) (text : string) : State :=
  mkState (clinic_name st) (_treatments st) (treatment_keys st)
          (appt_treatment_keys st) (patient st) (appointments st) (bill_text st)
          text (appointments_listbox st) (patient_bills_txt st)
          (appointments_json st).

Definition set_appointments (st : State) (appts : list Appointment.t)
    (file : option json) : State :=
  mkState (clinic_name st) (_treatments st) (treatment_keys st)
          (appt_treatment_keys st) (patient st) appts (bill_text st)
          (search_results_text st) (appointments_listbox st)
          (patient_bills_txt st) file.

Definition set_listbox (st : State) (rows : list string) : State :=
  mkState (clinic_name st) (_treatments st) (treatment_keys st)
          (appt_treatment_keys st) (patient st) (appointments st) (bill_text st)
          (search_results_text st) rows (patient_bills_txt st)
          (appointments_json st).

(** The [Save] button of an edit window: a new catalog is installed and
    both treatment list boxes are refreshed; a rejected edit only shows
    its warning. *)
Definition apply_edit (st : State) (r : edited) (done : string) : State * outcome :=
  match r with
  | Installed new_treatments =>
      (set_treatments st new_treatments, Shown (showinfo "Success" done))
  | Rejected message => (st, Shown (showwarning "Input Error" message))
  end.

Definition edit_treatments_save (st : State) (treatments : dict) (text : string)
    : State * outcome :=
  apply_edit st (save_treatments treatments text) "Treatments updated!".

Definition edit_prices_save `{Builtins} (st : State) (text : string) : State * outcome :=
  apply_edit st (save_prices text) "Prices updated!".

(** *** Billing tab *)

(** The loop of [generate_bill] over the selected rows: the row gives a
    key, the key a catalog tuple.  A missing row or key raises and leaves
    the patient with what was added so far. *)
Fixpoint add_selected (st : State) (b : Billable) (selected_indices : list nat)
    : Billable * option string :=
  match selected_indices with
  | [] => (b, None)
  | idx :: rest =>
      match nth_error (treatment_keys st) idx with
      | None => (b, Some "IndexError")
      | Some key =>
          match Dict.get (_treatments st) key with
          | None => (b, Some "KeyError")
          | Some tr => add_selected st (BillableM.add_treatment b tr) rest
          end
      end
  end.

(** [save_bill_to_files], as far as the combined log goes: the text and a
    blank line are appended, the file is created when absent.  (The dated
    per-bill copies are not part of the state.) *)
Definition append_bill (log : option string) (bill_text : string) : option string :=
  let record := bill_text ++ String "010" (String "010" EmptyString) in
  match log with
  | None => Some record
  | Some content => Some (content ++ record)
  end.

(** [generate_bill]: the entries of the billing tab, the selected rows and
    the clock reading [now_str].  (The closing message also lists the
    paths of the files; only its first line is kept.) *)
Definition generate_bill `{Builtins} (st : State)
    (name_entry phone_entry patient_type discount_entry : string)
    (selected_indices : list nat) (now_str : string) : State * outcome :=
  let name := Str.strip name_entry in
  let phone := Str.strip phone_entry in
  if negb (Str.nonempty name) then
    (st, Shown (showwarning "Input Error" "Please enter patient name."))
  else if negb (Str.nonempty phone) then
    (st, Shown (showwarning "Input Error" "Please enter phone number."))
  else
    let created :=
      if String.eqb patient_type "vip" then
        match float_of_string discount_entry with
        | Some discount =>
            if PyNum.ltb (PyFloat discount) (PyInt 0)
               || PyNum.ltb (PyInt 100) (PyFloat discount)
            then inl "Discount must be between 0 and 100."
            else inr (VIP (VIPPatient.__init__ name phone (PyFloat discount)))
        | None => inl "Invalid discount value."
        end
      else inr (Normal (Patient.__init__ name phone)) in
    match created with
    | inl message => (st, Shown (showwarning "Input Error" message))
    | inr b =>
        match selected_indices with
        | [] =>
            (set_patient st (Some b),
             Shown (showwarning "Input Error" "Please select at least one treatment."))
        | _ =>
            match add_selected st (BillableM.clear_treatments b) selected_indices with
            | (b', Some exc) => (set_patient st (Some b'), Raised exc)
            | (b', None) =>
                let title :=
                  if String.eqb patient_type "vip" then "VIP BILL RECEIPT"
                  else "BILL RECEIPT" in
                let bill := BillableM._build_bill_text b' (clinic_name st) title in
                let full_text := "Date & Time: " ++ now_str ++ String "010" bill in
                (set_bill (set_patient st (Some b')) full_text
                          (append_bill (patient_bills_txt st) full_text),
                 Shown (showinfo "Success" "Bill generated and saved!"))
            end
        end
    end.

(** *** Search tab *)

Definition placeholder : string := "enter name or phone (partial match)...".

(** A position where the look-ahead of the split pattern succeeds: five
    [=] or three line feeds follow. *)
Definition boundary (s : string) : bool :=
  String.prefix "=====" s
  || String.prefix (String "010" (String "010" (String "010" EmptyString))) s.

(** The pieces of [s] when it is cut before every later position that is a
    boundary. *)
Fixpoint pieces (s : string) : list string :=
  match s with
  | EmptyString => [EmptyString]
  | String c s' =>
      if boundary s' then String c EmptyString :: pieces s'
      else match pieces s' with
           | h :: t => String c h :: t
           | [] => [String c EmptyString]
           end
  end.

(** [re.split(r'(?=={5,}|\n{3,})', content)]: an empty match splits, also
    at position 0, where it leaves an empty first piece. *)
Definition re_split (content : string) : list string :=
  if boundary content then EmptyString :: pieces content else pieces content.

(** [matching_bills] *)
Definition matching_bills (query content : string) : list string :=
  map Str.strip
      (filter (fun bill => Str.nonempty (Str.strip bill)
                           && Str.contains query (Str.lower bill))
              (re_split content)).

Fixpoint records_text (i : Z) (bills : list string) : string :=
  match bills with
  | [] => EmptyString
  | bill :: rest =>
      "--- Record " ++ Str.of_Z i ++ " ---" ++ String "010" bill
        ++ String "010" (Str.replicate 50 "="%char)
        ++ String "010" (String "010" (records_text (i + 1) rest))
  end.

Definition results_text (matching : list string) : string :=
  let n := Z.of_nat (List.length matching) in
  "Found " ++ Str.of_Z n ++ " matching record(s):" ++ String "010" (String "010"
    (records_text 1 (firstn 10 matching)
     ++ (if 10 <? n then
           "... and " ++ Str.of_Z (n - 10) ++ " more matches (refine search for more)."
             ++ String "010" EmptyString
         else EmptyString))).

(** [search_bills] on the text of the search entry. *)
Definition search_bills (st : State) (search_tab_entry : string) : State * outcome :=
  let query := Str.lower (Str.strip search_tab_entry) in
  if negb (Str.nonempty query) || String.eqb query placeholder then
    (st, Shown (showwarning "Search Error"
                  "Please enter a valid search term (name or phone)."))
  else
    match patient_bills_txt st with
    | None =>
        (set_search_results st
           "No bill records found. Please generate some bills in the Billing tab first.",
         Shown (showinfo "No Records"
                  "No bill records exist yet. Generate bills to create the search database."))
    | Some content =>
        match matching_bills query content with
        | [] =>
            (set_search_results st
               "No matching records found. Try a different name or phone (partial matches work).",
             Shown (showinfo "Search Results"
                      "No matches found. Try broadening your search term."))
        | matching =>
            (set_search_results st (results_text matching),
             Shown (showinfo "Search Results"
                      ("Found " ++ Str.of_Z (Z.of_nat (List.length matching))
                       ++ " matches. Full details shown below (limited to 10).")))
        end
    end.

(** *** Appointments tab *)

(** [list.sort(key=...)] computes the key of every element once, sorts on
    the keys and keeps elements with equal keys in their order.  The keys
    here are dates; the sort is modelled by a stable insertion sort. *)
Fixpoint insert_by_date {A : Type} (x : date * A) (l : list (date * A))
    : list (date * A) :=
  match l with
  | [] => [x]
  | y :: rest =>
      if Date.leb (fst x) (fst y) then x :: y :: rest
      else y :: insert_by_date x rest
  end.

Fixpoint sort_by_date {A : Type} (l : list (date * A)) : list (date * A) :=
  match l with
  | [] => []
  | x :: rest => insert_by_date x (sort_by_date rest)
  end.

(** The key [datetime.strptime(x.date, "%Y-%m-%d")] of every element;
    [None] when one of them raises. *)
Definition with_keys `{Builtins} (l : list Appointment.t)
    : option (list (date * Appointment.t)) :=
  traverse (fun a => match strptime_date (Appointment.date a) with
                     | Some d => Some (d, a)
                     | None => None
                     end) l.

(** The local [upcoming] of [refresh_appointments_list]: the upcoming
    appointments, sorted by date. *)
Definition upcoming `{Builtins} (today : date) (appts : list Appointment.t)
    : option (list Appointment.t) :=
  match with_keys (filter (Appointment.is_upcoming today) appts) with
  | Some keyed => Some (map snd (sort_by_date keyed))
  | None => None
  end.

(** [refresh_appointments_list]: the list box is emptied and filled with
    the upcoming view. *)
Definition refresh_appointments_list `{Builtins} (today : date) (st : State)
    : State * outcome :=
  match upcoming today (appointments st) with
  | Some view => (set_listbox st (map Appointment.__str__ view), Quiet)
  | None => (set_listbox st [], Raised "ValueError")
  end.

(** The treatments of the selected rows of the appointment list box. *)
Fixpoint selected_treatments (keys : list Z) (catalog : dict)
    (selected_indices : list nat) : string + list treatment :=
  match selected_indices with
  | [] => inr []
  | idx :: rest =>
      match nth_error keys idx with
      | None => inl "IndexError"
      | Some key =>
          match Dict.get catalog key with
          | None => inl "KeyError"
          | Some tr =>
              match selected_treatments keys catalog rest with
              | inr trs => inr (tr :: trs)
              | inl exc => inl exc
              end
          end
      end
  end.

(** The checks [book_appointment] and [save_edit] share: the warning to
    show, if any. *)
Definition check_fields `{Builtins} (today : date)
    (name phone date_text time_slot : string) (format_hint : string)
    (selected_indices : list nat) : option string :=
  if negb (Str.nonempty name && Str.nonempty phone
           && Str.nonempty date_text && Str.nonempty time_slot) then
    Some "Please fill all fields."
  else
    match strptime_date date_text with
    | None => Some ("Invalid date format. Use YYYY-MM-DD" ++ format_hint)
    | Some parsed_date =>
        if Date.ltb parsed_date today then
          Some "Date must be today or in the future."
        else
          match strptime_time time_slot with
          | None => Some "Invalid time format. Use HH:MM (e.g., 14:30)."
          | Some (hour, minute) =>
              if negb ((0 <=? hour) && (hour <? 24) && (0 <=? minute) && (minute <? 60))
              then Some "Invalid time format. Use HH:MM (e.g., 14:30)."
              else
                match selected_indices with
                | [] => Some "Please select at least one treatment."
                | _ => None
                end
          end
    end.

(** [book_appointment]: the four entries, the selected rows, and the day
    [date.today()] returns. *)
Definition book_appointment `{Builtins} (today : date) (st : State)
    (name_entry phone_entry date_entry time_entry : string)
    (selected_indices : list nat) : State * outcome :=
  let name := Str.strip name_entry in
  let phone := Str.strip phone_entry in
  let date_text := Str.strip date_entry in
  let time_slot := Str.strip time_entry in
  match check_fields today name phone date_text time_slot
          " (e.g., 2024-10-15)." selected_indices with
  | Some message => (st, Shown (showwarning "Input Error" message))
  | None =>
      match selected_treatments (appt_treatment_keys st) (_treatments st)
              selected_indices with
      | inl exc => (st, Raised exc)
      | inr treatments =>
          let appointment :=
            Appointment.__init__ name phone date_text time_slot treatments in
          let appts := (appointments st ++ [appointment])%list in
          let st1 := set_appointments st appts (save_appointments appts) in
          match refresh_appointments_list today st1 with
          | (st2, Raised exc) => (st2, Raised exc)
          | (st2, _) =>
              (st2, Shown (showinfo "Success" "Appointment booked successfully!"))
          end
      end
  end.

(** [self.appointments.index(upcoming[index])]: the place in the stored
    list of the [index]-th appointment that passes [is_upcoming], counted
    in stored order. *)
Fixpoint full_index `{Builtins} (today : date) (appts : list Appointment.t)
    (index : nat) : option nat :=
  match appts with
  | [] => None
  | a :: rest =>
      if Appointment.is_upcoming today a then
        match index with
        | O => Some O
        | S index' => option_map S (full_index today rest index')
        end
      else option_map S (full_index today rest index)
  end.

(** [self.appointments[i] = ...], field by field. *)
Fixpoint replace_at (appts : list Appointment.t) (i : nat) (a : Appointment.t)
    : option (list Appointment.t) :=
  match appts, i with
  | [], _ => None
  | _ :: rest, O => Some (a :: rest)
  | x :: rest, S i' => option_map (cons x) (replace_at rest i' a)
  end.

(** [save_edit] of the edit window opened on [self.appointments[i]]; the
    window lists the catalog as it is when [Save Changes] is pressed. *)
Definition save_edit `{Builtins} (today : date) (st : State) (i : nat)
    (name_entry phone_entry date_entry time_entry : string)
    (selected_indices : list nat) : State * outcome :=
  let new_name := Str.strip name_entry in
  let new_phone := Str.strip phone_entry in
  let new_date := Str.strip date_entry in
  let new_time := Str.strip time_entry in
  match check_fields today new_name new_phone new_date new_time "."
          selected_indices with
  | Some message => (st, Shown (showwarning "Input Error" message))
  | None =>
      match selected_treatments (Dict.keys (_treatments st)) (_treatments st)
              selected_indices with
      | inl exc => (st, Raised exc)
      | inr new_treatments =>
          match replace_at (appointments st) i
                  (Appointment.mk new_name new_phone new_date new_time new_treatments)
          with
          | None => (st, Raised "IndexError")
          | Some appts =>
              let st1 := set_appointments st appts (save_appointments appts) in
              match refresh_appointments_list today st1 with
              | (st2, Raised exc) => (st2, Raised exc)
              | (st2, _) =>
                  (st2, Shown (showinfo "Success" "Appointment updated successfully!"))
              end
          end
      end
  end.

Fixpoint remove_at (appts : list Appointment.t) (i : nat) : list Appointment.t :=
  match appts, i with
  | [], _ => []
  | _ :: rest, O => rest
  | x :: rest, S i' => x :: remove_at rest i'
  end.

(** [delete_appointment] once the user has confirmed, for the selected row
    [index] of the list box. *)
Definition delete_appointment `{Builtins} (today : date) (st : State) (index : nat)
    : State * outcome :=
  match full_index today (appointments st) index with
  | Some i =>
      let appts := remove_at (appointments st) i in
      let st1 := set_appointments st appts (save_appointments appts) in
      match refresh_appointments_list today st1 with
      | (st2, Raised exc) => (st2, Raised exc)
      | (st2, _) =>
          (st2, Shown (showinfo "Success" "Appointment deleted successfully!"))
      end
  | None => (st, Shown (showwarning "Error" "Invalid selection. Please try again."))
  end.

(** [DentalClinicGUI.load_appointments] at start-up. *)
Definition load (st : State) : State :=
  set_appointments st (load_appointments (appointments_json st)) (appointments_json st).

End Dental_Clinic.

(* ================================================================= *)
(** ** A runnable instance of the built-ins *)
(* ================================================================= *)

(** The model runs on any [Builtins].  This instance covers the inputs a
    clerk types: [float] of a plain decimal literal, [strptime] as its
    regular expressions read a string, and the text of a float with its
    shortest decimal expansion that reads back as the same float. *)
Module Py.

Local Open Scope string_scope.
Local Open Scope Z_scope.

Definition digit (c : ascii) : option Z :=
  let n := Z.of_nat (nat_of_ascii c) in
  if (48 <=? n) && (n <=? 57) then Some (n - 48) else None.

(** The digits of [s], most significant first, when [s] is all digits. *)
Fixpoint digits (s : string) (acc : Z) (count : nat) : option (Z * nat) :=
  match s with
  | EmptyString => Some (acc, count)
  | String c s' =>
      match digit c with
      | Some d => digits s' (10 * acc + d) (S count)
      | None => None
      end
  end.

(** An unsigned literal [ddd] or [ddd.ddd] (one side of the point may be
    empty), as the exact rational it writes. *)
Definition unsigned_literal (s : string) : option Q :=
  match Str.split_once "."%char s with
  | None =>
      match digits s 0 0 with
      | Some (n, S _) => Some (inject_Z n)
      | _ => None
      end
  | Some (ip, fp) =>
      match digits ip 0 0, digits fp 0 0 with
      | Some (n, ci), Some (f, cf) =>
          match ci, cf with
          | O, O => None
          | _, _ => Some (inject_Z n + inject_Z f / inject_Z (10 ^ Z.of_nat cf))%Q
          end
      | _, _ => None
      end
  end.

(** [float(s)]: white space around the literal is ignored, a sign may come
    first, and the value is rounded to the nearest float. *)
Definition float (s : string) : option Q :=
  match Str.strip s with
  | String "-" u => option_map (fun q => Float64.fl (- q)%Q) (unsigned_literal u)
  | String "+" u => option_map Float64.fl (unsigned_literal u)
  | u => option_map Float64.fl (unsigned_literal u)
  end.

(** The text of [n] with [k] digits after the point. *)
Definition fixed (n : Z) (k : nat) : string :=
  let sign := if n <? 0 then "-" else "" in
  let m := Z.abs n in
  let p := 10 ^ Z.of_nat k in
  let frac := Str.of_Z (m mod p) in
  sign ++ Str.of_Z (m / p) ++ "."
    ++ Str.replicate (k - String.length frac) "0"%char ++ frac.

Fixpoint shortest (x : Q) (k fuel : nat) : string :=
  let n := Float64.rne (x * inject_Z (10 ^ Z.of_nat k))%Q in
  match fuel with
  | O => fixed n k
  | S fuel' =>
      if Qeq_bool (Float64.fl (inject_Z n / inject_Z (10 ^ Z.of_nat k))%Q) x
      then fixed n k
      else shortest x (S k) fuel'
  end.

(** [str(x)] of a float, in positional notation. *)
Definition str_float (x : Q) : string := shortest x 1 400.

Definition is_leap (y : Z) : bool :=
  ((y mod 4 =? 0) && negb (y mod 100 =? 0)) || (y mod 400 =? 0).

Definition days_in_month (y m : Z) : Z :=
  if m =? 2 then (if is_leap y then 29 else 28)
  else if (m =? 4) || (m =? 6) || (m =? 9) || (m =? 11) then 30
  else 31.

(** A field of one or two digits at the head of [s], read as the
    alternatives of [two] (on two characters) and then [one] allow. *)
Definition field (two : Z -> Z -> bool) (one : Z -> bool) (s : string)
    : option (Z * string) :=
  match s with
  | String c1 (String c2 rest) =>
      match digit c1, digit c2 with
      | Some a, Some b =>
          if two a b then Some (10 * a + b, rest)
          else if one a then Some (a, String c2 rest)
          else None
      | Some a, None => if one a then Some (a, String c2 rest) else None
      | None, _ => None
      end
  | String c1 EmptyString =>
      match digit c1 with
      | Some a => if one a then Some (a, EmptyString) else None
      | None => None
      end
  | EmptyString => None
  end.

(** [%m]: [1[0-2]|0[1-9]|[1-9]] *)
Definition month_field : string -> option (Z * string) :=
  field (fun a b => ((a =? 1) && (b <=? 2)) || ((a =? 0) && (1 <=? b)))
        (fun a => 1 <=? a).

(** [%d]: [3[01]|[12]\d|0[1-9]|[1-9]| [1-9]] *)
Definition day_field (s : string) : option (Z * string) :=
  match field (fun a b => ((a =? 3) && (b <=? 1)) || (a =? 1) || (a =? 2)
                          || ((a =? 0) && (1 <=? b)))
              (fun a => 1 <=? a) s with
  | Some r => Some r
  | None =>
      match s with
      | String " " (String c rest) =>
          match digit c with
          | Some a => if 1 <=? a then Some (a, rest) else None
          | None => None
          end
      | _ => None
      end
  end.

(** [%H]: [2[0-3]|[0-1]\d|\d] *)
Definition hour_field : string -> option (Z * string) :=
  field (fun a b => ((a =? 2) && (b <=? 3)) || (a <=? 1)) (fun _ => true).

(** [%M]: [[0-5]\d|\d] *)
Definition minute_field : string -> option (Z * string) :=
  field (fun a _ => a <=? 5) (fun _ => true).

(** [datetime.strptime(s, "%Y-%m-%d").date()] *)
Definition strptime_ymd (s : string) : option date :=
  match s with
  | String y1 (String y2 (String y3 (String y4 (String "-" s1)))) =>
      match digit y1, digit y2, digit y3, digit y4 with
      | Some a, Some b, Some c, Some d =>
          let y := 1000 * a + 100 * b + 10 * c + d in
          match month_field s1 with
          | Some (m, String "-" s2) =>
              match day_field s2 with
              | Some (dd, EmptyString) =>
                  if (1 <=? y) && (dd <=? days_in_month y m)
                  then Some (mkDate y m dd) else None
              | _ => None
              end
          | _ => None
          end
      | _, _, _, _ => None
      end
  | _ => None
  end.

(** The hour and minute of [datetime.strptime(s, "%H:%M")]. *)
Definition strptime_hm (s : string) : option (Z * Z) :=
  match hour_field s with
  | Some (h, String ":" s1) =>
      match minute_field s1 with
      | Some (m, EmptyString) => Some (h, m)
      | _ => None
      end
  | _ => None
  end.

#[export] Instance builtins : Builtins := {
  float_of_string := float;
  str_of_float := str_float;
  strptime_date := strptime_ymd;
  strptime_time := strptime_hm
}.

End Py.

(* ================================================================= *)
(** ** Vocabulary of the properties *)
(* ================================================================= *)

(** [enumerate(l, i)] *)
Fixpoint enumerate {A : Type} (i : Z) (l : list A) : list (Z * A) :=
  match l with
  | [] => []
  | x :: rest => (i, x) :: enumerate (i + 1) rest
  end.

(** The keys [1..N] of a catalog of [N] treatments. *)
Definition dense (keys : list Z) : Prop :=
  keys = map Z.of_nat (seq 1 (List.length keys)).

(** A line of the treatment editor that names a treatment. *)
Definition names_treatment (line : string) : bool :=
  Str.nonempty (Str.strip line).

(** How the price editor of [Dental_Clinic.py] reads a line: the name and
    the price text, or nothing when the line is passed over (blank, no
    colon, or no name before the colon). *)
Definition price_line (line : string) : option (string * string) :=
  let line := Str.strip line in
  if negb (Str.nonempty line) then None
  else
    match Str.split_once ":"%char line with
    | None => None
    | Some (name, price_str) =>
        if Str.nonempty (Str.strip name)
        then Some (Str.strip name, Str.strip price_str)
        else None
    end.

(** A price text that is not accepted: it does not parse, or it parses to a
    negative number. *)
Definition bad_price `{Builtins} (price_str : string) : bool :=
  match float_of_string price_str with
  | Some price => PyNum.ltb (PyFloat price) (PyInt 0)
  | None => true
  end.

(** A line the price editor of [Dental_Clinic.py] rejects. *)
Definition rejected_line `{Builtins} (line : string) : bool :=
  match price_line line with
  | Some (_, price_str) => bad_price price_str
  | None => false
  end.

(** A line the price editor of [dental_billing.py] rejects: no colon, no
    name, or a price that is not accepted. *)
Definition rejected_line_strict `{Builtins} (line : string) : bool :=
  match Str.split_once ":"%char line with
  | None => true
  | Some (name, price_str) =>
      negb (Str.nonempty (Str.strip name)) || bad_price (Str.strip price_str)
  end.

(** A warning that names line [i]. *)
Definition names_line (i : Z) (message : string) : Prop :=
  exists rest : string,
    message = ("Line " ++ Str.of_Z i ++ ": " ++ rest)%string
    \/ message = ("Line " ++ Str.of_Z i ++ " " ++ rest)%string.

(** The four whole-catalog editors: the treatment-name editor and the price
    editor of each of the two programs. *)
Inductive editor : Type :=
| NamesEditor          (* Dental_Clinic.py, edit_treatments *)
| NamesEditorOld       (* dental_billing.py, edit_treatments *)
| PricesEditor         (* Dental_Clinic.py, edit_prices *)
| PricesEditorOld.     (* dental_billing.py, edit_prices *)

Definition run_editor `{Builtins} (e : editor) (treatments : dict) (text : string)
    : CatalogEdit.edited :=
  match e with
  | NamesEditor => Dental_Clinic.save_treatments treatments text
  | NamesEditorOld => dental_billing.save_treatments treatments text
  | PricesEditor => Dental_Clinic.save_prices text
  | PricesEditorOld => dental_billing.save_prices text
  end.



(** The day an appointment is on, when its date text parses. *)
Definition appt_date `{Builtins} (a : Appointment.t) : option date :=
  strptime_date (Appointment.date a).

(** [a] is on day [k]. *)
Definition on_day `{Builtins} (k : date) (a : Appointment.t) : bool :=
  match appt_date a with
  | Some d => Date.eqb d k
  | None => false
  end.

(** [a] is on the day of [b] or on an earlier day. *)
Definition not_after `{Builtins} (a b : Appointment.t) : Prop :=
  match appt_date a, appt_date b with
  | Some x, Some y => Date.leb x y = true
  | _, _ => False
  end.

(** The rows of the appointment list box stand for the keys of the catalog,
    as [refresh_appt_treatment_list] leaves them. *)
Definition rows_match_catalog (st : Dental_Clinic.State) : Prop :=
  Dental_Clinic.appt_treatment_keys st = Dict.keys (Dental_Clinic._treatments st).

(** A selection of rows of a list box with [n] rows. *)
Definition rows_of (n : nat) (selected_indices : list nat) : Prop :=
  Forall (fun idx => (idx < n)%nat) selected_indices.






(** The three endings of a search that went past the query check. *)
Definition search_error : outcome :=
  Shown (showwarning "Search Error" "Please enter a valid search term (name or phone).").



(** A string with a character that is not white space. *)
Fixpoint has_ink (s : string) : bool :=
  match s with
  | EmptyString => false
  | String c s' => negb (Str.isspace c) || has_ink s'
  end.



(* ================================================================= *)
(** ** Sessions *)
(* ================================================================= *)

(** What the user does to the main window of [Dental_Clinic.py], one event
    after the other; [mainloop] runs the handler of each.  An event carries
    what the handler reads from the widgets and from the clock. *)
Module Session.

Import Dental_Clinic.

Inductive event : Type :=
| SaveTreatments (text : string)
| SavePrices (text : string)
| GenerateBill (name_entry phone_entry patient_type discount_entry : string)
               (selected_indices : list nat) (now_str : string)
| SearchBills (search_tab_entry : string)
| Book (today : date) (name_entry phone_entry date_entry time_entry : string)
       (selected_indices : list nat)
| EditAppointment (today : date) (index : nat)
       (name_entry phone_entry date_entry time_entry : string)
       (selected_indices : list nat)
| DeleteAppointment (today : date) (index : nat)
| Relaunch (today : date).

(** [DentalClinicGUI.__init__] on [DentalClinic("...")]: an empty catalog,
    the appointments of the store, and the files as they are on disk. *)
Definition start `{Builtins} (today : date) (name : string)
    (log : option string) (file : option json) : State :=
  fst (refresh_appointments_list today
         (mkState name [] [] [] None (load_appointments file)
                  EmptyString EmptyString [] log file)).

Definition step `{Builtins} (st : State) (ev : event) : State :=
  match ev with
  | SaveTreatments text => fst (edit_treatments_save st (_treatments st) text)
  | SavePrices text => fst (edit_prices_save st text)
  | GenerateBill n p t d sel now => fst (generate_bill st n p t d sel now)
  | SearchBills entry => fst (search_bills st entry)
  | Book today n p d t sel => fst (book_appointment today st n p d t sel)
  | EditAppointment today index n p d t sel =>
      match full_index today (appointments st) index with
      | Some i => fst (save_edit today st i n p d t sel)
      | None => st
      end
  | DeleteAppointment today index => fst (delete_appointment today st index)
  | Relaunch today =>
      start today (clinic_name st) (patient_bills_txt st) (appointments_json st)
  end.

(** The state after a session that began with no files on disk. *)
Definition run `{Builtins} (today : date) (name : string) (events : list event)
    : State :=
  fold_left step events (start today name None None).

End Session.






(** Every key of [d] is below [i]. *)
Definition below (i : Z) (d : dict) : Prop :=
  forall k, In k (Dict.keys d) -> (k < i)%Z.


(** The order and the classes of the sort keys. *)
Definition key_le {A : Type} (x y : date * A) : Prop :=
  Date.leb (fst x) (fst y) = true.

Definition has_key {A : Type} (k : date) (x : date * A) : bool :=
  Date.eqb (fst x) k.

(** A pair of the sort holds the date of its appointment. *)
Definition keyed_right `{Builtins} (p : date * Appointment.t) : Prop :=
  appt_date (snd p) = Some (fst p).


(* ================================================================= *)
(** ** Worked inputs *)
(* ================================================================= *)

Module Demo.

#[local] Existing Instance Py.builtins.
Local Open Scope string_scope.

Definition newline : string := String "010" EmptyString.

(** A state to run the handlers on: one treatment in the catalog. *)
Definition demo_state : Dental_Clinic.State :=
  Dental_Clinic.set_treatments
    (Dental_Clinic.mkState "Bright Smile Dental Clinic" [] [] [] None []
                           EmptyString EmptyString [] None None)
    [(1%Z, ("Cleaning", PyInt 7000))].


Definition two_prices : string := "Cleaning: 7000" ++ newline ++ "Filling: abc".

Definition nameless_second_line : string := "Cleaning: 7000" ++ newline ++ ": 500".

Definition names_with_blank : string := "A" ++ newline ++ newline ++ "B".

Definition today_demo : date := mkDate 2024 10 15.

Definition billed_state : Dental_Clinic.State :=
  fst (Dental_Clinic.generate_bill demo_state "Ali" "0300" "normal" "10" [0%nat]
         "2024-10-15 10:00:00").

Definition demo_bill : string :=
  "Date & Time: 2024-10-15 10:00:00" ++ newline ++ newline
  ++ "===== BILL RECEIPT =====" ++ newline
  ++ "Clinic: Bright Smile Dental Clinic" ++ newline
  ++ "Patient Name: Ali" ++ newline
  ++ "Phone: 0300" ++ newline
  ++ "---------------------------" ++ newline
  ++ "Treatments:" ++ newline
  ++ "- Cleaning: Rs. 7000" ++ newline
  ++ "---------------------------" ++ newline
  ++ "Total Amount: Rs. 7000" ++ newline
  ++ "===========================".


End Demo.

(* ================================================================= *)
(** ** More vocabulary *)
(* ================================================================= *)

(** A query without [=] and without line feed: a name or a phone number. *)
Fixpoint plain_query (q : string) : bool :=
  match q with
  | EmptyString => true
  | String c q' =>
      negb (Ascii.eqb c "="%char) && negb (Ascii.eqb c "010"%char) && plain_query q'
  end.

(** The pieces of a text put together again: [''.join(pieces)]. *)
Definition glue (pieces : list string) : string :=
  fold_right String.append EmptyString pieces.

(** A text whose characters lower-casing neither changes nor produces. *)
Fixpoint caseless (p : string) : Prop :=
  match p with
  | EmptyString => True
  | String a p' => (forall c, Str.lower_char c = a <-> c = a) /\ caseless p'
  end.

(** The entry the name editors make of line number [i]. *)
Definition named_entry (treatments : dict) (il : Z * string) : Z * treatment :=
  (fst il, (Str.strip (snd il), CatalogEdit.old_price treatments (Str.strip (snd il)))).

(** The entry the price editor of [Dental_Clinic.py] makes of line number
    [i], when it keeps the line. *)
Definition priced_entry `{Builtins} (il : Z * string) : list (Z * treatment) :=
  match price_line (snd il) with
  | Some (name, price_str) =>
      match float_of_string price_str with
      | Some price => [(fst il, (name, PyFloat price))]
      | None => []
      end
  | None => []
  end.

(** A catalog without negative prices. *)
Definition catalog_nonneg (d : dict) : Prop :=
  Forall (fun kv => (0 <= PyNum.value (snd (snd kv)))%Q) d.

(** A catalog whose names are stripped and not empty. *)
Definition catalog_named (d : dict) : Prop :=
  Forall (fun kv => Str.nonempty (fst (snd kv)) = true
                    /\ Str.strip (fst (snd kv)) = fst (snd kv)) d.

(** The keys of a record of the store. *)
Definition record_keys : list string :=
  ["patient_name"; "phone"; "date"; "time_slot"; "treatments"]%string.


(** The local [upcoming] of [edit_appointment] and [delete_appointment]: the
    upcoming appointments in stored order. *)
Definition upcoming_stored `{Builtins} (today : date) (st : Dental_Clinic.State)
    : list Appointment.t :=
  filter (Appointment.is_upcoming today) (Dental_Clinic.appointments st).

(** The appointments that are not upcoming, in stored order. *)
Definition past_stored `{Builtins} (today : date) (st : Dental_Clinic.State)
    : list Appointment.t :=
  filter (fun a => negb (Appointment.is_upcoming today a)) (Dental_Clinic.appointments st).

(** The text of the combined log; a log that does not exist yet has none. *)
Definition log_text (log : option string) : string :=
  match log with
  | Some content => content
  | None => EmptyString
  end.

(** Both treatment list boxes show the catalog: their rows stand for its
    keys, in order. *)
Definition rows_in_sync (st : Dental_Clinic.State) : Prop :=
  Dental_Clinic.treatment_keys st = Dict.keys (Dental_Clinic._treatments st)
  /\ Dental_Clinic.appt_treatment_keys st = Dict.keys (Dental_Clinic._treatments st).

(** The treatments a party is billed for. *)
Definition billed (b : Billable) : list treatment :=
  match b with
  | Normal p => Patient._treatments p
  | VIP v => Patient._treatments (VIPPatient.base v)
  end.

(** The discount of a party is a float between 0 and 100, when it has one. *)
Definition discount_in_range (b : Billable) : Prop :=
  match b with
  | Normal _ => True
  | VIP v => exists d : Q, VIPPatient.discount v = PyFloat d /\ (0 <= d <= 100)%Q
  end.

(** What the billing tab keeps true: no negative price in the catalog, and
    a party billed at such prices with a discount in range. *)
Definition billing_invariant (st : Dental_Clinic.State) : Prop :=
  catalog_nonneg (Dental_Clinic._treatments st)
  /\ rows_in_sync st
  /\ forall b, Dental_Clinic.patient st = Some b ->
               nonneg_prices (billed b) /\ discount_in_range b.

(* ================================================================= *)
(** ** What an edit window shows *)
(* ================================================================= *)

(** [sorted(treatments.keys())], by insertion. *)
Fixpoint insert_key (k : Z) (keys : list Z) : list Z :=
  match keys with
  | [] => [k]
  | k' :: rest => if (k <=? k')%Z then k :: keys else k' :: insert_key k rest
  end.

Fixpoint sorted_keys (keys : list Z) : list Z :=
  match keys with
  | [] => []
  | k :: rest => insert_key k (sorted_keys rest)
  end.

(** The loop of [edit_treatments] that fills the text box: the name of every
    treatment, in the order of the sorted keys, each followed by a line
    feed.  (The keys are those of the catalog, so [treatments[key]] is
    always found.) *)
Fixpoint listed_names (treatments : dict) (keys : list Z) : string :=
  match keys with
  | [] => EmptyString
  | key :: rest =>
      match Dict.get treatments key with
      | Some (name, _) => (name ++ String "010" (listed_names treatments rest))%string
      | None => listed_names treatments rest
      end
  end.

Definition names_box (treatments : dict) : string :=
  listed_names treatments (sorted_keys (Dict.keys treatments)).

(** A list of names, each followed by a line feed. *)
Definition lines_text (names : list string) : string :=
  fold_right (fun name rest => (name ++ String "010" rest)%string) EmptyString names.

(** A name as the editors leave it: stripped, not empty, on one line. *)
Definition clean_name (name : string) : Prop :=
  Str.nonempty name = true /\ Str.strip name = name
  /\ Str.contains_char "010"%char name = false.

(** A catalog whose names hold no line feed and differ from each other. *)
Definition one_line_names (d : dict) : Prop :=
  Forall (fun kv => Str.contains_char "010"%char (fst (snd kv)) = false) d.

Definition distinct_names (d : dict) : Prop :=
  NoDup (map fst (Dict.values d)).

(** The keys of a catalog grow along the catalog. *)
Definition keys_increase (d : dict) : Prop :=
  StronglySorted Z.lt (Dict.keys d).

(* ================================================================= *)
(** ** The files of a bill *)
(* ================================================================= *)

(** The character class [[A-Za-z0-9_\-]] of the file-name pattern. *)
Definition safe_char (c : ascii) : bool :=
  let n := nat_of_ascii c in
  ((65 <=? n) && (n <=? 90) || (97 <=? n) && (n <=? 122) || (48 <=? n) && (n <=? 57)
   || (n =? 95) || (n =? 45))%nat.

(** [re.sub(r'[^A-Za-z0-9_\-]+', '_', s)]: every maximal run of characters
    outside the class becomes one [_]; [in_run] tells that the character
    before [s] belongs to such a run. *)
Fixpoint sub_unsafe (in_run : bool) (s : string) : string :=
  match s with
  | EmptyString => EmptyString
  | String c s' =>
      if safe_char c then String c (sub_unsafe false s')
      else if in_run then sub_unsafe true s'
      else String "_"%char (sub_unsafe true s')
  end.

(** [safe_name] of [save_bill_to_files]: the substituted name,
    or ["patient"] when that is empty. *)
Definition safe_name (_name : string) : string :=
  match sub_unsafe false _name with
  | EmptyString => "patient"%string
  | s => s
  end.

(** The names of the individual files of a bill, for the clock reading
    [timestamp]. *)
Definition individual_txt_name (_name timestamp : string) : string :=
  (safe_name _name ++ "_bill_" ++ timestamp ++ ".txt")%string.

Definition individual_pdf_name (_name timestamp : string) : string :=
  (safe_name _name ++ "_bill_" ++ timestamp ++ ".pdf")%string.

(** A text made of characters of the class only. *)
Fixpoint all_safe (s : string) : bool :=
  match s with
  | EmptyString => true
  | String c s' => safe_char c && all_safe s'
  end.

(* ================================================================= *)
(** ** More worked inputs *)
(* ================================================================= *)

Module Cases.

#[local] Existing Instance Py.builtins.
Local Open Scope string_scope.

(** A catalog with two treatments, one of them at a float price. *)
Definition small_catalog : dict :=
  [(1%Z, ("Cleaning", PyInt 7000)); (2%Z, ("Filling", PyFloat 2500))].

(** Two lines with a name and a price around a line without a colon. *)
Definition prices_with_note : string :=
  "Cleaning: 7000" ++ Demo.newline ++ "ask the doctor" ++ Demo.newline ++ "Filling: 2500.50".

(** The book after two bookings, the later day first. *)
Definition late_first : Dental_Clinic.State :=
  fst (Dental_Clinic.book_appointment Demo.today_demo
         (fst (Dental_Clinic.book_appointment Demo.today_demo Demo.demo_state
                 "Ali" "0300" "2024-10-20" "14:30" [0%nat]))
         "Bea" "0301" "2024-10-16" "09:00" [0%nat]).

(** The book after the same bookings in date order. *)
Definition early_first : Dental_Clinic.State :=
  fst (Dental_Clinic.book_appointment Demo.today_demo
         (fst (Dental_Clinic.book_appointment Demo.today_demo Demo.demo_state
                 "Bea" "0301" "2024-10-16" "09:00" [0%nat]))
         "Ali" "0300" "2024-10-20" "14:30" [0%nat]).

Definition ali : Appointment.t :=
  Appointment.mk "Ali" "0300" "2024-10-20" "14:30" [("Cleaning", PyInt 7000)].

Definition bea : Appointment.t :=
  Appointment.mk "Bea" "0301" "2024-10-16" "09:00" [("Cleaning", PyInt 7000)].



(** A record as [to_dict] writes it, and one without its phone number. *)
Definition bea_record : json := Appointment.to_dict bea.

Definition members_without_phone : list (string * json) :=
  [ ("patient_name", JString "Ali"); ("date", JString "2024-10-20");
    ("time_slot", JString "14:30"); ("treatments", JArray []) ].

Definition record_without_phone : json := JObject members_without_phone.

(** A morning at the clinic: prices are set, a VIP is billed, an
    appointment is booked, and the program is started again. *)
Definition morning : list Session.event :=
  [ Session.SavePrices ("Cleaning: 7000" ++ Demo.newline ++ "Filling: 2500.50");
    Session.GenerateBill "Ali" "0300" "vip" "10" [0%nat; 1%nat] "2024-10-15 10:00:00";
    Session.Book Demo.today_demo "Bea" "0301" "2024-10-16" "09:00" [1%nat] ].

End Cases.

(* ================================================================= *)
(** * Properties *)
(* ================================================================= *)

(** ** Rounding and numbers *)

Section NumberFacts.

Import Float64.
Local Open Scope Q_scope.

Lemma pow2_pos e : 0 < pow2 e.
Proof. unfold pow2. apply Qpower_0_lt. reflexivity. Qed.

Lemma pow2_add a b : pow2 (a + b) == pow2 a * pow2 b.
Proof. unfold pow2. apply Qpower_plus. discriminate. Qed.

Lemma pow2_le a b : (a <= b)%Z -> pow2 a <= pow2 b.
Proof. intros H. unfold pow2. apply Qpower_le_compat_l; [exact H | discriminate]. Qed.

Lemma pow2_lt a b : (a < b)%Z -> pow2 a < pow2 b.
Proof. intros H. unfold pow2. apply Qpower_lt_compat_l; [exact H | reflexivity]. Qed.

Lemma pow2_lt_inv a b : pow2 a < pow2 b -> (a < b)%Z.
Proof.
  intros H. destruct (Z_lt_le_dec a b) as [L | L]; [exact L |].
  apply pow2_le in L. lra.
Qed.

Lemma pow2_Z n : (0 <= n)%Z -> pow2 n == inject_Z (2 ^ n).
Proof. intros H. unfold pow2. rewrite Zpower_Qpower by exact H. reflexivity. Qed.

#[local] Instance rne_comp : Proper (Qeq ==> eq) rne.
Proof.
  intros x y E. unfold rne.
  rewrite (Qfloor_comp _ _ E).
  rewrite (Qcompare_comp (x - inject_Z (Qfloor y)) (y - inject_Z (Qfloor y))
             (Qplus_comp _ _ E _ _ (Qeq_refl _)) (1 # 2) (1 # 2) (Qeq_refl _)).
  reflexivity.
Qed.

Lemma rne_floor x : (Qfloor x <= rne x <= Qfloor x + 1)%Z.
Proof.
  unfold rne. destruct (Qcompare _ _); [destruct (Z.even _) | |]; lia.
Qed.

Lemma rne_Z z : rne (inject_Z z) = z.
Proof.
  unfold rne. rewrite Qfloor_Z.
  destruct (Qcompare (inject_Z z - inject_Z z) (1 # 2)) eqn:C; [| reflexivity |].
  - apply Qeq_alt in C. exfalso. lra.
  - apply Qgt_alt in C. exfalso. lra.
Qed.

Lemma rne_mono x y : x <= y -> (rne x <= rne y)%Z.
Proof.
  intros H. pose proof (Qfloor_resp_le _ _ H) as Hf.
  destruct (Z.eq_dec (Qfloor x) (Qfloor y)) as [E | N].
  - unfold rne. rewrite E.
    destruct (Qcompare (x - inject_Z (Qfloor y)) (1 # 2)) eqn:Cx;
      destruct (Qcompare (y - inject_Z (Qfloor y)) (1 # 2)) eqn:Cy;
      try (destruct (Z.even (Qfloor y))); try lia;
      first [apply Qeq_alt in Cx | apply Qlt_alt in Cx | apply Qgt_alt in Cx];
      first [apply Qeq_alt in Cy | apply Qlt_alt in Cy | apply Qgt_alt in Cy];
      exfalso; lra.
  - pose proof (rne_floor x). pose proof (rne_floor y). lia.
Qed.

Lemma Qmake_div n d : n # d == inject_Z n / inject_Z (Zpos d).
Proof. apply Qmake_Qdiv. Qed.

Lemma mag_spec x : 0 < x -> pow2 (mag x - 1) <= x /\ x < pow2 (mag x).
Proof.
  intros Hx. destruct x as [n d]. unfold mag. cbn [Qnum Qden].
  assert (Hn : (0 < n)%Z).
  { unfold Qlt in Hx. cbn in Hx. lia. }
  set (ln := Z.log2 n). set (ld := Z.log2 (Zpos d)).
  destruct (Z.log2_spec n Hn) as [Ln Un]. fold ln in Ln, Un.
  destruct (Z.log2_spec (Zpos d) (Pos2Z.is_pos d)) as [Ld Ud]. fold ld in Ld, Ud.
  assert (Hln : (0 <= ln)%Z) by apply Z.log2_nonneg.
  assert (Hld : (0 <= ld)%Z) by apply Z.log2_nonneg.
  assert (Qn1 : pow2 ln <= inject_Z n).
  { rewrite pow2_Z by lia. rewrite <- Zle_Qle. exact Ln. }
  assert (Qn2 : inject_Z n < pow2 (ln + 1)).
  { rewrite pow2_Z by lia. rewrite <- Zlt_Qlt. rewrite <- Z.add_1_r in Un. exact Un. }
  assert (Qd1 : pow2 ld <= inject_Z (Zpos d)).
  { rewrite pow2_Z by lia. rewrite <- Zle_Qle. exact Ld. }
  assert (Qd2 : inject_Z (Zpos d) < pow2 (ld + 1)).
  { rewrite pow2_Z by lia. rewrite <- Zlt_Qlt. rewrite <- Z.add_1_r in Ud. exact Ud. }
  assert (Dpos : 0 < inject_Z (Zpos d)).
  { replace 0 with (inject_Z 0) by reflexivity. rewrite <- Zlt_Qlt. lia. }
  assert (Xd : (n # d) * inject_Z (Zpos d) == inject_Z n).
  { rewrite Qmake_div. field. lra. }
  (* 2^(ln-ld-1) < x < 2^(ln-ld+1) *)
  assert (Lo : pow2 (ln - ld - 1) < n # d).
  { pose proof (pow2_pos (ln - ld - 1)) as P.
    assert (E : pow2 (ln - ld - 1) * pow2 (ld + 1) == pow2 ln).
    { rewrite <- pow2_add. replace (ln - ld - 1 + (ld + 1))%Z with ln by lia. reflexivity. }
    apply Qmult_lt_r with (z := inject_Z (Zpos d)); [exact Dpos |].
    rewrite Xd. nra. }
  assert (Hi : n # d < pow2 (ln - ld + 1)).
  { pose proof (pow2_pos (ln - ld + 1)) as P.
    assert (E : pow2 (ln - ld + 1) * pow2 ld == pow2 (ln + 1)).
    { rewrite <- pow2_add. replace (ln - ld + 1 + ld)%Z with (ln + 1)%Z by lia. reflexivity. }
    apply Qmult_lt_r with (z := inject_Z (Zpos d)); [exact Dpos |].
    rewrite Xd. nra. }
  destruct (Qle_bool (pow2 (ln - ld)) (n # d)) eqn:C.
  - apply Qle_bool_iff in C. split.
    + replace (ln - ld + 1 - 1)%Z with (ln - ld)%Z by lia. exact C.
    + exact Hi.
  - assert (C' : n # d < pow2 (ln - ld)).
    { apply Qnot_le_lt. intros A. apply Qle_bool_iff in A. congruence. }
    split; [apply Qlt_le_weak; exact Lo | exact C'].
Qed.

Lemma mag_unique x e : pow2 (e - 1) <= x -> x < pow2 e -> 0 < x -> mag x = e.
Proof.
  intros L U Hx. destruct (mag_spec x Hx) as [L' U'].
  assert (A : (e - 1 < mag x)%Z) by (apply pow2_lt_inv; lra).
  assert (B : (mag x - 1 < e)%Z) by (apply pow2_lt_inv; lra).
  lia.
Qed.

Lemma mag_comp_pos x y : x == y -> 0 < x -> mag x = mag y.
Proof.
  intros E Hx. symmetry. destruct (mag_spec x Hx) as [L U].
  apply mag_unique; rewrite <- ?E; assumption.
Qed.

Lemma mag_mono x y : 0 < x -> x <= y -> (mag x <= mag y)%Z.
Proof.
  intros Hx Hxy. assert (Hy : 0 < y) by lra.
  destruct (mag_spec x Hx) as [Lx Ux]. destruct (mag_spec y Hy) as [Ly Uy].
  assert (A : (mag x - 1 < mag y)%Z) by (apply pow2_lt_inv; lra).
  lia.
Qed.

Lemma rne_nonneg x : 0 <= x -> (0 <= rne x)%Z.
Proof. intros H. rewrite <- (rne_Z 0). apply rne_mono. exact H. Qed.

Lemma round_pos_eq x :
  round_pos x == inject_Z (rne (x / pow2 (fexp (mag x)))) * pow2 (fexp (mag x)).
Proof. unfold round_pos. apply Qred_correct. Qed.

Lemma scaled_div x c : x / pow2 c * pow2 c == x.
Proof. pose proof (pow2_pos c). field. lra. Qed.

Lemma round_pos_nonneg x : 0 < x -> 0 <= round_pos x.
Proof.
  intros Hx. rewrite round_pos_eq.
  pose proof (pow2_pos (fexp (mag x))) as P.
  assert (0 <= x / pow2 (fexp (mag x))).
  { apply Qle_shift_div_l; [exact P | lra]. }
  pose proof (rne_nonneg _ H) as R. rewrite Zle_Qle in R.
  change (inject_Z 0) with 0 in R. nra.
Qed.

(** The scaled value of a power of two that is representable is an integer. *)
Lemma rne_le_pow2 t k : (0 <= k)%Z -> t <= pow2 k -> inject_Z (rne t) <= pow2 k.
Proof.
  intros Hk Ht. rewrite pow2_Z in * by exact Hk.
  rewrite <- Zle_Qle. rewrite <- (rne_Z (2 ^ k)). apply rne_mono. exact Ht.
Qed.

Lemma rne_ge_pow2 t k : (0 <= k)%Z -> pow2 k <= t -> pow2 k <= inject_Z (rne t).
Proof.
  intros Hk Ht. rewrite pow2_Z in * by exact Hk.
  rewrite <- Zle_Qle. rewrite <- (rne_Z (2 ^ k)) at 1. apply rne_mono. exact Ht.
Qed.

Lemma round_pos_upper x : 0 < x -> (emin <= mag x)%Z -> round_pos x <= pow2 (mag x).
Proof.
  intros Hx Hm. rewrite round_pos_eq.
  destruct (mag_spec x Hx) as [_ U].
  set (c := fexp (mag x)).
  pose proof (pow2_pos c) as P.
  assert (Hk : (0 <= mag x - c)%Z).
  { unfold c, fexp, prec, emin in *. lia. }
  assert (E : pow2 (mag x) == pow2 (mag x - c) * pow2 c).
  { rewrite <- pow2_add. replace (mag x - c + c)%Z with (mag x) by lia. reflexivity. }
  assert (T : x / pow2 c <= pow2 (mag x - c)).
  { apply Qle_shift_div_r; [exact P |]. rewrite <- E. lra. }
  pose proof (rne_le_pow2 _ _ Hk T) as R.
  rewrite E. nra.
Qed.

Lemma round_pos_lower x : 0 < x -> (emin < mag x)%Z -> pow2 (mag x - 1) <= round_pos x.
Proof.
  intros Hx Hm. rewrite round_pos_eq.
  destruct (mag_spec x Hx) as [L _].
  set (c := fexp (mag x)).
  pose proof (pow2_pos c) as P.
  assert (Hk : (0 <= mag x - 1 - c)%Z).
  { unfold c, fexp, prec, emin in *. lia. }
  assert (E : pow2 (mag x - 1) == pow2 (mag x - 1 - c) * pow2 c).
  { rewrite <- pow2_add. replace (mag x - 1 - c + c)%Z with (mag x - 1)%Z by lia. reflexivity. }
  assert (T : pow2 (mag x - 1 - c) <= x / pow2 c).
  { apply Qle_shift_div_l; [exact P |]. rewrite <- E. lra. }
  pose proof (rne_ge_pow2 _ _ Hk T) as R.
  rewrite E. nra.
Qed.

Lemma rne_small t : 0 <= t -> t < 1 # 2 -> rne t = 0%Z.
Proof.
  intros H0 H1.
  assert (F : Qfloor t = 0%Z).
  { pose proof (Qfloor_le t) as A. pose proof (Qlt_floor t) as B.
    assert (A' : (Qfloor t < 1)%Z) by (rewrite Zlt_Qlt; change (inject_Z 1) with 1; lra).
    assert (B' : (-1 < Qfloor t)%Z).
    { rewrite Zlt_Qlt. rewrite inject_Z_plus in B. change (inject_Z 1) with 1 in B.
      change (inject_Z (-1)) with (-1). lra. }
    lia. }
  unfold rne. rewrite F.
  destruct (Qcompare (t - inject_Z 0) (1 # 2)) eqn:C; [| reflexivity |].
  - apply Qeq_alt in C. change (inject_Z 0) with 0 in C. exfalso. lra.
  - apply Qgt_alt in C. change (inject_Z 0) with 0 in C. exfalso. lra.
Qed.

Lemma round_pos_tiny x : 0 < x -> (mag x < emin)%Z -> round_pos x == 0.
Proof.
  intros Hx Hm. rewrite round_pos_eq.
  destruct (mag_spec x Hx) as [_ U].
  assert (C : fexp (mag x) = emin) by (unfold fexp, prec, emin in *; lia).
  rewrite C.
  pose proof (pow2_pos emin) as P.
  assert (U' : x < pow2 (emin - 1)).
  { apply Qlt_le_trans with (1 := U). apply pow2_le. lia. }
  assert (E : pow2 emin == pow2 (emin - 1) * 2).
  { replace emin with (emin - 1 + 1)%Z at 1 by lia. rewrite pow2_add. reflexivity. }
  assert (T : x / pow2 emin < 1 # 2).
  { apply Qlt_shift_div_r; [exact P |]. rewrite E. lra. }
  assert (T0 : 0 <= x / pow2 emin).
  { apply Qle_shift_div_l; [exact P | lra]. }
  rewrite (rne_small _ T0 T). ring.
Qed.

Lemma round_pos_mono x y : 0 < x -> x <= y -> round_pos x <= round_pos y.
Proof.
  intros Hx Hxy. assert (Hy : 0 < y) by lra.
  pose proof (mag_mono x y Hx Hxy) as M.
  destruct (Z.eq_dec (mag x) (mag y)) as [E | N].
  - rewrite !round_pos_eq, E.
    set (c := fexp (mag y)). pose proof (pow2_pos c) as P.
    assert (T : x / pow2 c <= y / pow2 c).
    { apply Qle_shift_div_l; [exact P |]. rewrite scaled_div. exact Hxy. }
    apply rne_mono in T. rewrite Zle_Qle in T. nra.
  - assert (M' : (mag x < mag y)%Z) by lia.
    destruct (Z_lt_le_dec (mag x) emin) as [S | S].
    + rewrite (round_pos_tiny x Hx S). apply round_pos_nonneg. exact Hy.
    + apply Qle_trans with (pow2 (mag x)); [apply round_pos_upper; assumption |].
      apply Qle_trans with (pow2 (mag y - 1)); [apply pow2_le; lia |].
      apply round_pos_lower; [exact Hy | lia].
Qed.

Lemma round_pos_comp x y : 0 < x -> x == y -> round_pos x == round_pos y.
Proof.
  intros Hx E. rewrite !round_pos_eq. rewrite <- (mag_comp_pos x y E Hx).
  set (c := fexp (mag x)).
  assert (T : x / pow2 c == y / pow2 c) by (rewrite E; reflexivity).
  rewrite (rne_comp _ _ T). reflexivity.
Qed.

Lemma fl_cases x :
  (x < 0 /\ fl x == - round_pos (- x)) \/ (x == 0 /\ fl x == 0) \/ (0 < x /\ fl x == round_pos x).
Proof.
  unfold fl. destruct (Qcompare x 0) eqn:C.
  - apply Qeq_alt in C. right. left. split; [exact C | reflexivity].
  - apply Qlt_alt in C. left. split; [exact C | apply Qred_correct].
  - apply Qgt_alt in C. right. right. split; [exact C | reflexivity].
Qed.

Lemma fl_mono x y : x <= y -> fl x <= fl y.
Proof.
  intros H.
  destruct (fl_cases x) as [[Hx Ex] | [[Hx Ex] | [Hx Ex]]];
    destruct (fl_cases y) as [[Hy Ey] | [[Hy Ey] | [Hy Ey]]];
    rewrite Ex, Ey; try (exfalso; lra); try lra.
  - assert (A : 0 < - y) by lra. assert (B : - y <= - x) by lra.
    pose proof (round_pos_mono (- y) (- x) A B). lra.
  - assert (A : 0 < - x) by lra. pose proof (round_pos_nonneg (- x) A). lra.
  - assert (A : 0 < - x) by lra. pose proof (round_pos_nonneg (- x) A).
    pose proof (round_pos_nonneg y Hy). lra.
  - apply round_pos_nonneg. exact Hy.
  - apply round_pos_mono; assumption.
Qed.

Lemma fl_comp x y : x == y -> fl x == fl y.
Proof.
  intros E. apply Qle_antisym; apply fl_mono; rewrite E; apply Qle_refl.
Qed.


Lemma round2_mono x y : x <= y -> round2 x <= round2 y.
Proof.
  intros H. unfold round2. apply fl_mono.
  assert (T : x * 100 <= y * 100) by lra.
  apply rne_mono in T. rewrite Zle_Qle in T.
  apply Qle_shift_div_l; [reflexivity |].
  assert (E : inject_Z (rne (x * 100)) / 100 * 100 == inject_Z (rne (x * 100))) by (field).
  rewrite E. exact T.
Qed.

(** Integers below [2^53] are binary64 numbers. *)
Lemma round_pos_exact x m :
  0 < x -> x / pow2 (fexp (mag x)) == inject_Z m -> round_pos x == x.
Proof.
  intros Hx E. rewrite round_pos_eq. rewrite (rne_comp _ _ E), rne_Z.
  rewrite <- E. apply scaled_div.
Qed.


Lemma round2_comp x y : x == y -> round2 x == round2 y.
Proof.
  intros E. apply Qle_antisym; apply round2_mono; rewrite E; apply Qle_refl.
Qed.

(** A rounded value is a binary64 number: rounding it again changes nothing. *)
Lemma pow2_exact k : (emin <= k)%Z -> round_pos (pow2 k) == pow2 k.
Proof.
  intros Hk. pose proof (pow2_pos k) as P.
  assert (M : mag (pow2 k) = (k + 1)%Z).
  { apply mag_unique; [| | exact P].
    - replace (k + 1 - 1)%Z with k by lia. apply Qle_refl.
    - apply pow2_lt. lia. }
  apply round_pos_exact with (m := (2 ^ (k - fexp (k + 1)))%Z); [exact P |].
  rewrite M. set (c := fexp (k + 1)).
  assert (Hc : (0 <= k - c)%Z) by (unfold c, fexp, prec, emin in *; lia).
  rewrite <- pow2_Z by exact Hc.
  pose proof (pow2_pos c) as Pc.
  apply Qmult_inj_r with (z := pow2 c); [lra |].
  rewrite scaled_div, <- pow2_add. replace (k - c + c)%Z with k by lia. reflexivity.
Qed.

Lemma round_pos_idem x : 0 < x -> 0 < round_pos x -> round_pos (round_pos x) == round_pos x.
Proof.
  intros Hx Hy.
  destruct (Z_lt_le_dec emin (mag x)) as [Big | Small].
  - (* normal or subnormal above the smallest binade *)
    pose proof (round_pos_lower x Hx Big) as L.
    pose proof (round_pos_upper x Hx ltac:(lia)) as U.
    destruct (Qlt_le_dec (round_pos x) (pow2 (mag x))) as [In | Top].
    + assert (M : mag (round_pos x) = mag x) by (apply mag_unique; assumption).
      apply round_pos_exact with (m := rne (x / pow2 (fexp (mag x)))); [exact Hy |].
      rewrite M. pose proof (pow2_pos (fexp (mag x))) as Pc.
      apply Qmult_inj_r with (z := pow2 (fexp (mag x))); [lra |].
      rewrite scaled_div. apply round_pos_eq.
    + assert (E : round_pos x == pow2 (mag x)) by (apply Qle_antisym; assumption).
      rewrite (round_pos_comp _ _ Hy E), E. apply pow2_exact. lia.
  - (* at most the smallest binade: the result is 0 or 2^emin *)
    destruct (mag_spec x Hx) as [_ Ux].
    assert (C : fexp (mag x) = emin) by (unfold fexp, prec, emin in *; lia).
    pose proof (round_pos_eq x) as Y. rewrite C in Y.
    pose proof (pow2_pos emin) as Pe.
    assert (T1 : x / pow2 emin <= 1).
    { apply Qle_shift_div_r; [exact Pe |].
      assert (pow2 (mag x) <= pow2 emin) by (apply pow2_le; exact Small). lra. }
    assert (T0 : 0 <= x / pow2 emin).
    { apply Qle_shift_div_l; [exact Pe | lra]. }
    pose proof (rne_mono _ (inject_Z 1) T1) as N1. rewrite (rne_Z 1) in N1.
    pose proof (rne_nonneg _ T0) as N0.
    assert (N : rne (x / pow2 emin) = 0%Z \/ rne (x / pow2 emin) = 1%Z) by lia.
    destruct N as [N | N]; rewrite N in Y.
    + exfalso. assert (round_pos x == 0) by (rewrite Y; ring). lra.
    + assert (E : round_pos x == pow2 emin) by (rewrite Y; ring).
      rewrite (round_pos_comp _ _ Hy E), E. apply pow2_exact. lia.
Qed.

Lemma fl_idem x : fl (fl x) == fl x.
Proof.
  destruct (fl_cases x) as [[Hx Ex] | [[Hx Ex] | [Hx Ex]]].
  - assert (A : 0 < - x) by lra.
    pose proof (round_pos_nonneg (- x) A) as N.
    destruct (Qlt_le_dec 0 (round_pos (- x))) as [P | Z0].
    + destruct (fl_cases (fl x)) as [[Hy Ey] | [[Hy Ey] | [Hy Ey]]].
      * rewrite Ey. assert (E : - fl x == round_pos (- x)) by (rewrite Ex; ring).
        assert (P' : 0 < - fl x) by lra.
        rewrite (round_pos_comp _ _ P' E). rewrite (round_pos_idem _ A P).
        rewrite Ex. reflexivity.
      * exfalso. lra.
      * exfalso. lra.
    + assert (E0 : fl x == 0) by lra. rewrite (fl_comp _ _ E0). rewrite E0. reflexivity.
  - rewrite (fl_comp _ _ Ex). rewrite Ex. reflexivity.
  - pose proof (round_pos_nonneg x Hx) as N.
    destruct (Qlt_le_dec 0 (round_pos x)) as [P | Z0].
    + destruct (fl_cases (fl x)) as [[Hy Ey] | [[Hy Ey] | [Hy Ey]]].
      * exfalso. lra.
      * exfalso. lra.
      * rewrite Ey. rewrite (round_pos_comp _ _ Hy Ex). rewrite (round_pos_idem _ Hx P).
        rewrite Ex. reflexivity.
    + assert (E0 : fl x == 0) by lra. rewrite (fl_comp _ _ E0). rewrite E0. reflexivity.
Qed.








#[local] Instance fl_proper : Proper (Qeq ==> Qeq) fl.
Proof. intros x y E. apply fl_comp. exact E. Qed.

#[local] Instance round2_proper : Proper (Qeq ==> Qeq) round2.
Proof. intros x y E. apply round2_comp. exact E. Qed.









(** Every float the arithmetic produces is a binary64 number, and so is what
    the runnable [float] returns. *)
Lemma add_valid a b : PyNum.valid a -> PyNum.valid b -> PyNum.valid (PyNum.add a b).
Proof. destruct a, b; cbn; intros _ _; try exact I; apply fl_idem. Qed.

Lemma round2_valid a : PyNum.valid a -> PyNum.valid (PyNum.round2 a).
Proof. destruct a; cbn; intros _; [exact I | apply fl_idem]. Qed.

Lemma vip_total_valid v : PyNum.valid (VIPPatient.calculate_total v).
Proof.
  unfold VIPPatient.calculate_total.
  destruct (Patient.calculate_total (VIPPatient.base v)), (VIPPatient.discount v);
    cbn; apply fl_idem.
Qed.

Lemma py_float_valid s x : Py.float s = Some x -> fl x == x.
Proof.
  unfold Py.float. intros E.
  destruct (Str.strip s) as [| c u].
  - destruct (Py.unsigned_literal EmptyString); [| discriminate].
    injection E as <-. apply fl_idem.
  - destruct (Ascii.ascii_dec c "-"%char) as [-> | N1].
    + destruct (Py.unsigned_literal u); [| discriminate]. injection E as <-. apply fl_idem.
    + destruct (Ascii.ascii_dec c "+"%char) as [-> | N2].
      * destruct (Py.unsigned_literal u); [| discriminate]. injection E as <-. apply fl_idem.
      * assert (G : exists q, option_map fl q = Some x).
        { destruct c as [[] [] [] [] [] [] [] []]; try (exfalso; apply N1; reflexivity);
            try (exfalso; apply N2; reflexivity); eexists; exact E. }
        destruct G as [[q |] G]; [| discriminate]. injection G as <-. apply fl_idem.
Qed.

End NumberFacts.

(** ** Catalog edits *)

Section CatalogFacts.

Import CatalogEdit.

Context `{Builtins}.

Local Open Scope string_scope.
Local Open Scope Z_scope.

Lemma split_once_contains sep s :
  Str.contains_char sep s = match Str.split_once sep s with Some _ => true | None => false end.
Proof.
  induction s as [| c s IH]; cbn; [reflexivity |].
  destruct (Ascii.eqb c sep); cbn; [reflexivity |].
  rewrite IH. destruct (Str.split_once sep s) as [[a b] |]; reflexivity.
Qed.

(** One turn of the price loop of [Dental_Clinic.py], read through
    [price_line]. *)
Lemma dc_prices_loop_step i line rest acc :
  Dental_Clinic.prices_loop i (line :: rest) acc =
  match price_line line with
  | None => Dental_Clinic.prices_loop (i + 1) rest acc
  | Some (name, price_str) =>
      match float_of_string price_str with
      | Some price =>
          if PyNum.ltb (PyFloat price) (PyInt 0) then
            Rejected ("Line " ++ Str.of_Z i ++ ": Price cannot be negative.")
          else Dental_Clinic.prices_loop (i + 1) rest (Dict.set acc i (name, PyFloat price))
      | None =>
          Rejected ("Line " ++ Str.of_Z i ++ ": Invalid price '" ++ price_str ++ "'.")
      end
  end.
Proof.
  cbn [Dental_Clinic.prices_loop]. unfold price_line.
  rewrite split_once_contains.
  destruct (Str.nonempty (Str.strip line)); cbn [negb orb]; [| reflexivity].
  destruct (Str.split_once ":" (Str.strip line)) as [[name price_str] |];
    cbn [negb]; [| reflexivity].
  destruct (Str.nonempty (Str.strip name)); cbn [negb]; reflexivity.
Qed.

Lemma dc_prices_loop_rejects pre : forall i line post acc,
  Forall (fun l => rejected_line l = false) pre ->
  rejected_line line = true ->
  exists message,
    Dental_Clinic.prices_loop i (pre ++ line :: post) acc = Rejected message
    /\ names_line (i + Z.of_nat (List.length pre)) message.
Proof.
  induction pre as [| l pre IH]; intros i line post acc Hpre Hline.
  - cbn [app List.length Z.of_nat]. rewrite Z.add_0_r.
    rewrite dc_prices_loop_step.
    unfold rejected_line in Hline.
    destruct (price_line line) as [[name price_str] |]; [| discriminate].
    unfold bad_price in Hline.
    destruct (float_of_string price_str) as [price |].
    + rewrite Hline. eexists. split; [reflexivity |].
      exists "Price cannot be negative.". left. reflexivity.
    + eexists. split; [reflexivity |].
      exists ("Invalid price '" ++ price_str ++ "'."). left. reflexivity.
  - inversion Hpre as [| ? ? Hl Hpre']; subst.
    cbn [app]. rewrite dc_prices_loop_step.
    replace (i + Z.of_nat (List.length (l :: pre))) with (i + 1 + Z.of_nat (List.length pre))
      by (cbn [List.length]; lia).
    unfold rejected_line in Hl.
    destruct (price_line l) as [[name price_str] |].
    + unfold bad_price in Hl.
      destruct (float_of_string price_str) as [price |]; [| discriminate].
      rewrite Hl. apply IH; assumption.
    + apply IH; assumption.
Qed.

Lemma db_prices_loop_rejects pre : forall i line post acc,
  Forall (fun l => rejected_line_strict l = false) pre ->
  rejected_line_strict line = true ->
  exists message,
    dental_billing.prices_loop i (pre ++ line :: post) acc = Rejected message
    /\ names_line (i + Z.of_nat (List.length pre)) message.
Proof.
  induction pre as [| l pre IH]; intros i line post acc Hpre Hline.
  - cbn [app List.length Z.of_nat]. rewrite Z.add_0_r.
    cbn [dental_billing.prices_loop].
    unfold rejected_line_strict in Hline.
    destruct (Str.split_once ":" line) as [[name price_str] |].
    + destruct (Str.nonempty (Str.strip name)); cbn [negb orb] in *.
      * unfold bad_price in Hline.
        destruct (float_of_string (Str.strip price_str)) as [price |].
        -- rewrite Hline. eexists. split; [reflexivity |].
           exists "has negative price.". right. reflexivity.
        -- eexists. split; [reflexivity |].
           exists "has invalid price.". right. reflexivity.
      * eexists. split; [reflexivity |].
        exists "has empty treatment name.". right. reflexivity.
    + eexists. split; [reflexivity |].
      exists "is invalid. Use 'Treatment: price' format.". right. reflexivity.
  - inversion Hpre as [| ? ? Hl Hpre']; subst.
    cbn [app dental_billing.prices_loop].
    replace (i + Z.of_nat (List.length (l :: pre))) with (i + 1 + Z.of_nat (List.length pre))
      by (cbn [List.length]; lia).
    unfold rejected_line_strict in Hl.
    destruct (Str.split_once ":" l) as [[name price_str] |]; [| discriminate].
    destruct (Str.nonempty (Str.strip name)); cbn [negb orb] in *; [| discriminate].
    unfold bad_price in Hl.
    destruct (float_of_string (Str.strip price_str)) as [price |]; [| discriminate].
    rewrite Hl. apply IH; assumption.
Qed.

(** C3 (amended).  In the price editor, the first line that is rejected
    makes the edit fail with a warning that names the number of that line,
    and the catalog (the whole state) stays as it was.  The editor of
    [Dental_Clinic.py] rejects a line whose price text does not parse or is
    negative, and passes over blank lines, lines without a colon and lines
    without a name; the editor of [dental_billing.py] rejects those too. *)
Theorem price_edit_rejects_first_bad_line (text : string) (pre post : list string)
    (line : string) :
  text_lines text = (pre ++ line :: post)%list ->
  (Forall (fun l => rejected_line l = false) pre ->
   rejected_line line = true ->
   exists message,
     Dental_Clinic.save_prices text = Rejected message
     /\ names_line (Z.of_nat (List.length pre) + 1) message
     /\ forall st, Dental_Clinic.edit_prices_save st text
                   = (st, Shown (showwarning "Input Error" message)))
  /\ (Forall (fun l => rejected_line_strict l = false) pre ->
      rejected_line_strict line = true ->
      exists message,
        dental_billing.save_prices text = Rejected message
        /\ names_line (Z.of_nat (List.length pre) + 1) message
        /\ forall treatments,
             dental_billing.install treatments (dental_billing.save_prices text)
             = treatments).
Proof.
  intros Hlines. split; intros Hpre Hline.
  - destruct (dc_prices_loop_rejects pre 1 line post [] Hpre Hline) as [m [E N]].
    exists m. unfold Dental_Clinic.edit_prices_save, Dental_Clinic.save_prices.
    rewrite Hlines, E. repeat split.
    + rewrite Z.add_comm. exact N.
  - destruct (db_prices_loop_rejects pre 1 line post [] Hpre Hline) as [m [E N]].
    exists m. unfold dental_billing.save_prices.
    rewrite Hlines, E. repeat split.
    + rewrite Z.add_comm. exact N.
Qed.

(** Any rejected edit leaves the state as it was. *)
Lemma rejected_edit_keeps_state st r done message :
  r = Rejected message -> fst (Dental_Clinic.apply_edit st r done) = st.
Proof. intros ->. reflexivity. Qed.

(** *** Keys of an edited catalog *)

Lemma dict_set_fresh (d : dict) k v :
  ~ In k (Dict.keys d) -> Dict.set d k v = (d ++ [(k, v)])%list.
Proof.
  induction d as [| [k' v'] d IH]; cbn; intros Hk; [reflexivity |].
  destruct (Z.eqb_spec k' k) as [-> | Hne]; [exfalso; apply Hk; left; reflexivity |].
  rewrite IH; [reflexivity | intros Hin; apply Hk; right; exact Hin].
Qed.

Lemma keys_app (d1 d2 : dict) : Dict.keys (d1 ++ d2)%list = (Dict.keys d1 ++ Dict.keys d2)%list.
Proof. unfold Dict.keys. apply map_app. Qed.

Lemma below_set i d v : below i d ->
  Dict.set d i v = (d ++ [(i, v)])%list /\ below (i + 1) (d ++ [(i, v)])%list.
Proof.
  intros Hb. split.
  - apply dict_set_fresh. intros Hin. apply Hb in Hin. lia.
  - intros k Hin. rewrite keys_app in Hin. apply in_app_iff in Hin.
    destruct Hin as [Hin | [<- | []]].
    + apply Hb in Hin. lia.
    + cbn. lia.
Qed.

Lemma below_weaken i d : below i d -> below (i + 1) d.
Proof. intros Hb k Hin. apply Hb in Hin. lia. Qed.




Lemma below_nil i : below i [].
Proof. intros k []. Qed.






End CatalogFacts.

(** ** The appointment book *)

(** *** Dates *)

Lemma date_eq (a b : date) :
  year a = year b -> month a = month b -> day a = day b -> a = b.
Proof. destruct a, b; cbn; intros -> -> ->; reflexivity. Qed.

Lemma date_compare_eq a b : Date.compare a b = Eq -> a = b.
Proof.
  unfold Date.compare. intros H.
  destruct (Z.compare_spec (year a) (year b)); try discriminate.
  destruct (Z.compare_spec (month a) (month b)); try discriminate.
  destruct (Z.compare_spec (day a) (day b)); try discriminate.
  apply date_eq; assumption.
Qed.

Lemma date_compare_refl a : Date.compare a a = Eq.
Proof. unfold Date.compare. rewrite !Z.compare_refl. reflexivity. Qed.

Lemma date_eqb_eq a b : Date.eqb a b = true <-> a = b.
Proof.
  unfold Date.eqb. split.
  - destruct (Date.compare a b) eqn:C; try discriminate. intros _.
    apply date_compare_eq. exact C.
  - intros ->. rewrite date_compare_refl. reflexivity.
Qed.

(** The order of dates, as an order on the day numbers [(y, m, d)]. *)
Lemma date_leb_spec a b :
  Date.leb a b = true <->
  (year a < year b
   \/ (year a = year b /\ (month a < month b
                          \/ (month a = month b /\ day a <= day b))))%Z.
Proof.
  unfold Date.leb, Date.compare.
  destruct (Z.compare_spec (year a) (year b));
    destruct (Z.compare_spec (month a) (month b));
    destruct (Z.compare_spec (day a) (day b));
    split; intros; try discriminate; try reflexivity; lia.
Qed.

Lemma date_ltb_leb a b : Date.ltb a b = negb (Date.leb b a).
Proof.
  destruct (Date.leb b a) eqn:L; cbn.
  - apply date_leb_spec in L. unfold Date.ltb, Date.compare.
    destruct (Z.compare_spec (year a) (year b));
      destruct (Z.compare_spec (month a) (month b));
      destruct (Z.compare_spec (day a) (day b)); try reflexivity; lia.
  - assert (N : ~ (Date.leb b a = true)) by congruence.
    rewrite date_leb_spec in N. unfold Date.ltb, Date.compare.
    destruct (Z.compare_spec (year a) (year b));
      destruct (Z.compare_spec (month a) (month b));
      destruct (Z.compare_spec (day a) (day b)); try reflexivity; lia.
Qed.

Lemma date_leb_refl a : Date.leb a a = true.
Proof. apply date_leb_spec. lia. Qed.

Lemma date_leb_trans a b c :
  Date.leb a b = true -> Date.leb b c = true -> Date.leb a c = true.
Proof. rewrite !date_leb_spec. lia. Qed.

Lemma date_leb_total a b : Date.leb a b = false -> Date.leb b a = true.
Proof.
  intros H. assert (N : ~ (Date.leb a b = true)) by congruence.
  rewrite date_leb_spec in *. lia.
Qed.

(** *** The stable sort *)

Section Sort.

Context {A : Type}.

Implicit Types (x y : date * A) (l : list (date * A)).

Lemma insert_perm x l : Permutation (x :: l) (Dental_Clinic.insert_by_date x l).
Proof.
  induction l as [| y l IH]; cbn; [apply Permutation_refl |].
  destruct (Date.leb (fst x) (fst y)); [apply Permutation_refl |].
  apply perm_trans with (y :: x :: l); [apply perm_swap | apply perm_skip, IH].
Qed.

Lemma sort_perm l : Permutation l (Dental_Clinic.sort_by_date l).
Proof.
  induction l as [| x l IH]; cbn; [apply perm_nil |].
  apply perm_trans with (x :: Dental_Clinic.sort_by_date l);
    [apply perm_skip, IH | apply insert_perm].
Qed.

Lemma insert_sorted x l :
  StronglySorted key_le l -> StronglySorted key_le (Dental_Clinic.insert_by_date x l).
Proof.
  induction l as [| y l IH]; intros Hs; cbn.
  - constructor; constructor.
  - inversion Hs as [| ? ? Hl Hy]; subst.
    destruct (Date.leb (fst x) (fst y)) eqn:L.
    + constructor; [exact Hs |]. constructor; [exact L |].
      rewrite Forall_forall in *. intros z Hz.
      unfold key_le. apply date_leb_trans with (fst y); [exact L | apply Hy, Hz].
    + constructor; [apply IH, Hl |].
      apply (Permutation_Forall (insert_perm x l)).
      constructor; [apply date_leb_total, L | exact Hy].
Qed.

Lemma sort_sorted l : StronglySorted key_le (Dental_Clinic.sort_by_date l).
Proof.
  induction l as [| x l IH]; cbn; [constructor | apply insert_sorted, IH].
Qed.

(** Insertion puts an element in front of the elements of its own date. *)
Lemma insert_stable k x l :
  filter (has_key k) (Dental_Clinic.insert_by_date x l) = filter (has_key k) (x :: l).
Proof.
  induction l as [| y l IH]; [reflexivity |].
  cbn [Dental_Clinic.insert_by_date].
  destruct (Date.leb (fst x) (fst y)) eqn:L; [reflexivity |].
  cbn [filter] in *. rewrite IH.
  destruct (has_key k x) eqn:Kx; [| reflexivity].
  destruct (has_key k y) eqn:Ky; [| reflexivity].
  exfalso. unfold has_key in *. apply date_eqb_eq in Kx, Ky.
  rewrite Kx, Ky, date_leb_refl in L. discriminate.
Qed.

Lemma sort_stable k l :
  filter (has_key k) (Dental_Clinic.sort_by_date l) = filter (has_key k) l.
Proof.
  induction l as [| x l IH]; [reflexivity |].
  cbn [Dental_Clinic.sort_by_date]. rewrite insert_stable. cbn [filter].
  rewrite IH. reflexivity.
Qed.

End Sort.

(** *** The upcoming view *)

Section Upcoming.

Context `{Builtins}.

Local Open Scope string_scope.

Lemma with_keys_upcoming today (l : list Appointment.t) :
  Forall (fun a => Appointment.is_upcoming today a = true) l ->
  exists keyed,
    Dental_Clinic.with_keys l = Some keyed
    /\ map snd keyed = l
    /\ Forall keyed_right keyed.
Proof.
  unfold Dental_Clinic.with_keys.
  induction l as [| a l IH]; intros Hl; cbn.
  - exists []. repeat split. constructor.
  - inversion Hl as [| ? ? Ha Hl']; subst.
    destruct (IH Hl') as [keyed [E [M K]]]. rewrite E.
    unfold Appointment.is_upcoming in Ha.
    destruct (strptime_date (Appointment.date a)) as [d |] eqn:D; [| discriminate].
    exists ((d, a) :: keyed). cbn. rewrite M. repeat split.
    constructor; [exact D | exact K].
Qed.

Lemma filter_on_day k (l : list (date * Appointment.t)) :
  Forall keyed_right l ->
  filter (on_day k) (map snd l) = map snd (filter (has_key k) l).
Proof.
  induction l as [| [d a] l IH]; intros Hl; cbn; [reflexivity |].
  inversion Hl as [| ? ? Hd Hl']; subst. unfold keyed_right in Hd. cbn in Hd.
  unfold on_day at 1. rewrite Hd. unfold has_key at 1. cbn [fst].
  destruct (Date.eqb d k); cbn; rewrite IH by exact Hl'; reflexivity.
Qed.

Lemma sorted_map_snd (l : list (date * Appointment.t)) :
  Forall keyed_right l -> StronglySorted key_le l ->
  StronglySorted not_after (map snd l).
Proof.
  induction l as [| [d a] l IH]; intros Hk Hs; cbn; [constructor |].
  inversion Hk as [| ? ? Hd Hk']; subst. inversion Hs as [| ? ? Hs' Hle]; subst.
  constructor; [apply IH; assumption |].
  rewrite Forall_forall in *. intros b Hb. apply in_map_iff in Hb.
  destruct Hb as [[d' b'] [<- Hin]]. cbn.
  unfold not_after. unfold keyed_right in Hd. cbn in Hd. rewrite Hd.
  pose proof (Hk' _ Hin) as Hd'. unfold keyed_right in Hd'. cbn in Hd'. rewrite Hd'.
  apply (Hle _ Hin).
Qed.

Lemma is_upcoming_iff today a :
  Appointment.is_upcoming today a = true <->
  exists d, appt_date a = Some d /\ Date.leb today d = true.
Proof.
  unfold Appointment.is_upcoming, appt_date.
  destruct (strptime_date (Appointment.date a)) as [d |]; split.
  - intros L. exists d. split; [reflexivity | exact L].
  - intros [d' [[= <-] L]]. exact L.
  - discriminate.
  - intros [d' [E _]]. discriminate.
Qed.

(** What the local [upcoming] of [refresh_appointments_list] holds. *)
Lemma upcoming_spec today (appts : list Appointment.t) :
  exists view,
    Dental_Clinic.upcoming today appts = Some view
    /\ Permutation view (filter (Appointment.is_upcoming today) appts)
    /\ StronglySorted not_after view
    /\ (forall k, filter (on_day k) view
                  = filter (on_day k) (filter (Appointment.is_upcoming today) appts)).
Proof.
  unfold Dental_Clinic.upcoming.
  set (up := filter (Appointment.is_upcoming today) appts).
  assert (Hup : Forall (fun a => Appointment.is_upcoming today a = true) up).
  { apply Forall_forall. intros a Ha. apply filter_In in Ha. apply Ha. }
  destruct (with_keys_upcoming today up Hup) as [keyed [E [M K]]].
  rewrite E. eexists. split; [reflexivity |].
  pose proof (sort_perm keyed) as P.
  assert (K' : Forall keyed_right (Dental_Clinic.sort_by_date keyed)).
  { apply (Permutation_Forall P). exact K. }
  split; [| split].
  - rewrite <- M. apply Permutation_map. apply Permutation_sym. exact P.
  - apply sorted_map_snd; [exact K' | apply sort_sorted].
  - intros k. rewrite (filter_on_day k _ K'), sort_stable, <- (filter_on_day k _ K), M.
    reflexivity.
Qed.

(** C5.  The upcoming view holds exactly the stored appointments whose
    date is today or later, sorted by date, appointments of one date in
    their stored order; making the view leaves the stored collection as it
    is. *)
Theorem upcoming_view_sorted_stable (today : date) (st : Dental_Clinic.State) :
  exists view,
    Dental_Clinic.upcoming today (Dental_Clinic.appointments st) = Some view
    /\ Dental_Clinic.refresh_appointments_list today st
       = (Dental_Clinic.set_listbox st (map Appointment.__str__ view), Quiet)
    /\ (forall a, In a view <->
                  In a (Dental_Clinic.appointments st)
                  /\ exists d, appt_date a = Some d /\ Date.leb today d = true)
    /\ Permutation view
         (filter (Appointment.is_upcoming today) (Dental_Clinic.appointments st))
    /\ StronglySorted not_after view
    /\ (forall k, filter (on_day k) view
                  = filter (on_day k)
                      (filter (Appointment.is_upcoming today)
                              (Dental_Clinic.appointments st)))
    /\ Dental_Clinic.appointments
         (fst (Dental_Clinic.refresh_appointments_list today st))
       = Dental_Clinic.appointments st.
Proof.
  destruct (upcoming_spec today (Dental_Clinic.appointments st)) as [view [E [P [S T]]]].
  exists view. unfold Dental_Clinic.refresh_appointments_list. rewrite E.
  split; [reflexivity | split; [reflexivity | split]].
  - intros a. split.
    + intros Ha. apply (Permutation_in _ P) in Ha. apply filter_In in Ha.
      destruct Ha as [Ha Hu]. split; [exact Ha | apply is_upcoming_iff; exact Hu].
    + intros [Ha Hd]. apply (Permutation_in _ (Permutation_sym P)).
      apply filter_In. split; [exact Ha | apply is_upcoming_iff; exact Hd].
  - repeat split; assumption.
Qed.

(** *** Booking *)

Lemma dict_get_in (d : dict) k :
  In k (Dict.keys d) -> exists v, Dict.get d k = Some v.
Proof.
  induction d as [| [k' v'] d IH]; cbn; [contradiction |].
  intros [-> | Hin].
  - rewrite Z.eqb_refl. eexists. reflexivity.
  - destruct (Z.eqb k' k); [eexists; reflexivity | apply IH, Hin].
Qed.

Lemma selected_treatments_rows (d : dict) (selected_indices : list nat) :
  rows_of (List.length (Dict.keys d)) selected_indices ->
  exists treatments,
    Dental_Clinic.selected_treatments (Dict.keys d) d selected_indices = inr treatments
    /\ List.length treatments = List.length selected_indices.
Proof.
  unfold rows_of. induction selected_indices as [| idx rest IH]; intros Hr; cbn.
  - exists []. split; reflexivity.
  - inversion Hr as [| ? ? Hidx Hrest]; subst.
    destruct (nth_error (Dict.keys d) idx) as [key |] eqn:N.
    + destruct (dict_get_in d key (nth_error_In _ _ N)) as [v G]. rewrite G.
      destruct (IH Hrest) as [ts [E L]]. rewrite E.
      exists (v :: ts). split; [reflexivity | cbn; rewrite L; reflexivity].
    + apply nth_error_None in N. lia.
Qed.

Lemma check_fields_pass today name phone date_text time_slot hint
    (selected_indices : list nat) d h m :
  Str.nonempty name = true -> Str.nonempty phone = true ->
  Str.nonempty date_text = true -> Str.nonempty time_slot = true ->
  strptime_date date_text = Some d ->
  strptime_time time_slot = Some (h, m) ->
  (0 <= h < 24)%Z -> (0 <= m < 60)%Z ->
  selected_indices <> [] ->
  Dental_Clinic.check_fields today name phone date_text time_slot hint selected_indices
  = if Date.ltb d today then Some "Date must be today or in the future." else None.
Proof.
  intros Hn Hp Hd Ht Ed Et Hh Hm Hs. unfold Dental_Clinic.check_fields.
  rewrite Hn, Hp, Hd, Ht, Ed, Et. cbn [andb negb].
  destruct (Date.ltb d today); [reflexivity |].
  replace ((0 <=? h)%Z && (h <? 24)%Z && (0 <=? m)%Z && (m <? 60)%Z) with true.
  - cbn [negb]. destruct selected_indices; [contradiction | reflexivity].
  - symmetry. rewrite !andb_true_iff, !Z.leb_le, !Z.ltb_lt. lia.
Qed.

(** C6.  A booking with all four fields filled, a valid [HH:MM] time and
    at least one selected row: when its date is before today it is refused
    with a warning and the state is unchanged; when its date is today or
    later it succeeds, the appointment is appended and saved, and it is in
    the upcoming view. *)
Theorem book_rejects_past_accepts_today (today : date) (st : Dental_Clinic.State)
    (name_entry phone_entry date_entry time_entry : string)
    (selected_indices : list nat) (d : date) (h m : Z) :
  Str.nonempty (Str.strip name_entry) = true ->
  Str.nonempty (Str.strip phone_entry) = true ->
  Str.nonempty (Str.strip date_entry) = true ->
  Str.nonempty (Str.strip time_entry) = true ->
  strptime_date (Str.strip date_entry) = Some d ->
  strptime_time (Str.strip time_entry) = Some (h, m) ->
  (0 <= h < 24)%Z -> (0 <= m < 60)%Z ->
  selected_indices <> [] ->
  rows_match_catalog st ->
  rows_of (List.length (Dental_Clinic.appt_treatment_keys st)) selected_indices ->
  let booked :=
    Dental_Clinic.book_appointment today st name_entry phone_entry date_entry
      time_entry selected_indices in
  (Date.ltb d today = true ->
   booked = (st, Shown (showwarning "Input Error"
                          "Date must be today or in the future.")))
  /\ (Date.ltb d today = false ->
      exists treatments view,
        Dental_Clinic.selected_treatments (Dental_Clinic.appt_treatment_keys st)
          (Dental_Clinic._treatments st) selected_indices = inr treatments
        /\ treatments <> []
        /\ snd booked = Shown (showinfo "Success" "Appointment booked successfully!")
        /\ Dental_Clinic.appointments (fst booked)
           = (Dental_Clinic.appointments st
              ++ [Appointment.__init__ (Str.strip name_entry) (Str.strip phone_entry)
                    (Str.strip date_entry) (Str.strip time_entry) treatments])%list
        /\ Dental_Clinic.appointments_json (fst booked)
           = save_appointments (Dental_Clinic.appointments (fst booked))
        /\ Dental_Clinic.upcoming today (Dental_Clinic.appointments (fst booked))
           = Some view
        /\ In (Appointment.__init__ (Str.strip name_entry) (Str.strip phone_entry)
                 (Str.strip date_entry) (Str.strip time_entry) treatments) view
        /\ Dental_Clinic.appointments_listbox (fst booked)
           = map Appointment.__str__ view).
Proof.
  intros Hn Hp Hd Ht Ed Et Hh Hm Hs Hrows Hsel booked.
  pose proof (check_fields_pass today _ _ _ _ " (e.g., 2024-10-15)." selected_indices
                d h m Hn Hp Hd Ht Ed Et Hh Hm Hs) as C.
  split; intros L; rewrite L in C.
  - unfold booked, Dental_Clinic.book_appointment. rewrite C. reflexivity.
  - unfold rows_match_catalog in Hrows. rewrite Hrows in Hsel.
    destruct (selected_treatments_rows _ _ Hsel) as [treatments [E Len]].
    exists treatments.
    set (appt := Appointment.__init__ (Str.strip name_entry) (Str.strip phone_entry)
                   (Str.strip date_entry) (Str.strip time_entry) treatments).
    set (appts := (Dental_Clinic.appointments st ++ [appt])%list).
    destruct (upcoming_spec today appts) as [view [U [P _]]].
    exists view.
    assert (B : booked
                = (Dental_Clinic.set_listbox
                     (Dental_Clinic.set_appointments st appts (save_appointments appts))
                     (map Appointment.__str__ view),
                   Shown (showinfo "Success" "Appointment booked successfully!"))).
    { unfold booked, Dental_Clinic.book_appointment. rewrite C, Hrows, E.
      fold appt. fold appts.
      unfold Dental_Clinic.refresh_appointments_list.
      cbn [Dental_Clinic.appointments Dental_Clinic.set_appointments].
      rewrite U. reflexivity. }
    rewrite B. cbn [fst snd Dental_Clinic.appointments Dental_Clinic.set_listbox
                      Dental_Clinic.set_appointments Dental_Clinic.appointments_json
                      Dental_Clinic.appointments_listbox].
    rewrite Hrows. repeat split; try assumption; try reflexivity.
    + intros ->. destruct selected_indices; [contradiction | discriminate].
    + apply (Permutation_in _ (Permutation_sym P)). apply filter_In. split.
      * unfold appts. apply in_or_app. right. left. reflexivity.
      * unfold Appointment.is_upcoming, appt. cbn [Appointment.__init__ Appointment.date].
        rewrite Ed. rewrite date_ltb_leb in L. destruct (Date.leb today d);
          [reflexivity | discriminate].
Qed.

End Upcoming.

(** ** The store *)

Section StoreFacts.

Local Open Scope string_scope.

(** *** Stripping *)

Lemma rstrip_cons c s :
  Str.rstrip (String c s)
  = match Str.rstrip s with
    | EmptyString => if Str.isspace c then EmptyString else String c EmptyString
    | r => String c r
    end.
Proof. reflexivity. Qed.

Lemma rstrip_idem s : Str.rstrip (Str.rstrip s) = Str.rstrip s.
Proof.
  induction s as [| c s IH]; [reflexivity |].
  rewrite rstrip_cons.
  destruct (Str.rstrip s) as [| c' r] eqn:R.
  - destruct (Str.isspace c) eqn:Sp; [reflexivity |].
    rewrite rstrip_cons. cbn [Str.rstrip]. rewrite Sp. reflexivity.
  - rewrite rstrip_cons, IH. reflexivity.
Qed.

Lemma lstrip_head c s : Str.isspace c = false -> Str.lstrip (String c s) = String c s.
Proof. intros Sp. cbn. rewrite Sp. reflexivity. Qed.

Lemma lstrip_shape s :
  Str.lstrip s = EmptyString
  \/ exists c s', Str.lstrip s = String c s' /\ Str.isspace c = false.
Proof.
  induction s as [| c s IH]; cbn; [left; reflexivity |].
  destruct (Str.isspace c) eqn:Sp; [exact IH |].
  right. exists c, s. split; [reflexivity | exact Sp].
Qed.

Lemma rstrip_head c s :
  Str.isspace c = false -> exists r, Str.rstrip (String c s) = String c r.
Proof.
  intros Sp. rewrite rstrip_cons. destruct (Str.rstrip s) as [| c' r].
  - rewrite Sp. eexists. reflexivity.
  - eexists. reflexivity.
Qed.

Lemma strip_idem s : Str.strip (Str.strip s) = Str.strip s.
Proof.
  unfold Str.strip.
  destruct (lstrip_shape s) as [E | [c [s' [E Sp]]]]; rewrite E.
  - reflexivity.
  - destruct (rstrip_head c s' Sp) as [r R]. rewrite R.
    rewrite (lstrip_head c r Sp). rewrite <- R. apply rstrip_idem.
Qed.

(** *** The store *)






End StoreFacts.

(** ** Search *)

Section SearchFacts.

Local Open Scope string_scope.

(** *** Queries and fragments *)

Lemma lower_char_space c : Str.isspace (Str.lower_char c) = Str.isspace c.
Proof.
  destruct c as [[] [] [] [] [] [] [] []]; reflexivity.
Qed.

Lemma has_ink_lower s : has_ink (Str.lower s) = has_ink s.
Proof.
  induction s as [| c s IH]; cbn; [reflexivity |].
  rewrite lower_char_space, IH. reflexivity.
Qed.

Lemma has_ink_lstrip s : has_ink (Str.lstrip s) = has_ink s.
Proof.
  induction s as [| c s IH]; cbn; [reflexivity |].
  destruct (Str.isspace c) eqn:Sp; cbn; [exact IH | rewrite Sp; reflexivity].
Qed.

Lemma strip_nonempty_ink s : Str.nonempty (Str.strip s) = has_ink s.
Proof.
  rewrite <- (has_ink_lstrip s). unfold Str.strip.
  destruct (lstrip_shape s) as [E | [c [s' [E Sp]]]]; rewrite E.
  - reflexivity.
  - destruct (rstrip_head c s' Sp) as [r R]. rewrite R. cbn. rewrite Sp. reflexivity.
Qed.

Lemma has_ink_strip s : has_ink (Str.strip s) = has_ink s.
Proof.
  rewrite <- (has_ink_lstrip s). unfold Str.strip.
  destruct (lstrip_shape s) as [E | [c [s' [E Sp]]]]; rewrite E.
  - reflexivity.
  - destruct (rstrip_head c s' Sp) as [r R]. rewrite R. cbn. rewrite Sp. reflexivity.
Qed.

Lemma prefix_ink q : forall s,
  String.prefix q s = true -> has_ink q = true -> has_ink s = true.
Proof.
  induction q as [| a q IH]; intros s P I; [discriminate |].
  destruct s as [| b s]; [discriminate |]. cbn in P.
  destruct (ascii_dec a b) as [-> | N]; [| discriminate].
  cbn in *. destruct (Str.isspace b); cbn in *; [apply IH; assumption | reflexivity].
Qed.

Lemma contains_ink q s :
  Str.contains q s = true -> has_ink q = true -> has_ink s = true.
Proof.
  intros C I. induction s as [| c s IH].
  - destruct q; [discriminate I | discriminate C].
  - cbn [Str.contains] in C. apply orb_true_iff in C. destruct C as [P | C].
    + apply (prefix_ink q _ P I).
    + cbn. rewrite (IH C). apply orb_true_r.
Qed.

(** A fragment whose lower-cased text holds the query is among the matches. *)
Lemma matching_fragment entry content fragment :
  Str.nonempty (Str.lower (Str.strip entry)) = true ->
  In fragment (Dental_Clinic.re_split content) ->
  Str.contains (Str.lower (Str.strip entry)) (Str.lower fragment) = true ->
  In (Str.strip fragment)
     (Dental_Clinic.matching_bills (Str.lower (Str.strip entry)) content).
Proof.
  intros Hq Hin Hc. unfold Dental_Clinic.matching_bills.
  apply in_map. apply filter_In. split; [exact Hin |].
  rewrite Hc, andb_true_r. rewrite strip_nonempty_ink.
  rewrite <- has_ink_lower. apply (contains_ink _ _ Hc).
  rewrite has_ink_lower, has_ink_strip, <- strip_nonempty_ink.
  destruct (Str.strip entry); [discriminate | reflexivity].
Qed.

(** C10.  A query that, stripped and lower-cased, is the placeholder text
    of the search entry is refused with the search error, as an empty query
    is. *)
Theorem search_rejects_placeholder (st : Dental_Clinic.State) (entry : string) :
  Str.lower (Str.strip entry) = Dental_Clinic.placeholder ->
  Dental_Clinic.search_bills st entry = (st, search_error)
  /\ Dental_Clinic.search_bills st entry = Dental_Clinic.search_bills st "".
Proof.
  intros E. unfold Dental_Clinic.search_bills. rewrite E. split; reflexivity.
Qed.


End SearchFacts.

(** ** Discounts *)

Section BillingFacts.

Context `{Builtins}.

Local Open Scope string_scope.


Lemma ltb_false_le a b : PyNum.ltb a b = false -> (PyNum.value b <= PyNum.value a)%Q.
Proof.
  unfold PyNum.ltb. intros E. apply negb_false_iff in E. apply Qle_bool_iff. exact E.
Qed.



End BillingFacts.

(** ** Sessions *)

Section SessionFacts.

Import CatalogEdit.

Context `{Builtins}.

Local Open Scope string_scope.


(** *** Prices of an edited catalog *)










(** *** Handlers that leave catalog, appointments and store alone *)





(** *** Handlers that change the appointments *)




Lemma after_refresh {A : Type} (r : Dental_Clinic.State * outcome) (o : outcome) :
  fst (match r with
       | (st2, Raised exc) => (st2, Raised exc)
       | (st2, _) => (st2, o)
       end) = fst r.
Proof. destruct r as [st2 []]; reflexivity. Qed.






(** *** Starting *)






End SessionFacts.

(** ** The properties on worked inputs *)

Section Examples.

Import CatalogEdit.
Import Demo.
Local Open Scope string_scope.
#[local] Existing Instance Py.builtins.



(** *** Price editor *)

Lemma price_edit_rejects_first_bad_line_witness :
  text_lines two_prices = (["Cleaning: 7000"] ++ "Filling: abc" :: [])%list
  /\ Dental_Clinic.save_prices two_prices = Rejected "Line 2: Invalid price 'abc'."
  /\ Dental_Clinic.edit_prices_save demo_state two_prices
     = (demo_state, Shown (showwarning "Input Error" "Line 2: Invalid price 'abc'."))
  /\ dental_billing.save_prices two_prices = Rejected "Line 2 has invalid price."
  /\ dental_billing.install dental_billing.initial_treatments
       (dental_billing.save_prices two_prices)
     = dental_billing.initial_treatments.
Proof.
  assert (L : text_lines two_prices = (["Cleaning: 7000"] ++ "Filling: abc" :: [])%list)
    by reflexivity.
  destruct (price_edit_rejects_first_bad_line two_prices ["Cleaning: 7000"] []
              "Filling: abc" L) as [New Old].
  assert (P1 : Forall (fun l => rejected_line l = false) ["Cleaning: 7000"])
    by (repeat constructor).
  assert (P2 : rejected_line "Filling: abc" = true) by reflexivity.
  assert (Q1 : Forall (fun l => rejected_line_strict l = false) ["Cleaning: 7000"])
    by (repeat constructor).
  assert (Q2 : rejected_line_strict "Filling: abc" = true) by reflexivity.
  destruct (New P1 P2) as [m [E [_ S]]]. destruct (Old Q1 Q2) as [m' [E' [_ S']]].
  split; [exact L | split; [reflexivity | split; [| split; [reflexivity |]]]].
  - rewrite (S demo_state). vm_compute in E. injection E as <-. reflexivity.
  - apply S'.
Defined.

(** C3, as stated, fails: the second line has no treatment name, and the
    price editor of [Dental_Clinic.py] installs the first line without any
    warning. *)
Lemma price_edit_skips_nameless_line :
  nth_error (text_lines nameless_second_line) 1 = Some ": 500"
  /\ Str.split_once ":"%char ": 500" = Some ("", " 500")
  /\ Dental_Clinic.save_prices nameless_second_line
     = Installed [(1%Z, ("Cleaning", PyFloat 7000))]
  /\ Dental_Clinic.edit_prices_save demo_state nameless_second_line
     = (Dental_Clinic.set_treatments demo_state [(1%Z, ("Cleaning", PyFloat 7000))],
        Shown (showinfo "Success" "Prices updated!"))
  /\ Dental_Clinic._treatments
       (fst (Dental_Clinic.edit_prices_save demo_state nameless_second_line))
     <> Dental_Clinic._treatments demo_state.
Proof.
  repeat split; try reflexivity. vm_compute. discriminate.
Qed.


Lemma book_rejects_past_accepts_today_witness :
  let booked day :=
    Dental_Clinic.book_appointment today_demo demo_state "Ali" "0300" day "14:30"
      [0%nat] in
  booked "2024-10-14"
  = (demo_state, Shown (showwarning "Input Error" "Date must be today or in the future."))
  /\ snd (booked "2024-10-15")
     = Shown (showinfo "Success" "Appointment booked successfully!")
  /\ Dental_Clinic.appointments (fst (booked "2024-10-15"))
     = [Appointment.mk "Ali" "0300" "2024-10-15" "14:30" [("Cleaning", PyInt 7000)]].
Proof.
  intros booked.
  assert (R : rows_match_catalog demo_state) by reflexivity.
  assert (S : rows_of (List.length (Dental_Clinic.appt_treatment_keys demo_state)) [0%nat]).
  { repeat constructor. }
  assert (N : [0%nat] <> []) by discriminate.
  assert (Hh : (0 <= 14 < 24)%Z) by lia.
  assert (Hm : (0 <= 30 < 60)%Z) by lia.
  pose proof (book_rejects_past_accepts_today today_demo demo_state "Ali" "0300"
                "2024-10-14" "14:30" [0%nat] (mkDate 2024 10 14) 14 30
                eq_refl eq_refl eq_refl eq_refl eq_refl eq_refl Hh Hm N R S)
    as [Past _].
  pose proof (book_rejects_past_accepts_today today_demo demo_state "Ali" "0300"
                "2024-10-15" "14:30" [0%nat] (mkDate 2024 10 15) 14 30
                eq_refl eq_refl eq_refl eq_refl eq_refl eq_refl Hh Hm N R S)
    as [_ Today].
  destruct (Today eq_refl) as [ts [view [_ [_ [Msg _]]]]].
  split; [exact (Past eq_refl) | split; [exact Msg | reflexivity]].
Defined.

(** *** Keys *)


(** *** Booking *)

(** *** Search *)



(** *** Discounts *)



Lemma search_rejects_placeholder_witness :
  Dental_Clinic.search_bills billed_state "  Enter name or phone (PARTIAL match)...  "
  = (billed_state, search_error).
Proof.
  apply (search_rejects_placeholder billed_state
           "  Enter name or phone (PARTIAL match)...  ").
  reflexivity.
Defined.

End Examples.

(** ** The range of the discount *)

Section DiscountRange.

Import Float64.
Local Open Scope Q_scope.

(** *** The ends of the discount range *)







End DiscountRange.

(** ** More on the search *)

Section SearchMore.

Local Open Scope string_scope.

(** *** The pieces of the log *)

Lemma pieces_nonnil s : Dental_Clinic.pieces s <> [].
Proof.
  destruct s as [| c s]; cbn; [discriminate |].
  destruct (Dental_Clinic.boundary s); [discriminate |].
  destruct (Dental_Clinic.pieces s); discriminate.
Qed.

Lemma pieces_glue s : glue (Dental_Clinic.pieces s) = s.
Proof.
  unfold glue. induction s as [| c s IH]; [reflexivity |].
  cbn [Dental_Clinic.pieces].
  pose proof (pieces_nonnil s) as N.
  destruct (Dental_Clinic.boundary s).
  - cbn. rewrite IH. reflexivity.
  - destruct (Dental_Clinic.pieces s) as [| h t] eqn:P; [contradiction |].
    cbn in *. rewrite IH. reflexivity.
Qed.

Lemma prefix_nil s : String.prefix EmptyString s = true.
Proof. destruct s; reflexivity. Qed.

Lemma prefix_cons a q b s :
  String.prefix (String a q) (String b s) = true <-> a = b /\ String.prefix q s = true.
Proof.
  cbn. destruct (ascii_dec a b) as [-> | N]; split.
  - intros P. split; [reflexivity | exact P].
  - intros [_ P]. exact P.
  - discriminate.
  - intros [E _]. contradiction.
Qed.

Lemma boundary_head b s :
  Dental_Clinic.boundary (String b s) = true -> b = "="%char \/ b = "010"%char.
Proof.
  unfold Dental_Clinic.boundary. intros H. apply orb_true_iff in H.
  destruct H as [H | H]; apply prefix_cons in H; destruct H as [E _];
    [left | right]; symmetry; exact E.
Qed.

Lemma contains_prefix q s : String.prefix q s = true -> Str.contains q s = true.
Proof. intros P. destruct s; cbn [Str.contains]; rewrite P; reflexivity. Qed.

Lemma contains_unfold q c s :
  Str.contains q (String c s) = String.prefix q (String c s) || Str.contains q s.
Proof. reflexivity. Qed.

Lemma contains_cons q c s : Str.contains q s = true -> Str.contains q (String c s) = true.
Proof. intros C. cbn [Str.contains]. rewrite C. apply orb_true_r. Qed.

(** A plain query at the head of a string lies in its first piece. *)
Lemma prefix_first_piece q : forall s,
  q <> EmptyString -> plain_query q = true -> String.prefix q s = true ->
  exists h t, Dental_Clinic.pieces s = h :: t /\ String.prefix q h = true.
Proof.
  induction q as [| a q IH]; intros s Hq Hc P; [contradiction |].
  destruct s as [| b s]; [discriminate |].
  apply prefix_cons in P. destruct P as [<- P].
  cbn [plain_query] in Hc. apply andb_true_iff in Hc. destruct Hc as [Ha Hc].
  cbn [Dental_Clinic.pieces].
  destruct q as [| a' q].
  - destruct (Dental_Clinic.boundary s).
    + eexists. eexists. split; [reflexivity |]. apply prefix_cons. split; reflexivity.
    + destruct (Dental_Clinic.pieces s); eexists; eexists; (split; [reflexivity |]);
        apply prefix_cons; split; try reflexivity; apply prefix_nil.
  - destruct s as [| b' s]; [discriminate |].
    pose proof P as P'. apply prefix_cons in P'. destruct P' as [<- _].
    assert (B : Dental_Clinic.boundary (String a' s) = false).
    { destruct (Dental_Clinic.boundary (String a' s)) eqn:B; [| reflexivity].
      apply boundary_head in B. cbn [plain_query] in Hc.
      apply andb_true_iff in Hc. destruct Hc as [Hc _].
      apply andb_true_iff in Hc. destruct Hc as [H1 H2].
      destruct B as [-> | ->]; discriminate. }
    rewrite B.
    destruct (IH (String a' s) ltac:(discriminate) Hc P) as [h [t [E Ph]]].
    rewrite E. eexists. eexists. split; [reflexivity |].
    apply prefix_cons. split; [reflexivity | exact Ph].
Qed.

Lemma contains_piece q s :
  q <> EmptyString -> plain_query q = true -> Str.contains q s = true ->
  exists f, In f (Dental_Clinic.pieces s) /\ Str.contains q f = true.
Proof.
  intros Hq Hc. induction s as [| c s IH]; intros C.
  - destruct q; [contradiction | discriminate].
  - cbn [Str.contains] in C. apply orb_true_iff in C. destruct C as [P | C].
    + destruct (prefix_first_piece q _ Hq Hc P) as [h [t [E Ph]]].
      exists h. rewrite E. split; [left; reflexivity | apply contains_prefix, Ph].
    + destruct (IH C) as [f [Hin Cf]]. cbn [Dental_Clinic.pieces].
      destruct (Dental_Clinic.boundary s).
      * exists f. split; [right; exact Hin | exact Cf].
      * destruct (Dental_Clinic.pieces s) as [| h t]; [contradiction |].
        destruct Hin as [<- | Hin].
        -- exists (String c h). split; [left; reflexivity | apply contains_cons, Cf].
        -- exists f. split; [right; exact Hin | exact Cf].
Qed.

Lemma pieces_in_re_split f s :
  In f (Dental_Clinic.pieces s) -> In f (Dental_Clinic.re_split s).
Proof.
  unfold Dental_Clinic.re_split. destruct (Dental_Clinic.boundary s);
    [intros Hin; right; exact Hin | trivial].
Qed.

(** *** Lower-casing and stripping *)

Lemma lower_char_equals c : Str.lower_char c = "="%char <-> c = "="%char.
Proof. destruct c as [[] [] [] [] [] [] [] []]; split; intros E; try reflexivity; discriminate E. Qed.

Lemma lower_char_line_feed c : Str.lower_char c = "010"%char <-> c = "010"%char.
Proof. destruct c as [[] [] [] [] [] [] [] []]; split; intros E; try reflexivity; discriminate E. Qed.

Lemma prefix_lower p : forall s,
  caseless p -> String.prefix p (Str.lower s) = String.prefix p s.
Proof.
  induction p as [| a p IH]; intros s Hp; [destruct s; reflexivity |].
  destruct Hp as [Ha Hp]. destruct s as [| c s]; [reflexivity |].
  cbn [Str.lower String.prefix].
  destruct (ascii_dec a (Str.lower_char c)) as [E | N];
    destruct (ascii_dec a c) as [E' | N'].
  - apply IH, Hp.
  - exfalso. apply N'. symmetry. apply Ha. symmetry. exact E.
  - exfalso. apply N. symmetry. apply Ha. symmetry. exact E'.
  - reflexivity.
Qed.

Lemma boundary_lower s : Dental_Clinic.boundary (Str.lower s) = Dental_Clinic.boundary s.
Proof.
  unfold Dental_Clinic.boundary. rewrite !prefix_lower; [reflexivity | |];
    cbn; repeat split; try apply lower_char_equals; try apply lower_char_line_feed.
Qed.

Lemma pieces_lower s :
  Dental_Clinic.pieces (Str.lower s) = map Str.lower (Dental_Clinic.pieces s).
Proof.
  induction s as [| c s IH]; [reflexivity |].
  cbn [Str.lower Dental_Clinic.pieces]. rewrite boundary_lower, IH.
  destruct (Dental_Clinic.boundary s); [reflexivity |].
  destruct (Dental_Clinic.pieces s); reflexivity.
Qed.

Lemma lower_lstrip s : Str.lower (Str.lstrip s) = Str.lstrip (Str.lower s).
Proof.
  induction s as [| c s IH]; [reflexivity |].
  cbn [Str.lstrip Str.lower]. rewrite lower_char_space.
  destruct (Str.isspace c); [exact IH | reflexivity].
Qed.

Lemma lower_rstrip s : Str.lower (Str.rstrip s) = Str.rstrip (Str.lower s).
Proof.
  induction s as [| c s IH]; [reflexivity |].
  cbn [Str.lower]. rewrite !rstrip_cons, <- IH, lower_char_space.
  destruct (Str.rstrip s); cbn [Str.lower]; [destruct (Str.isspace c) |]; reflexivity.
Qed.

Lemma lower_strip s : Str.lower (Str.strip s) = Str.strip (Str.lower s).
Proof. unfold Str.strip. rewrite lower_rstrip, lower_lstrip. reflexivity. Qed.

(** A stripped, non-empty query begins with a character that is not white
    space and has no white space at its end. *)
Lemma query_tight entry :
  Str.nonempty (Str.lower (Str.strip entry)) = true ->
  (exists c q, Str.lower (Str.strip entry) = String c q /\ Str.isspace c = false)
  /\ Str.rstrip (Str.lower (Str.strip entry)) = Str.lower (Str.strip entry).
Proof.
  intros Hq. split.
  - unfold Str.strip in *.
    destruct (lstrip_shape entry) as [E | [c [s' [E Sp]]]]; rewrite E in *; [discriminate |].
    destruct (rstrip_head c s' Sp) as [r R]. rewrite R. cbn [Str.lower].
    eexists. eexists. split; [reflexivity |]. rewrite lower_char_space. exact Sp.
  - rewrite <- lower_rstrip. unfold Str.strip. rewrite rstrip_idem. reflexivity.
Qed.

Lemma contains_lstrip c q s :
  Str.isspace c = false ->
  Str.contains (String c q) (Str.lstrip s) = Str.contains (String c q) s.
Proof.
  intros Sp. induction s as [| b s IH]; [reflexivity |].
  cbn [Str.lstrip]. destruct (Str.isspace b) eqn:Sb; [| reflexivity].
  rewrite IH. cbn [Str.contains]. 
  destruct (String.prefix (String c q) (String b s)) eqn:P; [| reflexivity].
  apply prefix_cons in P. destruct P as [-> _]. congruence.
Qed.

Lemma prefix_of_rstrip s : forall q,
  String.prefix q (Str.rstrip s) = true -> String.prefix q s = true.
Proof.
  induction s as [| c s IH]; intros q P; [exact P |].
  destruct q as [| a q]; [reflexivity |].
  rewrite rstrip_cons in P.
  destruct (Str.rstrip s) as [| c' r] eqn:R.
  - destruct (Str.isspace c); [discriminate |].
    apply prefix_cons in P. destruct P as [-> P].
    apply prefix_cons. split; [reflexivity |]. destruct q; [apply prefix_nil | discriminate].
  - apply prefix_cons in P. destruct P as [-> P].
    apply prefix_cons. split; [reflexivity | apply IH, P].
Qed.

Lemma prefix_rstrip q : forall s,
  q <> EmptyString -> Str.rstrip q = q ->
  String.prefix q s = true -> String.prefix q (Str.rstrip s) = true.
Proof.
  induction q as [| a q IH]; intros s Hq Hr P; [contradiction |].
  destruct s as [| b s]; [discriminate |].
  apply prefix_cons in P. destruct P as [<- P].
  rewrite rstrip_cons in Hr. rewrite rstrip_cons.
  destruct q as [| a' q].
  - cbn in Hr. destruct (Str.isspace a) eqn:Sa; [discriminate |].
    destruct (Str.rstrip s); apply prefix_cons; split;
      try reflexivity; apply prefix_nil.
  - assert (Rq : Str.rstrip (String a' q) = String a' q).
    { destruct (Str.rstrip (String a' q)) eqn:R.
      - destruct (Str.isspace a); discriminate.
      - congruence. }
    pose proof (IH s ltac:(discriminate) Rq P) as P'.
    destruct (Str.rstrip s) as [| c' r]; [discriminate |].
    apply prefix_cons. split; [reflexivity | exact P'].
Qed.

Lemma contains_rstrip q s :
  q <> EmptyString -> Str.rstrip q = q ->
  Str.contains q (Str.rstrip s) = Str.contains q s.
Proof.
  intros Hq Hr. induction s as [| c s IH]; [reflexivity |].
  destruct (Str.contains q (String c s)) eqn:C.
  - cbn [Str.contains] in C. apply orb_true_iff in C. destruct C as [P | C].
    + apply contains_prefix. apply prefix_rstrip; assumption.
    + rewrite C in IH. rewrite rstrip_cons.
      destruct (Str.rstrip s) as [| c' r].
      * destruct q; [contradiction | discriminate].
      * apply contains_cons. exact IH.
  - destruct (Str.contains q (Str.rstrip (String c s))) eqn:C'; [| reflexivity].
    exfalso. cbn [Str.contains] in C. apply orb_false_iff in C. destruct C as [NP NC].
    rewrite NC in IH. rewrite rstrip_cons in C'.
    destruct (Str.rstrip s) as [| c' r] eqn:R.
    + assert (P : String.prefix q (Str.rstrip (String c s)) = true).
      { rewrite rstrip_cons, R.
        destruct (Str.isspace c); cbn [Str.contains] in C';
          rewrite ?orb_false_r in C'; [exact C' |].
        apply orb_true_iff in C'. destruct C' as [P | P]; [exact P |].
        destruct q; [contradiction | discriminate]. }
      apply prefix_of_rstrip in P. congruence.
    + rewrite contains_unfold in C'. apply orb_true_iff in C'. destruct C' as [P | C'].
      * assert (P' : String.prefix q (Str.rstrip (String c s)) = true)
          by (rewrite rstrip_cons, R; exact P).
        apply prefix_of_rstrip in P'. congruence.
      * congruence.
Qed.

(** Stripping a fragment neither hides nor reveals a stripped query. *)
Lemma contains_strip entry f :
  Str.nonempty (Str.lower (Str.strip entry)) = true ->
  Str.contains (Str.lower (Str.strip entry)) (Str.lower (Str.strip f))
  = Str.contains (Str.lower (Str.strip entry)) (Str.lower f).
Proof.
  intros Hq. destruct (query_tight entry Hq) as [[c [q [E Sp]]] R].
  rewrite lower_strip with (s := f). unfold Str.strip at 2.
  rewrite contains_rstrip; [| rewrite E; discriminate | exact R].
  rewrite E. apply contains_lstrip. exact Sp.
Qed.

Lemma pieces_nonempty s :
  match Dental_Clinic.pieces s with
  | [] => False
  | h :: t => (s <> EmptyString -> h <> EmptyString)
              /\ Forall (fun f => f <> EmptyString) t
  end.
Proof.
  induction s as [| c s IH]; cbn [Dental_Clinic.pieces].
  - split; [intros N; contradiction | constructor].
  - destruct (Dental_Clinic.boundary s) eqn:B.
    + split; [discriminate |].
      destruct (Dental_Clinic.pieces s) as [| h t]; [contradiction |].
      destruct IH as [Hh Ht]. constructor; [| exact Ht].
      apply Hh. intros ->. discriminate B.
    + destruct (Dental_Clinic.pieces s) as [| h t]; [contradiction |].
      destruct IH as [_ Ht]. split; [discriminate | exact Ht].
Qed.

(** X4.  The split of the log loses nothing: the fragments, put together
    again, are the log; and no fragment after the first is empty. *)
Theorem log_fragments_partition_the_log (content : string) :
  glue (Dental_Clinic.re_split content) = content
  /\ Forall (fun f => f <> EmptyString) (tl (Dental_Clinic.re_split content)).
Proof.
  unfold Dental_Clinic.re_split.
  pose proof (pieces_nonempty content) as N.
  destruct (Dental_Clinic.boundary content) eqn:B.
  - split; [cbn; apply pieces_glue |]. cbn [tl].
    destruct (Dental_Clinic.pieces content) as [| h t]; [contradiction |].
    destruct N as [Hh Ht]. constructor; [| exact Ht].
    apply Hh. intros ->. discriminate B.
  - split; [apply pieces_glue |].
    destruct (Dental_Clinic.pieces content) as [| h t]; [contradiction |]. apply N.
Qed.

Lemma plain_query_found (st : Dental_Clinic.State) (entry content : string) :
  Dental_Clinic.patient_bills_txt st = Some content ->
  Str.nonempty (Str.lower (Str.strip entry)) = true ->
  Str.lower (Str.strip entry) <> Dental_Clinic.placeholder ->
  plain_query (Str.lower (Str.strip entry)) = true ->
  Str.contains (Str.lower (Str.strip entry)) (Str.lower content) = true ->
  let matching := Dental_Clinic.matching_bills (Str.lower (Str.strip entry)) content in
  (exists fragment,
      In fragment (Dental_Clinic.re_split content)
      /\ Str.contains (Str.lower (Str.strip entry)) (Str.lower fragment) = true
      /\ In (Str.strip fragment) matching)
  /\ matching <> []
  /\ Dental_Clinic.search_bills st entry
     = (Dental_Clinic.set_search_results st (Dental_Clinic.results_text matching),
        Shown (showinfo "Search Results"
                 ("Found " ++ Str.of_Z (Z.of_nat (List.length matching))
                  ++ " matches. Full details shown below (limited to 10)."))).
Proof.
  intros Hlog Hq Hp Hplain Hc matching.
  assert (Hne : Str.lower (Str.strip entry) <> EmptyString).
  { intros E. rewrite E in Hq. discriminate. }
  destruct (contains_piece _ _ Hne Hplain Hc) as [f' [Hin Cf]].
  rewrite pieces_lower in Hin. apply in_map_iff in Hin. destruct Hin as [f [<- Hin]].
  apply pieces_in_re_split in Hin.
  pose proof (matching_fragment entry content f Hq Hin Cf) as M. fold matching in M.
  split; [exists f; repeat split; assumption |].
  assert (N : matching <> []) by (intros E; rewrite E in M; contradiction).
  split; [exact N |].
  unfold Dental_Clinic.search_bills. rewrite Hq. cbn [negb orb].
  apply String.eqb_neq in Hp. rewrite Hp, Hlog. fold matching.
  destruct matching; [contradiction | reflexivity].
Qed.

(** X2.  A query without [=] and line feed that occurs in the log, in any
    letter case, is found: the search reports at least one match, and a
    fragment that holds the query is among the matches. *)
Theorem search_finds_plain_query (st : Dental_Clinic.State) (entry content : string) :
  Dental_Clinic.patient_bills_txt st = Some content ->
  Str.nonempty (Str.lower (Str.strip entry)) = true ->
  Str.lower (Str.strip entry) <> Dental_Clinic.placeholder ->
  plain_query (Str.lower (Str.strip entry)) = true ->
  Str.contains (Str.lower (Str.strip entry)) (Str.lower content) = true ->
  let matching := Dental_Clinic.matching_bills (Str.lower (Str.strip entry)) content in
  (exists fragment,
      In fragment (Dental_Clinic.re_split content)
      /\ Str.contains (Str.lower (Str.strip entry)) (Str.lower fragment) = true
      /\ In (Str.strip fragment) matching)
  /\ matching <> []
  /\ Dental_Clinic.search_bills st entry
     = (Dental_Clinic.set_search_results st (Dental_Clinic.results_text matching),
        Shown (showinfo "Search Results"
                 ("Found " ++ Str.of_Z (Z.of_nat (List.length matching))
                  ++ " matches. Full details shown below (limited to 10)."))).
Proof. apply plain_query_found. Qed.

Lemma map_filter_commute {A B : Type} (f : A -> B) (P : B -> bool) (l : list A) :
  map f (filter (fun x => P (f x)) l) = filter P (map f l).
Proof.
  induction l as [| x l IH]; [reflexivity |]. cbn.
  destruct (P (f x)); cbn; rewrite IH; reflexivity.
Qed.

(** X3.  The matches of a search are the stripped fragments of the log that
    are not empty and hold the query, in the order of the log; so every
    record shown holds the query and is stripped. *)
Theorem search_matches_hold_the_query (entry content : string) :
  Str.nonempty (Str.lower (Str.strip entry)) = true ->
  let query := Str.lower (Str.strip entry) in
  Dental_Clinic.matching_bills query content
  = filter (fun r => Str.nonempty r && Str.contains query (Str.lower r))
           (map Str.strip (Dental_Clinic.re_split content))
  /\ (forall r, In r (Dental_Clinic.matching_bills query content) ->
                Str.contains query (Str.lower r) = true
                /\ Str.nonempty r = true
                /\ Str.strip r = r).
Proof.
  intros Hq query.
  assert (E : Dental_Clinic.matching_bills query content
              = filter (fun r => Str.nonempty r && Str.contains query (Str.lower r))
                       (map Str.strip (Dental_Clinic.re_split content))).
  { unfold Dental_Clinic.matching_bills. rewrite <- map_filter_commute. f_equal.
    apply filter_ext. intros f. unfold query. rewrite (contains_strip entry f Hq).
    reflexivity. }
  split; [exact E |].
  intros r Hr. rewrite E in Hr. apply filter_In in Hr. destruct Hr as [Hin Hr].
  apply andb_true_iff in Hr. destruct Hr as [Hn Hc].
  apply in_map_iff in Hin. destruct Hin as [f [<- _]].
  repeat split; [exact Hc | exact Hn | apply strip_idem].
Qed.

End SearchMore.

(** ** More on catalog edits *)

Section CatalogMore.

Import CatalogEdit.

Context `{Builtins}.

Local Open Scope string_scope.
Local Open Scope Z_scope.

(** *** What the loops build *)

Lemma names_loop_entries treatments lines : forall i acc,
  below i acc ->
  names_loop treatments i lines acc
  = (acc ++ map (named_entry treatments)
              (filter (fun il => names_treatment (snd il)) (enumerate i lines)))%list.
Proof.
  induction lines as [| line lines IH]; intros i acc Hb; cbn.
  - rewrite app_nil_r. reflexivity.
  - unfold names_treatment at 1.
    destruct (Str.nonempty (Str.strip line)); cbn [negb].
    + destruct (below_set i acc (Str.strip line, old_price treatments (Str.strip line)) Hb)
        as [E Hb'].
      rewrite E, IH by exact Hb'. rewrite <- app_assoc. reflexivity.
    + apply IH. apply below_weaken. exact Hb.
Qed.

Lemma dc_prices_loop_entries lines : forall i acc d,
  below i acc ->
  Dental_Clinic.prices_loop i lines acc = Installed d ->
  d = (acc ++ flat_map priced_entry (enumerate i lines))%list
  /\ Forall (fun il => rejected_line (snd il) = false) (enumerate i lines).
Proof.
  induction lines as [| line lines IH]; intros i acc d Hb E.
  - cbn in *. injection E as <-. rewrite app_nil_r. split; [reflexivity | constructor].
  - rewrite dc_prices_loop_step in E. cbn [enumerate flat_map].
    unfold priced_entry at 1. cbn [fst snd].
    destruct (price_line line) as [[name price_str] |] eqn:P.
    + destruct (float_of_string price_str) as [price |] eqn:Fl; [| discriminate].
      destruct (PyNum.ltb (PyFloat price) (PyInt 0)) eqn:L; [discriminate |].
      destruct (below_set i acc (name, PyFloat price) Hb) as [Es Hb'].
      rewrite Es in E. destruct (IH _ _ _ Hb' E) as [-> F].
      split; [rewrite <- app_assoc; reflexivity |].
      constructor; [| exact F]. cbn [snd]. unfold rejected_line, bad_price.
      rewrite P, Fl. exact L.
    + destruct (IH _ _ _ (below_weaken _ _ Hb) E) as [-> F].
      split; [reflexivity |]. constructor; [| exact F].
      cbn [snd]. unfold rejected_line. rewrite P. reflexivity.
Qed.

Lemma old_price_source treatments name :
  In (name, old_price treatments name) (Dict.values treatments)
  \/ (old_price treatments name = PyInt 1000
      /\ forall price, ~ In (name, price) (Dict.values treatments)).
Proof.
  unfold old_price.
  destruct (find _ _) as [[n p] |] eqn:F.
  - left. apply find_some in F. destruct F as [Hin E]. cbn in E.
    apply String.eqb_eq in E. subst n. apply in_rev in Hin. exact Hin.
  - right. split; [reflexivity |]. intros price Hin.
    apply in_rev in Hin. apply (find_none _ _ F (name, price)) in Hin.
    cbn in Hin. rewrite String.eqb_refl in Hin. discriminate.
Qed.

Lemma names_editor_result e treatments text d :
  e = NamesEditor \/ e = NamesEditorOld ->
  run_editor e treatments text = Installed d ->
  d = names_loop treatments 1 (text_lines text) [] /\ d <> [].
Proof.
  intros [-> | ->]; cbn [run_editor].
  - unfold Dental_Clinic.save_treatments. destruct (_ || _); [discriminate |].
    destruct (names_loop treatments 1 (text_lines text) []) as [| kv d'] eqn:E;
      [discriminate |].
    intros [= <-]. split; [reflexivity | discriminate].
  - unfold dental_billing.save_treatments.
    destruct (text_lines text) as [| l ls] eqn:L; [discriminate |].
    destruct (names_loop treatments 1 (l :: ls) []) as [| kv d'] eqn:E;
      [discriminate |].
    intros [= <-]. split; [reflexivity | discriminate].
Qed.

(** X5.  A name edit that succeeds lists the lines that name a treatment, in
    order, each under its line number and with its stripped name; the price
    is the one a treatment of that name had in the catalog the window was
    opened on, and 1000 when there was none. *)
Theorem names_edit_lists_kept_lines (e : editor) (treatments : dict) (text : string)
    (d : dict) :
  e = NamesEditor \/ e = NamesEditorOld ->
  run_editor e treatments text = Installed d ->
  d = map (named_entry treatments)
          (filter (fun il => names_treatment (snd il)) (enumerate 1 (text_lines text)))
  /\ (forall k name price,
         In (k, (name, price)) d ->
         In (name, price) (Dict.values treatments)
         \/ (price = PyInt 1000
             /\ forall p, ~ In (name, p) (Dict.values treatments))).
Proof.
  intros He E. destruct (names_editor_result e treatments text d He E) as [-> _].
  rewrite (names_loop_entries treatments _ 1 [] (below_nil 1)). cbn [app].
  split; [reflexivity |].
  intros k name price Hin. apply in_map_iff in Hin.
  destruct Hin as [[i line] [E' _]]. unfold named_entry in E'. cbn in E'.
  injection E' as _ <- <-. apply old_price_source.
Qed.

Lemma dc_prices_loop_accepts lines : forall i acc,
  below i acc ->
  Forall (fun l => rejected_line l = false) lines ->
  Dental_Clinic.prices_loop i lines acc
  = Installed (acc ++ flat_map priced_entry (enumerate i lines))%list.
Proof.
  induction lines as [| line lines IH]; intros i acc Hb F.
  - cbn. rewrite app_nil_r. reflexivity.
  - inversion F as [| l ls R F' E]; subst.
    rewrite dc_prices_loop_step. cbn [enumerate flat_map].
    unfold priced_entry at 1. cbn [fst snd].
    unfold rejected_line, bad_price in R.
    destruct (price_line line) as [[name price_str] |] eqn:P.
    + destruct (float_of_string price_str) as [price |] eqn:Fl; [| discriminate].
      rewrite R.
      destruct (below_set i acc (name, PyFloat price) Hb) as [Es Hb'].
      rewrite Es, (IH _ _ Hb' F'), <- app_assoc. reflexivity.
    + apply IH; [apply below_weaken; exact Hb | exact F'].
Qed.

Lemma enumerate_snd {A : Type} (l : list A) : forall i, map snd (enumerate i l) = l.
Proof.
  induction l as [| x l IH]; intros i; cbn; [reflexivity |]. rewrite IH. reflexivity.
Qed.

Lemma forall_enumerate {A : Type} (P : A -> Prop) (l : list A) : forall i,
  Forall (fun il => P (snd il)) (enumerate i l) <-> Forall P l.
Proof.
  induction l as [| x l IH]; intros i; cbn.
  - split; constructor.
  - split; intros F; inversion F; subst; constructor; try assumption;
      apply (IH (i + 1)); assumption.
Qed.

Lemma priced_entry_sound (il : Z * string) kv :
  rejected_line (snd il) = false ->
  In kv (priced_entry il) ->
  exists line_name price_str price,
    price_line (snd il) = Some (line_name, price_str)
    /\ float_of_string price_str = Some price
    /\ (0 <= price)%Q
    /\ kv = (fst il, (line_name, PyFloat price)).
Proof.
  unfold rejected_line, bad_price, priced_entry.
  destruct (price_line (snd il)) as [[name price_str] |]; [| intros _ []].
  destruct (float_of_string price_str) as [price |] eqn:Fl; [| discriminate].
  intros L [<- | []]. exists name, price_str, price.
  apply ltb_false_le in L. split; [reflexivity |]. split; [exact Fl |].
  split; [exact L | reflexivity].
Qed.

Lemma price_line_name line name price_str :
  price_line line = Some (name, price_str) ->
  Str.nonempty name = true /\ Str.strip name = name.
Proof.
  unfold price_line.
  destruct (negb _); [discriminate |].
  destruct (Str.split_once _ _) as [[a b] |]; [| discriminate].
  destruct (Str.nonempty (Str.strip a)) eqn:N; [| discriminate].
  intros [= <- _]. split; [exact N | apply strip_idem].
Qed.

(** X6.  The price editor of [Dental_Clinic.py] installs a catalog exactly
    when it rejects no line and keeps at least one: the catalog then holds,
    in order and under its line number, every line that has a name and a
    price, with the price read as a float that is not negative. *)
Theorem price_edit_installs_parsed_lines (text : string) (d : dict) :
  Dental_Clinic.save_prices text = Installed d
  <-> (Forall (fun l => rejected_line l = false) (text_lines text)
       /\ d = flat_map priced_entry (enumerate 1 (text_lines text))
       /\ d <> []).
Proof.
  unfold Dental_Clinic.save_prices. split.
  - destruct (Dental_Clinic.prices_loop 1 (text_lines text) []) as [d' | m] eqn:E;
      [| discriminate].
    destruct (dc_prices_loop_entries _ _ _ _ (below_nil 1) E) as [-> F].
    cbn [app] in *.
    apply (forall_enumerate (fun l => rejected_line l = false)) in F.
    destruct (flat_map priced_entry (enumerate 1 (text_lines text))) eqn:D;
      [discriminate |].
    intros [= <-]. repeat split; [exact F | discriminate].
  - intros [F [-> N]].
    rewrite (dc_prices_loop_accepts _ 1 [] (below_nil 1) F). cbn [app].
    destruct (flat_map priced_entry (enumerate 1 (text_lines text)));
      [contradiction | reflexivity].
Qed.

Lemma dict_set_forall (P : Z * treatment -> Prop) (d : dict) k v :
  Forall P d -> P (k, v) -> Forall P (Dict.set d k v).
Proof.
  intros F Pv. induction d as [| [k' v'] d IH]; cbn.
  - constructor; [exact Pv | constructor].
  - inversion F; subst. destruct (k' =? k)%Z; constructor; auto.
Qed.

(** The price loop of [dental_billing.py] keeps names and prices in order. *)
Lemma db_prices_loop_formed lines : forall i acc d,
  catalog_named acc -> catalog_nonneg acc ->
  dental_billing.prices_loop i lines acc = Installed d ->
  catalog_named d /\ catalog_nonneg d.
Proof.
  induction lines as [| line lines IH]; intros i acc d Hn Hp E.
  - cbn in E. injection E as <-. split; assumption.
  - cbn [dental_billing.prices_loop] in E.
    destruct (Str.split_once ":" line) as [[a b] |]; [| discriminate].
    destruct (Str.nonempty (Str.strip a)) eqn:N; cbn [negb] in E; [| discriminate].
    destruct (float_of_string (Str.strip b)) as [price |]; [| discriminate].
    destruct (PyNum.ltb (PyFloat price) (PyInt 0)) eqn:L; [discriminate |].
    apply (IH _ _ _) in E; [exact E | |].
    + apply dict_set_forall; [exact Hn |]. cbn. split; [exact N | apply strip_idem].
    + apply dict_set_forall; [exact Hp |]. cbn. apply ltb_false_le in L. exact L.
Qed.

Lemma old_price_nonneg treatments name :
  catalog_nonneg treatments -> (0 <= PyNum.value (old_price treatments name))%Q.
Proof.
  intros Hp. destruct (old_price_source treatments name) as [Hin | [-> _]].
  - unfold Dict.values in Hin. apply in_map_iff in Hin. destruct Hin as [kv [E Hin]].
    unfold catalog_nonneg in Hp. rewrite Forall_forall in Hp.
    specialize (Hp kv Hin). destruct kv as [k [n p]]. cbn in E, Hp.
    injection E as _ <-. exact Hp.
  - cbn. discriminate.
Qed.

Lemma installed_catalog_formed (e : editor) (treatments : dict) (text : string)
    (d : dict) :
  run_editor e treatments text = Installed d ->
  d <> []
  /\ catalog_named d
  /\ (catalog_nonneg treatments \/ e = PricesEditor \/ e = PricesEditorOld ->
      catalog_nonneg d).
Proof.
  intros E.
  assert (Names : e = NamesEditor \/ e = NamesEditorOld ->
            d <> [] /\ catalog_named d
            /\ (catalog_nonneg treatments -> catalog_nonneg d)).
  { intros He. destruct (names_editor_result e treatments text d He E) as [-> N].
    split; [exact N |].
    rewrite (names_loop_entries treatments _ 1 [] (below_nil 1)). cbn [app].
    split.
    - apply Forall_forall. intros kv Hin. apply in_map_iff in Hin.
      destruct Hin as [[i line] [<- Hin]]. apply filter_In in Hin.
      destruct Hin as [_ Hk]. cbn in *. split; [exact Hk | apply strip_idem].
    - intros Hp. apply Forall_forall. intros kv Hin. apply in_map_iff in Hin.
      destruct Hin as [[i line] [<- _]]. cbn. apply old_price_nonneg. exact Hp. }
  destruct e; cbn [run_editor] in E.
  - destruct (Names (or_introl eq_refl)) as [N [Hn Hp]].
    repeat split; [exact N | exact Hn |]. intros [Hq | [Hq | Hq]]; [auto | discriminate ..].
  - destruct (Names (or_intror eq_refl)) as [N [Hn Hp]].
    repeat split; [exact N | exact Hn |]. intros [Hq | [Hq | Hq]]; [auto | discriminate ..].
  - clear Names. unfold Dental_Clinic.save_prices in E.
    destruct (Dental_Clinic.prices_loop 1 (text_lines text) []) as [d' | m] eqn:L;
      [| discriminate].
    destruct d' as [| kv d']; [discriminate |]. injection E as <-.
    destruct (dc_prices_loop_entries _ _ _ _ (below_nil 1) L) as [D F]. cbn [app] in D.
    split; [discriminate |]. rewrite D.
    assert (S : forall x, In x (flat_map priced_entry (enumerate 1 (text_lines text))) ->
                (Str.nonempty (fst (snd x)) = true /\ Str.strip (fst (snd x)) = fst (snd x))
                /\ (0 <= PyNum.value (snd (snd x)))%Q).
    { intros x Hin. apply in_flat_map in Hin. destruct Hin as [il [Hil Hx]].
      rewrite Forall_forall in F. specialize (F il Hil).
      destruct (priced_entry_sound il x F Hx) as [n [ps [pr [P [_ [Pos ->]]]]]].
      cbn. split; [exact (price_line_name _ _ _ P) | exact Pos]. }
    split; [| intros _]; apply Forall_forall; intros x Hin; apply (S x Hin).
  - clear Names. unfold dental_billing.save_prices in E.
    destruct (dental_billing.prices_loop 1 (text_lines text) []) as [d' | m] eqn:L;
      [| discriminate].
    destruct d' as [| kv d']; [discriminate |]. injection E as <-.
    split; [discriminate |].
    destruct (db_prices_loop_formed _ _ _ _ (Forall_nil _) (Forall_nil _) L) as [Hn Hp].
    split; [exact Hn | intros _; exact Hp].
Qed.

(** X7.  Whatever the editor, a catalog it installs is not empty and its
    names are stripped and not empty; its prices are not negative after a
    price edit, and after a name edit when those of the catalog before were
    not. *)
Theorem edited_catalog_well_formed (e : editor) (treatments : dict) (text : string)
    (d : dict) :
  run_editor e treatments text = Installed d ->
  d <> []
  /\ catalog_named d
  /\ (catalog_nonneg treatments \/ e = PricesEditor \/ e = PricesEditorOld ->
      catalog_nonneg d).
Proof. apply installed_catalog_formed. Qed.

Lemma names_loop_empty treatments lines :
  names_loop treatments 1 lines [] = []
  <-> existsb names_treatment lines = false.
Proof.
  rewrite (names_loop_entries treatments lines 1 [] (below_nil 1)). cbn [app].
  generalize 1. induction lines as [| line lines IH]; intros i; cbn [enumerate filter existsb map snd].
  - split; reflexivity.
  - destruct (names_treatment line); cbn [orb map].
    + split; discriminate.
    + apply IH.
Qed.

Lemma existsb_forallb_negb {A : Type} (f : A -> bool) (l : list A) :
  forallb (fun x => negb (f x)) l = negb (existsb f l).
Proof.
  induction l as [| x l IH]; cbn; [reflexivity |].
  rewrite IH. destruct (f x); reflexivity.
Qed.

Lemma split_not_nil sep s : Str.split sep s <> [].
Proof.
  destruct s as [| c s]; cbn; [discriminate |].
  destruct (Ascii.eqb c sep); [discriminate |].
  destruct (Str.split sep s); discriminate.
Qed.

(** X8.  The name editors of the two files agree on what they install: when
    a line of the text names a treatment, both install the same catalog;
    when none does, both reject the edit (the first through its blank-text
    check, the second through its empty-catalog check) and the emptiness
    check on the list of lines fires in neither. *)
Theorem name_editors_agree (treatments : dict) (text : string) :
  if existsb names_treatment (text_lines text) then
    exists d, d <> []
      /\ Dental_Clinic.save_treatments treatments text = Installed d
      /\ dental_billing.save_treatments treatments text = Installed d
  else
    Dental_Clinic.save_treatments treatments text
    = Rejected "At least one treatment is required."
    /\ dental_billing.save_treatments treatments text
       = Rejected "At least one valid treatment is required.".
Proof.
  unfold Dental_Clinic.save_treatments, dental_billing.save_treatments.
  pose proof (names_loop_empty treatments (text_lines text)) as NE.
  assert (NN : text_lines text <> []) by apply split_not_nil.
  change (fun line => negb (Str.nonempty (Str.strip line)))
    with (fun line => negb (names_treatment line)).
  rewrite existsb_forallb_negb. cbv zeta.
  assert (M : match text_lines text with [] => true | _ :: _ => false end = false)
    by (destruct (text_lines text); [contradiction | reflexivity]).
  assert (M' : forall X : edited,
             match text_lines text with
             | [] => Rejected "At least one treatment is required."
             | _ :: _ => X
             end = X)
    by (intros X; destruct (text_lines text); [contradiction | reflexivity]).
  rewrite M, M'. cbn [orb].
  destruct (existsb names_treatment (text_lines text)); cbn [negb].
  - destruct (names_loop treatments 1 (text_lines text) []) as [| kv d].
    + destruct NE as [NE _]. specialize (NE eq_refl). discriminate.
    + exists (kv :: d). repeat split. discriminate.
  - destruct NE as [_ NE]. rewrite (NE eq_refl). split; reflexivity.
Qed.

End CatalogMore.

(** ** More on the appointment book *)

Section AppointmentFacts.

Context `{Builtins}.

Local Open Scope string_scope.

(** *** Reading the store *)

Lemma traverse_all {A B : Type} (f : A -> option B) (l : list A) :
  Forall (fun x => f x <> None) l ->
  exists ys, traverse f l = Some ys /\ List.length ys = List.length l.
Proof.
  induction 1 as [| x l Hx Hl [ys [E L]]]; cbn.
  - exists []. split; reflexivity.
  - destruct (f x) as [y |]; [| contradiction]. rewrite E.
    exists (y :: ys). cbn. rewrite L. split; reflexivity.
Qed.

Lemma traverse_one_fails {A B : Type} (f : A -> option B) (l : list A) x :
  In x l -> f x = None -> traverse f l = None.
Proof.
  induction l as [| y l IH]; intros Hin E; [contradiction |]. cbn.
  destruct Hin as [-> | Hin].
  - rewrite E. reflexivity.
  - rewrite (IH Hin E). destruct (f y); reflexivity.
Qed.

Lemma from_dict_lacks_key ms key :
  In key record_keys -> Json.member key ms = None ->
  Appointment.from_dict (JObject ms) = None.
Proof.
  unfold record_keys. cbn [In]. unfold Appointment.from_dict.
  intros [<- | [<- | [<- | [<- | [<- | []]]]]] E; rewrite ?E;
    repeat (try reflexivity;
            match goal with
            | |- context [match Json.member ?k ms with _ => _ end] =>
                destruct (Json.member k ms) as [[] |]
            end); try reflexivity.
Qed.

(** X9.  Loading is all or nothing: when every record of the file reads,
    there is one appointment per record; when one record lacks one of the
    five keys, no appointment is loaded at all, whatever the other records
    hold. *)
Theorem load_is_all_or_nothing (records : list json) :
  (Forall (fun r => Appointment.from_dict r <> None) records ->
   traverse Appointment.from_dict records = Some (load_appointments (Some (JArray records)))
   /\ List.length (load_appointments (Some (JArray records))) = List.length records)
  /\ (forall ms key,
        In (JObject ms) records -> In key record_keys -> Json.member key ms = None ->
        load_appointments (Some (JArray records)) = []).
Proof.
  split.
  - intros F. destruct (traverse_all _ _ F) as [ys [E L]].
    cbn [load_appointments]. rewrite E. split; [reflexivity | exact L].
  - intros ms key Hin Hk E. cbn [load_appointments].
    rewrite (traverse_one_fails _ _ _ Hin (from_dict_lacks_key ms key Hk E)).
    reflexivity.
Qed.

(** *** The row of the list box and the place in the book *)

Lemma full_index_some today appts : forall index,
  (index < List.length (filter (Appointment.is_upcoming today) appts))%nat ->
  exists i a,
    Dental_Clinic.full_index today appts index = Some i
    /\ nth_error appts i = Some a
    /\ nth_error (filter (Appointment.is_upcoming today) appts) index = Some a
    /\ filter (Appointment.is_upcoming today) (Dental_Clinic.remove_at appts i)
       = Dental_Clinic.remove_at (filter (Appointment.is_upcoming today) appts) index
    /\ filter (fun a => negb (Appointment.is_upcoming today a))
              (Dental_Clinic.remove_at appts i)
       = filter (fun a => negb (Appointment.is_upcoming today a)) appts
    /\ S (List.length (Dental_Clinic.remove_at appts i)) = List.length appts.
Proof.
  induction appts as [| x appts IH]; intros index L; cbn in L; [lia |].
  cbn [Dental_Clinic.full_index filter].
  destruct (Appointment.is_upcoming today x) eqn:U; cbn [negb].
  - destruct index as [| index].
    + exists 0%nat, x. cbn. repeat split; reflexivity.
    + cbn in L. destruct (IH index ltac:(lia)) as [i [a [E [N [N' [R [P Len]]]]]]].
      exists (S i), a. rewrite E. cbn. rewrite U. cbn. rewrite R, P, Len.
      repeat split; assumption.
  - destruct (IH index L) as [i [a [E [N [N' [R [P Len]]]]]]].
    exists (S i), a. rewrite E. cbn. rewrite U. cbn. rewrite R, P, Len.
    repeat split; assumption.
Qed.

Lemma full_index_none today appts : forall index,
  (List.length (filter (Appointment.is_upcoming today) appts) <= index)%nat ->
  Dental_Clinic.full_index today appts index = None.
Proof.
  induction appts as [| x appts IH]; intros index L; [reflexivity |].
  cbn [Dental_Clinic.full_index filter] in *.
  destruct (Appointment.is_upcoming today x).
  - cbn in L. destruct index as [| index]; [lia |].
    rewrite (IH index) by lia. reflexivity.
  - rewrite (IH index L). reflexivity.
Qed.

Lemma refresh_quiet today st :
  exists view,
    Dental_Clinic.upcoming today (Dental_Clinic.appointments st) = Some view
    /\ Dental_Clinic.refresh_appointments_list today st
       = (Dental_Clinic.set_listbox st (map Appointment.__str__ view), Quiet).
Proof.
  destruct (upcoming_spec today (Dental_Clinic.appointments st)) as [view [E _]].
  exists view. split; [exact E |].
  unfold Dental_Clinic.refresh_appointments_list. rewrite E. reflexivity.
Qed.

(** X10.  Deleting row [index] removes one appointment, the [index]-th
    upcoming one in stored order, leaves the others in their order and
    writes the store; a row beyond the upcoming appointments changes
    nothing. *)
Theorem delete_removes_one_upcoming (today : date) (st : Dental_Clinic.State)
    (index : nat) :
  let deleted := Dental_Clinic.delete_appointment today st index in
  ((index < List.length (upcoming_stored today st))%nat ->
   snd deleted = Shown (showinfo "Success" "Appointment deleted successfully!")
   /\ upcoming_stored today (fst deleted)
      = Dental_Clinic.remove_at (upcoming_stored today st) index
   /\ past_stored today (fst deleted) = past_stored today st
   /\ S (List.length (Dental_Clinic.appointments (fst deleted)))
      = List.length (Dental_Clinic.appointments st)
   /\ Dental_Clinic.appointments_json (fst deleted)
      = save_appointments (Dental_Clinic.appointments (fst deleted)))
  /\ ((List.length (upcoming_stored today st) <= index)%nat ->
      deleted = (st, Shown (showwarning "Error" "Invalid selection. Please try again."))).
Proof.
  cbv zeta. unfold upcoming_stored, past_stored, Dental_Clinic.delete_appointment. split.
  - intros L.
    destruct (full_index_some today _ index L) as [i [a [E [N [N' [R [P Len]]]]]]].
    rewrite E.
    destruct (refresh_quiet today
                (Dental_Clinic.set_appointments st
                   (Dental_Clinic.remove_at (Dental_Clinic.appointments st) i)
                   (save_appointments
                      (Dental_Clinic.remove_at (Dental_Clinic.appointments st) i))))
      as [view [_ Q]].
    rewrite Q. cbn. repeat split; assumption.
  - intros L. rewrite (full_index_none today _ index L). reflexivity.
Qed.

(** *** A book kept in date order *)

Lemma insert_at_front {A : Type} (x : date * A) (l : list (date * A)) :
  Forall (key_le x) l -> Dental_Clinic.insert_by_date x l = x :: l.
Proof.
  intros F. destruct l as [| y l]; [reflexivity |]. cbn.
  inversion F as [| ? ? Hy _]; subst. unfold key_le in Hy. rewrite Hy. reflexivity.
Qed.

Lemma sort_of_sorted {A : Type} (l : list (date * A)) :
  StronglySorted key_le l -> Dental_Clinic.sort_by_date l = l.
Proof.
  induction 1 as [| x l S IH F]; [reflexivity |].
  cbn. rewrite IH. apply insert_at_front. exact F.
Qed.

Lemma keyed_sorted (keyed : list (date * Appointment.t)) :
  Forall keyed_right keyed ->
  StronglySorted not_after (map snd keyed) -> StronglySorted key_le keyed.
Proof.
  induction keyed as [| p keyed IH]; intros K S; [constructor |].
  inversion K as [| ? ? Kp K']; subst. cbn in S.
  inversion S as [| ? ? S' F]; subst.
  constructor; [apply IH; assumption |].
  apply Forall_forall. intros q Hq.
  rewrite Forall_forall in F. specialize (F (snd q) (in_map snd _ _ Hq)).
  rewrite Forall_forall in K'. specialize (K' q Hq).
  unfold not_after, keyed_right, key_le in *. rewrite Kp, K' in F. exact F.
Qed.

Lemma upcoming_of_sorted today appts :
  StronglySorted not_after (filter (Appointment.is_upcoming today) appts) ->
  Dental_Clinic.upcoming today appts
  = Some (filter (Appointment.is_upcoming today) appts).
Proof.
  intros S. unfold Dental_Clinic.upcoming.
  destruct (with_keys_upcoming today (filter (Appointment.is_upcoming today) appts))
    as [keyed [E [M K]]].
  { apply Forall_forall. intros a Hin. apply filter_In in Hin. apply Hin. }
  rewrite E. rewrite <- M in S.
  rewrite (sort_of_sorted keyed (keyed_sorted keyed K S)), M. reflexivity.
Qed.

(** X11.  When the upcoming appointments are stored in date order, the list
    box shows them in stored order, so the row selected for an edit or a
    deletion is the row of the appointment the handler takes from the
    book. *)
Theorem rows_match_a_book_in_date_order (today : date) (st : Dental_Clinic.State) :
  StronglySorted not_after (upcoming_stored today st) ->
  let shown :=
    Dental_Clinic.appointments_listbox
      (fst (Dental_Clinic.refresh_appointments_list today st)) in
  shown = map Appointment.__str__ (upcoming_stored today st)
  /\ (forall index i,
        Dental_Clinic.full_index today (Dental_Clinic.appointments st) index = Some i ->
        exists a,
          nth_error (Dental_Clinic.appointments st) i = Some a
          /\ nth_error shown index = Some (Appointment.__str__ a)).
Proof.
  unfold upcoming_stored. intros S. cbv zeta.
  unfold Dental_Clinic.refresh_appointments_list.
  rewrite (upcoming_of_sorted today _ S). cbn [fst Dental_Clinic.appointments_listbox
    Dental_Clinic.set_listbox].
  split; [reflexivity |].
  intros index i E.
  destruct (Nat.lt_ge_cases index
              (List.length (filter (Appointment.is_upcoming today)
                              (Dental_Clinic.appointments st)))) as [L | L].
  - destruct (full_index_some today _ index L) as [i' [a [E' [N [N' _]]]]].
    rewrite E in E'. injection E' as <-.
    exists a. split; [exact N |]. rewrite nth_error_map, N'. reflexivity.
  - rewrite (full_index_none today _ index L) in E. discriminate.
Qed.

(** *** Editing *)





(** X13.  An appointment action that does not end in its success message
    changes nothing: the book, the store and the list box are as before. *)
Theorem failed_appointment_action_changes_nothing (today : date)
    (st : Dental_Clinic.State) (i index : nat)
    (name_entry phone_entry date_entry time_entry : string)
    (selected_indices : list nat) :
  let booked :=
    Dental_Clinic.book_appointment today st name_entry phone_entry date_entry
      time_entry selected_indices in
  let saved :=
    Dental_Clinic.save_edit today st i name_entry phone_entry date_entry time_entry
      selected_indices in
  let deleted := Dental_Clinic.delete_appointment today st index in
  (snd booked <> Shown (showinfo "Success" "Appointment booked successfully!") ->
   fst booked = st)
  /\ (snd saved <> Shown (showinfo "Success" "Appointment updated successfully!") ->
      fst saved = st)
  /\ (snd deleted <> Shown (showinfo "Success" "Appointment deleted successfully!") ->
      fst deleted = st).
Proof.
  cbv zeta. split; [| split].
  - unfold Dental_Clinic.book_appointment.
    destruct (Dental_Clinic.check_fields _ _ _ _ _ _ _); [reflexivity |].
    destruct (Dental_Clinic.selected_treatments _ _ _); [reflexivity |].
    match goal with
    | |- context [Dental_Clinic.refresh_appointments_list today ?s] =>
        destruct (refresh_quiet today s) as [view [_ Q]]
    end.
    rewrite Q. cbn. intros N. contradiction N. reflexivity.
  - unfold Dental_Clinic.save_edit.
    destruct (Dental_Clinic.check_fields _ _ _ _ _ _ _); [reflexivity |].
    destruct (Dental_Clinic.selected_treatments _ _ _); [reflexivity |].
    destruct (Dental_Clinic.replace_at _ _ _); [| reflexivity].
    match goal with
    | |- context [Dental_Clinic.refresh_appointments_list today ?s] =>
        destruct (refresh_quiet today s) as [view [_ Q]]
    end.
    rewrite Q. cbn. intros N. contradiction N. reflexivity.
  - unfold Dental_Clinic.delete_appointment.
    destruct (Dental_Clinic.full_index _ _ _); [| reflexivity].
    match goal with
    | |- context [Dental_Clinic.refresh_appointments_list today ?s] =>
        destruct (refresh_quiet today s) as [view [_ Q]]
    end.
    rewrite Q. cbn. intros N. contradiction N. reflexivity.
Qed.

End AppointmentFacts.

(** ** More on sessions *)

Section SessionMore.

Import CatalogEdit.

Context `{Builtins}.

Local Open Scope string_scope.

(** *** The store follows the book *)




Lemma apply_edit_same_appointments st r done :
  Dental_Clinic.appointments (fst (Dental_Clinic.apply_edit st r done))
  = Dental_Clinic.appointments st
  /\ Dental_Clinic.appointments_json (fst (Dental_Clinic.apply_edit st r done))
     = Dental_Clinic.appointments_json st
  /\ Dental_Clinic.patient_bills_txt (fst (Dental_Clinic.apply_edit st r done))
     = Dental_Clinic.patient_bills_txt st
  /\ Dental_Clinic.patient (fst (Dental_Clinic.apply_edit st r done))
     = Dental_Clinic.patient st.
Proof. destruct r; repeat split; reflexivity. Qed.





(** *** The log only grows *)

Lemma append_empty (s : string) : s ++ "" = s.
Proof. induction s as [| c s IH]; cbn; [| rewrite IH]; reflexivity. Qed.

Lemma append_chain (a b c : string) : (a ++ b) ++ c = a ++ (b ++ c).
Proof. induction a as [| x a IH]; cbn; [| rewrite IH]; reflexivity. Qed.

Lemma append_bill_text log text :
  Dental_Clinic.append_bill log text
  = Some (log_text log ++ text ++ String "010" (String "010" "")).
Proof. destruct log; reflexivity. Qed.

Lemma generate_bill_log st n p t d sel now :
  let generated := Dental_Clinic.generate_bill st n p t d sel now in
  (snd generated = Shown (showinfo "Success" "Bill generated and saved!")
   /\ Dental_Clinic.patient_bills_txt (fst generated)
      = Some (log_text (Dental_Clinic.patient_bills_txt st)
              ++ Dental_Clinic.bill_text (fst generated)
              ++ String "010" (String "010" "")))
  \/ (snd generated <> Shown (showinfo "Success" "Bill generated and saved!")
      /\ Dental_Clinic.patient_bills_txt (fst generated)
         = Dental_Clinic.patient_bills_txt st
      /\ Dental_Clinic.bill_text (fst generated) = Dental_Clinic.bill_text st).
Proof.
  cbv zeta. unfold Dental_Clinic.generate_bill.
  repeat match goal with
         | |- context [if negb ?x then _ else _] => destruct x; cbn [negb]
         | |- context [if String.eqb ?x ?y then _ else _] => destruct (String.eqb x y)
         | |- context [if ?x || ?y then _ else _] => destruct (x || y)
         | |- context [match float_of_string ?x with _ => _ end] =>
             destruct (float_of_string x)
         | |- context [match sel with _ => _ end] => destruct sel
         | |- context [match Dental_Clinic.add_selected ?a ?b ?c with _ => _ end] =>
             destruct (Dental_Clinic.add_selected a b c) as [? [|]]
         end;
    cbn [fst snd Dental_Clinic.set_bill Dental_Clinic.set_patient
         Dental_Clinic.patient_bills_txt Dental_Clinic.bill_text];
    rewrite ?append_bill_text;
    first [left; split; reflexivity
          | right; split; [discriminate | split; reflexivity]].
Qed.

Lemma step_log st ev :
  exists added,
    log_text (Dental_Clinic.patient_bills_txt (Session.step st ev))
    = log_text (Dental_Clinic.patient_bills_txt st) ++ added
    /\ (Dental_Clinic.patient_bills_txt st <> None ->
        Dental_Clinic.patient_bills_txt (Session.step st ev) <> None).
Proof.
  assert (Same : forall st', Dental_Clinic.patient_bills_txt st'
                             = Dental_Clinic.patient_bills_txt st ->
            exists added,
              log_text (Dental_Clinic.patient_bills_txt st')
              = log_text (Dental_Clinic.patient_bills_txt st) ++ added
              /\ (Dental_Clinic.patient_bills_txt st <> None ->
                  Dental_Clinic.patient_bills_txt st' <> None)).
  { intros st' ->. exists "". rewrite append_empty. split; [reflexivity | exact (fun x => x)]. }
  destruct ev; cbn [Session.step].
  - apply Same. apply apply_edit_same_appointments.
  - apply Same. apply apply_edit_same_appointments.
  - destruct (generate_bill_log st name_entry phone_entry patient_type discount_entry
                selected_indices now_str) as [[_ E] | [_ [E _]]]; cbv zeta in E.
    + rewrite E. eexists. split; [reflexivity | discriminate].
    + apply Same. exact E.
  - apply Same. unfold Dental_Clinic.search_bills.
    destruct (_ || _); [reflexivity |].
    destruct (Dental_Clinic.patient_bills_txt st) as [content |] eqn:L; [| exact L].
    destruct (Dental_Clinic.matching_bills _ content); exact L.
  - apply Same. unfold Dental_Clinic.book_appointment.
    destruct (Dental_Clinic.check_fields _ _ _ _ _ _ _); [reflexivity |].
    destruct (Dental_Clinic.selected_treatments _ _ _); [reflexivity |].
    rewrite (after_refresh (A := unit)).
    unfold Dental_Clinic.refresh_appointments_list.
    destruct (Dental_Clinic.upcoming _ _); reflexivity.
  - apply Same. destruct (Dental_Clinic.full_index _ _ _); [| reflexivity].
    unfold Dental_Clinic.save_edit.
    destruct (Dental_Clinic.check_fields _ _ _ _ _ _ _); [reflexivity |].
    destruct (Dental_Clinic.selected_treatments _ _ _); [reflexivity |].
    destruct (Dental_Clinic.replace_at _ _ _); [| reflexivity].
    rewrite (after_refresh (A := unit)).
    unfold Dental_Clinic.refresh_appointments_list.
    destruct (Dental_Clinic.upcoming _ _); reflexivity.
  - apply Same. unfold Dental_Clinic.delete_appointment.
    destruct (Dental_Clinic.full_index _ _ _); [| reflexivity].
    rewrite (after_refresh (A := unit)).
    unfold Dental_Clinic.refresh_appointments_list.
    destruct (Dental_Clinic.upcoming _ _); reflexivity.
  - apply Same. unfold Session.start, Dental_Clinic.refresh_appointments_list.
    destruct (Dental_Clinic.upcoming _ _); reflexivity.
Qed.

(** X15.  No event of a session shortens or rewrites the combined log: after
    any events the log is the log before followed by what was added, and a
    log that exists stays. *)
Theorem bill_log_only_grows (st : Dental_Clinic.State) (events : list Session.event) :
  exists added,
    log_text (Dental_Clinic.patient_bills_txt (fold_left Session.step events st))
    = log_text (Dental_Clinic.patient_bills_txt st) ++ added
    /\ (Dental_Clinic.patient_bills_txt st <> None ->
        Dental_Clinic.patient_bills_txt (fold_left Session.step events st) <> None).
Proof.
  revert st. induction events as [| ev events IH]; intros st; cbn [fold_left].
  - exists "". rewrite append_empty. split; [reflexivity | exact (fun x => x)].
  - destruct (step_log st ev) as [a [E K]].
    destruct (IH (Session.step st ev)) as [b [E' K']].
    exists (a ++ b). rewrite E', E, append_chain. split; [reflexivity |].
    intros N. apply K', K, N.
Qed.

(** *** What the billing tab keeps true *)

Lemma dict_get_member (d : dict) k v : Dict.get d k = Some v -> In (k, v) d.
Proof.
  induction d as [| [k' v'] d IH]; cbn; [discriminate |].
  destruct (k' =? k)%Z eqn:E.
  - intros [= ->]. apply Z.eqb_eq in E. subst. left. reflexivity.
  - intros G. right. apply IH, G.
Qed.

Lemma billed_add b tr : billed (BillableM.add_treatment b tr) = (billed b ++ [tr])%list.
Proof. destruct b; reflexivity. Qed.

Lemma range_add b tr : discount_in_range b -> discount_in_range (BillableM.add_treatment b tr).
Proof. destruct b; exact (fun x => x). Qed.

Lemma add_selected_billed st : forall sel b,
  catalog_nonneg (Dental_Clinic._treatments st) ->
  nonneg_prices (billed b) -> discount_in_range b ->
  nonneg_prices (billed (fst (Dental_Clinic.add_selected st b sel)))
  /\ discount_in_range (fst (Dental_Clinic.add_selected st b sel)).
Proof.
  induction sel as [| idx sel IH]; intros b Hc Hb Hd; cbn; [split; assumption |].
  destruct (nth_error _ idx) as [key |]; [| split; assumption].
  destruct (Dict.get _ key) as [tr |] eqn:G; [| split; assumption].
  apply IH; [exact Hc | | apply range_add, Hd].
  rewrite billed_add. apply Forall_app. split; [exact Hb |].
  constructor; [| constructor].
  apply dict_get_member in G. unfold catalog_nonneg in Hc. rewrite Forall_forall in Hc.
  apply (Hc _ G).
Qed.

Lemma add_selected_rows st : forall sel b,
  Dental_Clinic.treatment_keys st = Dict.keys (Dental_Clinic._treatments st) ->
  rows_of (List.length (Dental_Clinic.treatment_keys st)) sel ->
  snd (Dental_Clinic.add_selected st b sel) = None.
Proof.
  induction sel as [| idx sel IH]; intros b K R; cbn; [reflexivity |].
  inversion R as [| ? ? Hi R']; subst.
  destruct (nth_error (Dental_Clinic.treatment_keys st) idx) as [key |] eqn:N.
  - apply nth_error_In in N. rewrite K in N.
    destruct (dict_get_in _ _ N) as [v G]. rewrite G. apply IH; assumption.
  - apply nth_error_None in N. lia.
Qed.

Lemma generate_bill_keeps st n p t d sel now :
  billing_invariant st ->
  billing_invariant (fst (Dental_Clinic.generate_bill st n p t d sel now)).
Proof.
  intros Inv. pose proof Inv as [Hc [Hr Hp]]. unfold Dental_Clinic.generate_bill.
  destruct (negb (Str.nonempty (Str.strip n))); [exact Inv |].
  destruct (negb (Str.nonempty (Str.strip p))); [exact Inv |].
  set (created := if (t =? "vip")%string then _ else _).
  assert (C : match created with
              | inl _ => True
              | inr b => nonneg_prices (billed b) /\ discount_in_range b
              end).
  { subst created. destruct (t =? "vip")%string.
    - destruct (float_of_string d) as [x |]; [| exact I].
      destruct (PyNum.ltb (PyFloat x) (PyInt 0)) eqn:L0; cbn [orb]; [exact I |].
      destruct (PyNum.ltb (PyInt 100) (PyFloat x)) eqn:L1; [exact I |].
      split; [constructor |]. exists x. split; [reflexivity |].
      apply ltb_false_le in L0, L1. cbn in L0, L1. split; assumption.
    - split; [constructor | exact I]. }
  destruct created as [message | b]; [exact Inv |].
  destruct C as [Cb Cd].
  destruct sel as [| idx sel].
  { cbn [fst]. split; [exact Hc | split; [exact Hr |]].
    cbn. intros b0 [= <-]. split; assumption. }
  assert (Clear : nonneg_prices (billed (BillableM.clear_treatments b))
                  /\ discount_in_range (BillableM.clear_treatments b)).
  { destruct b; cbn; split; try constructor; exact Cd. }
  destruct Clear as [Cl Cr].
  pose proof (add_selected_billed st (idx :: sel) _ Hc Cl Cr) as [Ab Ad].
  destruct (Dental_Clinic.add_selected st (BillableM.clear_treatments b) (idx :: sel))
    as [b' [exc |]]; cbn [fst] in *;
    (split; [exact Hc | split; [exact Hr |]]);
    cbn; intros b0 [= <-]; split; assumption.
Qed.

Lemma unchanged_billing st st' :
  Dental_Clinic._treatments st' = Dental_Clinic._treatments st ->
  Dental_Clinic.treatment_keys st' = Dental_Clinic.treatment_keys st ->
  Dental_Clinic.appt_treatment_keys st' = Dental_Clinic.appt_treatment_keys st ->
  Dental_Clinic.patient st' = Dental_Clinic.patient st ->
  billing_invariant st -> billing_invariant st'.
Proof.
  intros T K K' P. unfold billing_invariant, rows_in_sync. rewrite T, K, K', P.
  exact (fun x => x).
Qed.

Lemma refresh_billing today st :
  billing_invariant st ->
  billing_invariant (fst (Dental_Clinic.refresh_appointments_list today st)).
Proof.
  apply unchanged_billing; unfold Dental_Clinic.refresh_appointments_list;
    destruct (Dental_Clinic.upcoming _ _); reflexivity.
Qed.

Lemma apply_edit_billing (e : editor) st text done :
  e = NamesEditor \/ e = PricesEditor ->
  billing_invariant st ->
  billing_invariant
    (fst (Dental_Clinic.apply_edit st (run_editor e (Dental_Clinic._treatments st) text) done)).
Proof.
  intros He Inv. pose proof Inv as [Hc [Hr Hp]].
  destruct (run_editor e (Dental_Clinic._treatments st) text) as [d | m] eqn:E;
    [| exact Inv].
  destruct (installed_catalog_formed e _ text d E) as [_ [_ Nn]].
  cbn [fst Dental_Clinic.apply_edit].
  split; [| split; [split; reflexivity | exact Hp]].
  apply Nn. destruct He as [-> | ->]; [left; exact Hc | right; left; reflexivity].
Qed.

Lemma start_billing today name log file :
  billing_invariant (Session.start today name log file).
Proof.
  unfold Session.start. apply refresh_billing.
  split; [constructor | split; [split; reflexivity |]].
  cbn. intros b0 E. discriminate E.
Qed.

Lemma step_billing st ev :
  billing_invariant st -> billing_invariant (Session.step st ev).
Proof.
  intros Inv. destruct ev; cbn [Session.step].
  - apply (apply_edit_billing NamesEditor st text); [left; reflexivity | exact Inv].
  - apply (apply_edit_billing PricesEditor st text); [right; reflexivity | exact Inv].
  - apply generate_bill_keeps, Inv.
  - revert Inv. apply unchanged_billing; unfold Dental_Clinic.search_bills;
      repeat match goal with
             | |- context [if ?x then _ else _] => destruct x
             | |- context [match ?x with _ => _ end] => destruct x
             end; reflexivity.
  - unfold Dental_Clinic.book_appointment.
    destruct (Dental_Clinic.check_fields _ _ _ _ _ _ _); [exact Inv |].
    destruct (Dental_Clinic.selected_treatments _ _ _); [exact Inv |].
    rewrite (after_refresh (A := unit)). apply refresh_billing.
    revert Inv. apply unchanged_billing; reflexivity.
  - destruct (Dental_Clinic.full_index _ _ _); [| exact Inv].
    unfold Dental_Clinic.save_edit.
    destruct (Dental_Clinic.check_fields _ _ _ _ _ _ _); [exact Inv |].
    destruct (Dental_Clinic.selected_treatments _ _ _); [exact Inv |].
    destruct (Dental_Clinic.replace_at _ _ _); [| exact Inv].
    rewrite (after_refresh (A := unit)). apply refresh_billing.
    revert Inv. apply unchanged_billing; reflexivity.
  - unfold Dental_Clinic.delete_appointment.
    destruct (Dental_Clinic.full_index _ _ _); [| exact Inv].
    rewrite (after_refresh (A := unit)). apply refresh_billing.
    revert Inv. apply unchanged_billing; reflexivity.
  - apply start_billing.
Qed.

Lemma run_billing today name events :
  billing_invariant (Session.run today name events).
Proof.
  unfold Session.run.
  assert (G : forall st, billing_invariant st ->
                billing_invariant (fold_left Session.step events st)).
  { induction events as [| ev events IH]; intros st Inv; cbn; [exact Inv |].
    apply IH, step_billing, Inv. }
  apply G, start_billing.
Qed.




(** X17.  In every state of a session the rows of both treatment list boxes
    stand for the keys of the catalog, so a selection of rows of the list
    box never fails to find its treatments: neither [generate_bill] nor
    [book_appointment] raises. *)
Theorem session_rows_find_their_treatments (today : date) (name : string)
    (events : list Session.event)
    (name_entry phone_entry patient_type discount_entry now_str : string)
    (date_entry time_entry : string) (day : date) (selected_indices : list nat) :
  let st := Session.run today name events in
  rows_in_sync st
  /\ (rows_of (List.length (Dental_Clinic.treatment_keys st)) selected_indices ->
      forall exc,
        snd (Dental_Clinic.generate_bill st name_entry phone_entry patient_type
               discount_entry selected_indices now_str) <> Raised exc)
  /\ (rows_of (List.length (Dental_Clinic.appt_treatment_keys st)) selected_indices ->
      forall exc,
        snd (Dental_Clinic.book_appointment day st name_entry phone_entry date_entry
               time_entry selected_indices) <> Raised exc).
Proof.
  cbv zeta. destruct (run_billing today name events) as [_ [[K K'] _]].
  set (st := Session.run today name events) in *.
  split; [split; assumption |]. split.
  - intros R exc. unfold Dental_Clinic.generate_bill.
    destruct (negb (Str.nonempty (Str.strip name_entry))); [discriminate |].
    destruct (negb (Str.nonempty (Str.strip phone_entry))); [discriminate |].
    match goal with
    | |- context [match ?c with inl _ => _ | inr _ => _ end] => destruct c as [m | b]
    end; [discriminate |].
    destruct selected_indices as [| idx sel]; [discriminate |].
    pose proof (add_selected_rows st (idx :: sel) (BillableM.clear_treatments b) K R) as A.
    destruct (Dental_Clinic.add_selected st (BillableM.clear_treatments b) (idx :: sel))
      as [b' [e |]]; [discriminate | discriminate].
  - intros R exc. unfold Dental_Clinic.book_appointment.
    destruct (Dental_Clinic.check_fields _ _ _ _ _ _ _); [discriminate |].
    rewrite K' in *.
    destruct (selected_treatments_rows _ _ R) as [ts [E _]]. rewrite E.
    match goal with
    | |- context [Dental_Clinic.refresh_appointments_list day ?s] =>
        destruct (refresh_quiet day s) as [view [_ Q]]
    end.
    rewrite Q. discriminate.
Qed.

(** *** A bill can be found again *)

Lemma prefix_lower_both q : forall s,
  String.prefix q s = true -> String.prefix (Str.lower q) (Str.lower s) = true.
Proof.
  induction q as [| a q IH]; intros s P; [apply prefix_nil |].
  destruct s as [| c s]; [discriminate |].
  apply prefix_cons in P. destruct P as [-> P].
  cbn [Str.lower]. apply prefix_cons. split; [reflexivity | apply IH, P].
Qed.

Lemma contains_lower_both q : forall s,
  Str.contains q s = true -> Str.contains (Str.lower q) (Str.lower s) = true.
Proof.
  induction s as [| c s IH]; intros C.
  - cbn in C. rewrite orb_false_r in C. apply contains_prefix.
    apply (prefix_lower_both q ""), C.
  - rewrite contains_unfold in C. apply orb_true_iff in C. destruct C as [P | C].
    + apply contains_prefix. apply (prefix_lower_both q (String c s)), P.
    + cbn [Str.lower]. apply contains_cons, IH, C.
Qed.

Lemma prefix_append q : forall a b,
  String.prefix q a = true -> String.prefix q (a ++ b) = true.
Proof.
  induction q as [| x q IH]; intros a b P; [apply prefix_nil |].
  destruct a as [| y a]; [discriminate |].
  apply prefix_cons in P. destruct P as [-> P].
  cbn [append]. apply prefix_cons. split; [reflexivity | apply IH, P].
Qed.

Lemma prefix_self q b : String.prefix q (q ++ b) = true.
Proof.
  induction q as [| x q IH]; [apply prefix_nil |].
  cbn [append]. apply prefix_cons. split; [reflexivity | exact IH].
Qed.

Lemma contains_append_l q : forall a b,
  Str.contains q a = true -> Str.contains q (a ++ b) = true.
Proof.
  induction a as [| c a IH]; intros b C.
  - cbn in C. rewrite orb_false_r in C. apply contains_prefix.
    apply (prefix_append q "" b), C.
  - rewrite contains_unfold in C. apply orb_true_iff in C. destruct C as [P | C].
    + apply contains_prefix. apply (prefix_append q (String c a) b), P.
    + cbn [append]. apply contains_cons, IH, C.
Qed.

Lemma contains_append_r q : forall a b,
  Str.contains q b = true -> Str.contains q (a ++ b) = true.
Proof.
  induction a as [| c a IH]; intros b C; [exact C |].
  cbn [append]. apply contains_cons, IH, C.
Qed.

Lemma contains_join q line : forall lines,
  In line lines -> Str.contains q line = true ->
  Str.contains q (Str.join_lines lines) = true.
Proof.
  induction lines as [| l lines IH]; intros Hin C; [contradiction |].
  destruct lines as [| l' lines].
  - destruct Hin as [-> | []]. exact C.
  - change (Str.join_lines (l :: l' :: lines))
      with (l ++ String "010" (Str.join_lines (l' :: lines))).
    destruct Hin as [-> | Hin].
    + apply contains_append_l, C.
    + apply contains_append_r, contains_cons, IH; assumption.
Qed.

(** The name and the phone number a party was created with. *)
Lemma add_selected_party st : forall sel b,
  let b' := fst (Dental_Clinic.add_selected st b sel) in
  match b, b' with
  | Normal p, Normal p' =>
      Patient._name p' = Patient._name p /\ Patient._phone p' = Patient._phone p
  | VIP v, VIP v' =>
      Patient._name (VIPPatient.base v') = Patient._name (VIPPatient.base v)
      /\ Patient._phone (VIPPatient.base v') = Patient._phone (VIPPatient.base v)
  | _, _ => False
  end.
Proof.
  induction sel as [| idx sel IH]; intros b; cbn.
  - destruct b; split; reflexivity.
  - destruct (nth_error _ idx) as [key |]; [| destruct b; split; reflexivity].
    destruct (Dict.get _ key) as [tr |]; [| destruct b; split; reflexivity].
    specialize (IH (BillableM.add_treatment b tr)). cbv zeta in IH.
    destruct b; cbn in IH;
      destruct (fst (Dental_Clinic.add_selected st _ sel)); exact IH.
Qed.

Lemma bill_holds_party (b : Billable) clinic title :
  match b with
  | Normal p =>
      Str.contains (Patient._name p) (BillableM._build_bill_text b clinic title) = true
      /\ Str.contains (Patient._phone p) (BillableM._build_bill_text b clinic title) = true
  | VIP v =>
      Str.contains (Patient._name (VIPPatient.base v))
        (BillableM._build_bill_text b clinic title) = true
      /\ Str.contains (Patient._phone (VIPPatient.base v))
           (BillableM._build_bill_text b clinic title) = true
  end.
Proof.
  destruct b as [p | v]; cbn [BillableM._build_bill_text];
    unfold Patient._build_bill_text, VIPPatient._build_bill_text; split.
  - apply (contains_join _ ("Patient Name: " ++ Patient._name p));
      [right; right; left; reflexivity |].
    apply contains_append_r, contains_prefix. rewrite <- (append_empty (Patient._name p)) at 2.
    apply prefix_self.
  - apply (contains_join _ ("Phone: " ++ Patient._phone p));
      [right; right; right; left; reflexivity |].
    apply contains_append_r, contains_prefix. rewrite <- (append_empty (Patient._phone p)) at 2.
    apply prefix_self.
  - apply (contains_join _ ("VIP Patient Name: " ++ Patient._name (VIPPatient.base v)));
      [right; right; left; reflexivity |].
    apply contains_append_r, contains_prefix.
    rewrite <- (append_empty (Patient._name (VIPPatient.base v))) at 2.
    apply prefix_self.
  - apply (contains_join _ ("Phone: " ++ Patient._phone (VIPPatient.base v)));
      [right; right; right; left; reflexivity |].
    apply contains_append_r, contains_prefix.
    rewrite <- (append_empty (Patient._phone (VIPPatient.base v))) at 2.
    apply prefix_self.
Qed.

Lemma generated_log_holds_party st n p t d sel now :
  let generated := Dental_Clinic.generate_bill st n p t d sel now in
  snd generated = Shown (showinfo "Success" "Bill generated and saved!") ->
  Str.nonempty (Str.strip n) = true
  /\ Str.nonempty (Str.strip p) = true
  /\ exists content,
       Dental_Clinic.patient_bills_txt (fst generated) = Some content
       /\ Str.contains (Str.strip n) content = true
       /\ Str.contains (Str.strip p) content = true.
Proof.
  cbv zeta. unfold Dental_Clinic.generate_bill.
  destruct (Str.nonempty (Str.strip n)) eqn:Nn; cbn [negb]; [| discriminate].
  destruct (Str.nonempty (Str.strip p)) eqn:Np; cbn [negb]; [| discriminate].
  set (created := if (t =? "vip")%string then _ else _).
  assert (C : match created with
              | inl _ => True
              | inr (Normal q) =>
                  Patient._name q = Str.strip n /\ Patient._phone q = Str.strip p
              | inr (VIP v) =>
                  Patient._name (VIPPatient.base v) = Str.strip n
                  /\ Patient._phone (VIPPatient.base v) = Str.strip p
              end).
  { subst created. destruct (t =? "vip")%string.
    - destruct (float_of_string d) as [x |]; [| exact I].
      destruct (_ || _); [exact I |]. cbn. split; apply strip_idem.
    - cbn. split; apply strip_idem. }
  destruct created as [message | b]; [discriminate |].
  destruct sel as [| idx sel]; [discriminate |].
  pose proof (add_selected_party st (idx :: sel) (BillableM.clear_treatments b)) as A.
  cbv zeta in A.
  destruct (Dental_Clinic.add_selected st (BillableM.clear_treatments b) (idx :: sel))
    as [b' [exc |]]; [discriminate |].
  cbn [fst snd Dental_Clinic.set_bill Dental_Clinic.patient_bills_txt]. intros _.
  split; [reflexivity | split; [reflexivity |]].
  rewrite append_bill_text. eexists. split; [reflexivity |].
  set (title := if (t =? "vip")%string then _ else _).
  pose proof (bill_holds_party b' (Dental_Clinic.clinic_name st) title) as B.
  assert (P : Str.contains (Str.strip n)
                (BillableM._build_bill_text b' (Dental_Clinic.clinic_name st) title) = true
              /\ Str.contains (Str.strip p)
                   (BillableM._build_bill_text b' (Dental_Clinic.clinic_name st) title) = true).
  { destruct b as [q | v]; destruct b' as [q' | v']; cbn in A, C; try contradiction;
      destruct A as [A1 A2]; destruct C as [C1 C2]; destruct B as [B1 B2];
      rewrite A1, C1 in B1; rewrite A2, C2 in B2; split; assumption. }
  destruct P as [P1 P2].
  split; apply contains_append_r, contains_append_l, contains_append_r, contains_append_r;
    apply (contains_cons _ "010"); assumption.
Qed.

Lemma nonempty_lower s : Str.nonempty (Str.lower s) = Str.nonempty s.
Proof. destruct s; reflexivity. Qed.

(** X18.  A bill that was generated can be found again: a search for the
    name or for the phone number as they were entered, in any letter case
    as long as the text has no [=] and no line feed and is not the
    placeholder, reports at least one matching record. *)
Theorem generated_bill_is_found (st : Dental_Clinic.State)
    (name_entry phone_entry patient_type discount_entry : string)
    (selected_indices : list nat) (now_str entry : string) :
  let generated :=
    Dental_Clinic.generate_bill st name_entry phone_entry patient_type
      discount_entry selected_indices now_str in
  snd generated = Shown (showinfo "Success" "Bill generated and saved!") ->
  Str.lower (Str.strip entry) = Str.lower (Str.strip name_entry)
  \/ Str.lower (Str.strip entry) = Str.lower (Str.strip phone_entry) ->
  plain_query (Str.lower (Str.strip entry)) = true ->
  Str.lower (Str.strip entry) <> Dental_Clinic.placeholder ->
  exists content,
    Dental_Clinic.patient_bills_txt (fst generated) = Some content
    /\ let matching :=
         Dental_Clinic.matching_bills (Str.lower (Str.strip entry)) content in
       matching <> []
       /\ Dental_Clinic.search_bills (fst generated) entry
          = (Dental_Clinic.set_search_results (fst generated)
               (Dental_Clinic.results_text matching),
             Shown (showinfo "Search Results"
                      ("Found " ++ Str.of_Z (Z.of_nat (List.length matching))
                       ++ " matches. Full details shown below (limited to 10)."))).
Proof.
  cbv zeta. intros Ok Which Plain NotHint.
  destruct (generated_log_holds_party st name_entry phone_entry patient_type
              discount_entry selected_indices now_str Ok)
    as [Nn [Np [content [L [Cn Cp]]]]].
  exists content. split; [exact L |].
  assert (Q : Str.nonempty (Str.lower (Str.strip entry)) = true
              /\ Str.contains (Str.lower (Str.strip entry)) (Str.lower content) = true).
  { destruct Which as [-> | ->]; rewrite nonempty_lower;
      (split; [assumption | apply contains_lower_both; assumption]). }
  destruct Q as [Qn Qc].
  destruct (plain_query_found _ entry content L Qn NotHint Plain Qc) as [_ [M S]].
  split; [exact M | exact S].
Qed.

End SessionMore.

(** ** The files of a bill, and the two price editors *)

Section FileNames.

Local Open Scope string_scope.

Lemma sub_unsafe_safe s : forall in_run, all_safe (sub_unsafe in_run s) = true.
Proof.
  induction s as [| c s IH]; intros in_run; cbn; [reflexivity |].
  destruct (safe_char c) eqn:S.
  - cbn. rewrite S, IH. reflexivity.
  - destruct in_run; [apply IH |]. cbn. apply IH.
Qed.

Lemma sub_unsafe_fixed s : forall in_run,
  all_safe s = true -> sub_unsafe in_run s = s.
Proof.
  induction s as [| c s IH]; intros in_run A; cbn in *; [reflexivity |].
  apply andb_true_iff in A. destruct A as [S A]. rewrite S, (IH false A). reflexivity.
Qed.

Lemma sub_unsafe_length s : forall in_run,
  (String.length (sub_unsafe in_run s) <= String.length s)%nat.
Proof.
  induction s as [| c s IH]; intros in_run; cbn; [lia |].
  destruct (safe_char c).
  - cbn. specialize (IH false). lia.
  - destruct in_run; cbn; specialize (IH true); lia.
Qed.

Lemma safe_name_safe name : all_safe (safe_name name) = true.
Proof.
  unfold safe_name. pose proof (sub_unsafe_safe name false) as A.
  destruct (sub_unsafe false name); [reflexivity | exact A].
Qed.

Lemma all_safe_without c s :
  all_safe s = true -> safe_char c = false -> Str.contains_char c s = false.
Proof.
  intros A U. induction s as [| x s IH]; cbn in *; [reflexivity |].
  apply andb_true_iff in A. destruct A as [S A]. rewrite (IH A), orb_false_r.
  destruct (Ascii.eqb x c) eqn:E; [| reflexivity].
  apply Ascii.eqb_eq in E. subst. rewrite U in S. discriminate.
Qed.

(** X19.  The name [save_bill_to_files] gives the individual files of a bill
    is built from letters, digits, [_] and [-] only, whatever the name of
    the patient: it is never empty, holds no path separator and no dot, is
    not longer than the name (or than ["patient"]), and a name that is
    already of that kind is used as it is. *)
Theorem bill_file_name_is_safe (name : string) :
  safe_name name <> ""
  /\ all_safe (safe_name name) = true
  /\ (forall c, safe_char c = false -> Str.contains_char c (safe_name name) = false)
  /\ Str.contains_char "/" (safe_name name) = false
  /\ Str.contains_char "\" (safe_name name) = false
  /\ Str.contains_char "." (safe_name name) = false
  /\ safe_name (safe_name name) = safe_name name
  /\ (String.length (safe_name name) <= Nat.max (String.length name) 7)%nat
  /\ (all_safe name = true -> name <> "" -> safe_name name = name).
Proof.
  pose proof (safe_name_safe name) as A.
  assert (N : safe_name name <> "").
  { unfold safe_name. destruct (sub_unsafe false name); discriminate. }
  assert (Fix : forall s, all_safe s = true -> s <> "" -> safe_name s = s).
  { intros s As Ns. unfold safe_name. rewrite (sub_unsafe_fixed s false As).
    destruct s; [contradiction | reflexivity]. }
  split; [exact N |]. split; [exact A |].
  split; [intros c U; apply all_safe_without; assumption |].
  split; [apply all_safe_without; [exact A | reflexivity] |].
  split; [apply all_safe_without; [exact A | reflexivity] |].
  split; [apply all_safe_without; [exact A | reflexivity] |].
  split; [apply Fix; assumption |].
  split; [| apply Fix].
  unfold safe_name. pose proof (sub_unsafe_length name false) as L.
  destruct (sub_unsafe false name); cbn in *; lia.
Qed.

End FileNames.

Section TwoPriceEditors.

Import CatalogEdit.

Context `{Builtins}.

Local Open Scope string_scope.

(** *** Stripping a line and cutting it at the colon *)

Lemma colon_no_space : Str.isspace ":" = false.
Proof. reflexivity. Qed.

Lemma split_once_lstrip line : forall a b,
  Str.split_once ":" line = Some (a, b) ->
  Str.split_once ":" (Str.lstrip line) = Some (Str.lstrip a, b).
Proof.
  induction line as [| c line IH]; intros a b E; [discriminate |].
  cbn [Str.split_once] in E. destruct (Ascii.eqb c ":") eqn:C.
  - injection E as <- <-. apply Ascii.eqb_eq in C. subst c.
    cbn [Str.lstrip]. rewrite colon_no_space. reflexivity.
  - destruct (Str.split_once ":" line) as [[a0 b0] |] eqn:E0; [| discriminate].
    injection E as <- <-. cbn [Str.lstrip].
    destruct (Str.isspace c).
    + apply IH. reflexivity.
    + cbn [Str.split_once]. rewrite C, E0. reflexivity.
Qed.

Lemma split_once_rstrip line : forall a b,
  Str.split_once ":" line = Some (a, b) ->
  Str.split_once ":" (Str.rstrip line) = Some (a, Str.rstrip b).
Proof.
  induction line as [| c line IH]; intros a b E; [discriminate |].
  cbn [Str.split_once] in E. rewrite rstrip_cons. destruct (Ascii.eqb c ":") eqn:C.
  - injection E as <- <-. apply Ascii.eqb_eq in C. subst c.
    destruct (Str.rstrip line) as [| x r]; [rewrite colon_no_space |]; reflexivity.
  - destruct (Str.split_once ":" line) as [[a0 b0] |] eqn:E0; [| discriminate].
    injection E as <- <-. specialize (IH a0 b0 eq_refl).
    destruct (Str.rstrip line) as [| x r]; [discriminate |].
    cbn [Str.split_once]. rewrite C. cbn [Str.split_once] in IH. rewrite IH. reflexivity.
Qed.

Lemma lstrip_idem s : Str.lstrip (Str.lstrip s) = Str.lstrip s.
Proof.
  destruct (lstrip_shape s) as [E | [c [s' [E Sp]]]]; rewrite E; [reflexivity |].
  apply lstrip_head, Sp.
Qed.

Lemma lstrip_rstrip s : Str.lstrip (Str.rstrip s) = Str.rstrip (Str.lstrip s).
Proof.
  induction s as [| c s IH]; [reflexivity |].
  cbn [Str.lstrip]. destruct (Str.isspace c) eqn:Sp.
  - rewrite rstrip_cons. rewrite <- IH.
    destruct (Str.rstrip s) as [| x r]; [rewrite Sp; reflexivity |].
    cbn [Str.lstrip]. rewrite Sp. reflexivity.
  - destruct (rstrip_head c s Sp) as [r R]. rewrite R. apply lstrip_head, Sp.
Qed.

Lemma strip_lstrip s : Str.strip (Str.lstrip s) = Str.strip s.
Proof. unfold Str.strip. rewrite lstrip_idem. reflexivity. Qed.

Lemma strip_rstrip s : Str.strip (Str.rstrip s) = Str.strip s.
Proof. unfold Str.strip. rewrite lstrip_rstrip, rstrip_idem. reflexivity. Qed.

(** A line with a colon reads the same whether it is stripped before it is
    cut, as in [Dental_Clinic.py], or after, as in [dental_billing.py]. *)
Lemma price_line_strict line a b :
  Str.split_once ":" line = Some (a, b) ->
  Str.nonempty (Str.strip a) = true ->
  price_line line = Some (Str.strip a, Str.strip b).
Proof.
  intros E N. unfold price_line, Str.strip at 1 2.
  apply split_once_lstrip, split_once_rstrip in E.
  rewrite E.
  destruct (Str.rstrip (Str.lstrip line)) as [| x r]; [discriminate |].
  cbn [Str.nonempty negb]. rewrite strip_lstrip, strip_rstrip, N. reflexivity.
Qed.

Lemma db_prices_loop_lenient lines : forall i acc d,
  below i acc ->
  dental_billing.prices_loop i lines acc = Installed d ->
  Dental_Clinic.prices_loop i lines acc = Installed d.
Proof.
  induction lines as [| line lines IH]; intros i acc d Hb E; [exact E |].
  cbn [dental_billing.prices_loop] in E. rewrite dc_prices_loop_step.
  destruct (Str.split_once ":" line) as [[a b] |] eqn:S; [| discriminate].
  destruct (Str.nonempty (Str.strip a)) eqn:N; cbn [negb] in E; [| discriminate].
  rewrite (price_line_strict line a b S N).
  destruct (float_of_string (Str.strip b)) as [price |]; [| discriminate].
  destruct (PyNum.ltb (PyFloat price) (PyInt 0)); [discriminate |].
  destruct (below_set i acc (Str.strip a, PyFloat price) Hb) as [Es Hb'].
  rewrite Es in *. apply IH; assumption.
Qed.

(** X20.  The price editor of [Dental_Clinic.py] accepts every text that the
    one of [dental_billing.py] accepts, and installs the same catalog: a
    line that is [name: price] reads the same in both. *)
Theorem lenient_price_editor_extends_strict (text : string) (d : dict) :
  dental_billing.save_prices text = Installed d ->
  Dental_Clinic.save_prices text = Installed d
  /\ Forall (fun line => price_line line <> None) (text_lines text).
Proof.
  unfold dental_billing.save_prices, Dental_Clinic.save_prices.
  destruct (dental_billing.prices_loop 1 (text_lines text) []) as [d' | m] eqn:E;
    [| discriminate].
  rewrite (db_prices_loop_lenient _ _ _ _ (below_nil 1) E).
  intros D. split; [destruct d'; [discriminate | exact D] |].
  clear D. revert E. generalize 1%Z, (@nil (Z * treatment)).
  induction (text_lines text) as [| line lines IH]; intros i acc E; [constructor |].
  cbn [dental_billing.prices_loop] in E.
  destruct (Str.split_once ":" line) as [[a b] |] eqn:S; [| discriminate].
  destruct (Str.nonempty (Str.strip a)) eqn:N; cbn [negb] in E; [| discriminate].
  destruct (float_of_string (Str.strip b)) as [price |]; [| discriminate].
  destruct (PyNum.ltb (PyFloat price) (PyInt 0)); [discriminate |].
  constructor; [| apply (IH _ _ E)].
  rewrite (price_line_strict line a b S N). discriminate.
Qed.

End TwoPriceEditors.

(** ** Past appointments and repeated bookings *)

Section BookFacts.

Context `{Builtins}.

Local Open Scope string_scope.

(** *** Appointments that are not upcoming *)





(** *** Booking twice *)

Lemma book_outcome today st n p d t sel :
  let booked := Dental_Clinic.book_appointment today st n p d t sel in
  snd booked = Shown (showinfo "Success" "Appointment booked successfully!") ->
  exists ts,
    Dental_Clinic.check_fields today (Str.strip n) (Str.strip p) (Str.strip d)
      (Str.strip t) " (e.g., 2024-10-15)." sel = None
    /\ Dental_Clinic.selected_treatments (Dental_Clinic.appt_treatment_keys st)
         (Dental_Clinic._treatments st) sel = inr ts
    /\ Dental_Clinic.appointments (fst booked)
       = (Dental_Clinic.appointments st
          ++ [Appointment.__init__ (Str.strip n) (Str.strip p) (Str.strip d)
                (Str.strip t) ts])%list
    /\ Dental_Clinic._treatments (fst booked) = Dental_Clinic._treatments st
    /\ Dental_Clinic.appt_treatment_keys (fst booked) = Dental_Clinic.appt_treatment_keys st.
Proof.
  cbv zeta. unfold Dental_Clinic.book_appointment.
  destruct (Dental_Clinic.check_fields _ _ _ _ _ _ _) eqn:C; [discriminate |].
  destruct (Dental_Clinic.selected_treatments _ _ _) as [exc | ts] eqn:S; [discriminate |].
  intros _. exists ts. rewrite (after_refresh (A := unit)).
  split; [reflexivity | split; [reflexivity |]].
  unfold Dental_Clinic.refresh_appointments_list.
  destruct (Dental_Clinic.upcoming _ _); repeat split; reflexivity.
Qed.

Lemma book_succeeds today st n p d t sel ts :
  Dental_Clinic.check_fields today (Str.strip n) (Str.strip p) (Str.strip d)
    (Str.strip t) " (e.g., 2024-10-15)." sel = None ->
  Dental_Clinic.selected_treatments (Dental_Clinic.appt_treatment_keys st)
    (Dental_Clinic._treatments st) sel = inr ts ->
  snd (Dental_Clinic.book_appointment today st n p d t sel)
  = Shown (showinfo "Success" "Appointment booked successfully!").
Proof.
  intros C S. unfold Dental_Clinic.book_appointment. rewrite C, S.
  match goal with
  | |- context [Dental_Clinic.refresh_appointments_list today ?s] =>
      destruct (refresh_quiet today s) as [view [_ Q]]
  end.
  rewrite Q. reflexivity.
Qed.

(** X22.  A booking is accepted or refused on the entries, the day and the
    catalog alone; the appointments already in the book play no part.  So a
    booking that succeeded succeeds again when it is repeated, and the book
    then holds the same appointment twice. *)
Theorem same_slot_can_be_booked_twice (today : date) (st : Dental_Clinic.State)
    (name_entry phone_entry date_entry time_entry : string)
    (selected_indices : list nat) :
  let book s :=
    Dental_Clinic.book_appointment today s name_entry phone_entry date_entry
      time_entry selected_indices in
  snd (book st) = Shown (showinfo "Success" "Appointment booked successfully!") ->
  snd (book (fst (book st)))
  = Shown (showinfo "Success" "Appointment booked successfully!")
  /\ exists a,
       Dental_Clinic.appointments (fst (book st))
       = (Dental_Clinic.appointments st ++ [a])%list
       /\ Dental_Clinic.appointments (fst (book (fst (book st))))
          = (Dental_Clinic.appointments st ++ [a; a])%list.
Proof.
  cbv zeta. intros Ok.
  destruct (book_outcome today st _ _ _ _ _ Ok) as [ts [C [S [A [T K]]]]].
  cbv zeta in A, T, K.
  assert (Ok' : snd (Dental_Clinic.book_appointment today
                       (fst (Dental_Clinic.book_appointment today st name_entry
                               phone_entry date_entry time_entry selected_indices))
                       name_entry phone_entry date_entry time_entry selected_indices)
                = Shown (showinfo "Success" "Appointment booked successfully!")).
  { apply (book_succeeds _ _ _ _ _ _ _ ts); [exact C |]. rewrite T, K. exact S. }
  split; [exact Ok' |].
  destruct (book_outcome today _ _ _ _ _ _ Ok') as [ts' [_ [S' [A' _]]]].
  cbv zeta in A'. rewrite T, K, S in S'. injection S' as <-.
  eexists. split; [exact A |]. rewrite A', A, <- app_assoc. reflexivity.
Qed.

End BookFacts.

(** ** Saving an edit window as it was opened *)

Section EditWindow.

Import CatalogEdit.

Local Open Scope string_scope.

(** *** The keys in order *)

Lemma insert_key_least k keys :
  Forall (Z.lt k) keys -> insert_key k keys = k :: keys.
Proof.
  intros F. destruct keys as [| k' keys]; [reflexivity |]. cbn.
  inversion F; subst. destruct (Z.leb_spec k k'); [reflexivity | lia].
Qed.

Lemma sorted_keys_increasing keys :
  StronglySorted Z.lt keys -> sorted_keys keys = keys.
Proof.
  induction 1 as [| k keys S IH F]; [reflexivity |].
  cbn. rewrite IH. apply insert_key_least, F.
Qed.

Lemma get_later (d : dict) k kv :
  (fst kv < k)%Z -> Dict.get (kv :: d) k = Dict.get d k.
Proof.
  destruct kv as [k' v]. cbn. intros L.
  destruct (Z.eqb_spec k' k); [lia | reflexivity].
Qed.

Lemma listed_names_later (d : dict) kv keys :
  Forall (Z.lt (fst kv)) keys ->
  listed_names (kv :: d) keys = listed_names d keys.
Proof.
  induction keys as [| k keys IH]; intros F; [reflexivity |].
  inversion F; subst. cbn [listed_names]. rewrite get_later by assumption.
  rewrite IH by assumption. reflexivity.
Qed.

Lemma names_box_lines (d : dict) :
  keys_increase d ->
  names_box d = lines_text (map fst (Dict.values d)).
Proof.
  unfold names_box, keys_increase. intros S.
  rewrite (sorted_keys_increasing _ S).
  induction d as [| [k [n p]] d IH]; [reflexivity |].
  cbn [Dict.keys map fst] in S. inversion S as [| ? ? S' F]; subst.
  cbn [Dict.keys Dict.values map fst snd listed_names Dict.get lines_text fold_right].
  rewrite Z.eqb_refl. rewrite (listed_names_later d (k, (n, p))) by exact F.
  fold (Dict.keys d). rewrite (IH S'). reflexivity.
Qed.

(** *** The lines of a text *)

Lemma has_ink_append a b : has_ink (a ++ b) = has_ink a || has_ink b.
Proof.
  induction a as [| c a IH]; [reflexivity |]. cbn. rewrite IH. apply orb_assoc.
Qed.

Lemma rstrip_blank s : has_ink s = false -> Str.rstrip s = "".
Proof.
  induction s as [| c s IH]; [reflexivity |]. cbn [has_ink]. intros E.
  apply orb_false_iff in E. destruct E as [Sp E]. apply negb_false_iff in Sp.
  rewrite rstrip_cons, (IH E), Sp. reflexivity.
Qed.

Lemma rstrip_ink s : has_ink s = true -> Str.rstrip s <> "".
Proof.
  induction s as [| c s IH]; [discriminate |]. cbn [has_ink]. intros E.
  rewrite rstrip_cons. destruct (Str.rstrip s) eqn:R; [| discriminate].
  destruct (Str.isspace c) eqn:Sp; [| discriminate].
  cbn in E. exfalso. apply (IH E). reflexivity.
Qed.

Lemma rstrip_append a : forall b,
  has_ink b = true -> Str.rstrip (a ++ b) = a ++ Str.rstrip b.
Proof.
  induction a as [| c a IH]; intros b Hb; [reflexivity |].
  cbn [append]. rewrite rstrip_cons, (IH b Hb).
  destruct (a ++ Str.rstrip b) eqn:E; [| reflexivity].
  exfalso. destruct a; cbn in E; [| discriminate].
  apply (rstrip_ink b Hb). exact E.
Qed.

Lemma rstrip_append_blank a b :
  has_ink b = false -> Str.rstrip (a ++ b) = Str.rstrip a.
Proof.
  intros Hb. induction a as [| c a IH]; [apply rstrip_blank, Hb |].
  cbn [append]. rewrite !rstrip_cons, IH. reflexivity.
Qed.

Lemma stripped_rstrip s : Str.strip s = s -> Str.rstrip s = s.
Proof. intros E. rewrite <- E at 1. unfold Str.strip. rewrite rstrip_idem. exact E. Qed.

Lemma stripped_lstrip s : Str.strip s = s -> Str.lstrip s = s.
Proof.
  intros E. rewrite <- E at 1. unfold Str.strip.
  rewrite lstrip_rstrip, lstrip_idem. exact E.
Qed.

Lemma stripped_ink s : Str.strip s = s -> Str.nonempty s = true -> has_ink s = true.
Proof. intros E N. rewrite <- strip_nonempty_ink, E. exact N. Qed.

Lemma lstrip_append a b :
  Str.lstrip a = a -> Str.nonempty a = true -> Str.lstrip (a ++ b) = a ++ b.
Proof.
  destruct a as [| c a]; [discriminate |]. cbn [Str.lstrip append]. intros E _.
  destruct (Str.isspace c) eqn:Sp; [| reflexivity].
  exfalso. destruct (lstrip_shape a) as [E' | [x [s' [E' Sx]]]]; rewrite E' in E.
  - discriminate.
  - injection E as -> _. rewrite Sp in Sx. discriminate.
Qed.

Lemma split_line (a b : string) :
  Str.contains_char "010" a = false ->
  Str.split "010" (a ++ String "010" b) = a :: Str.split "010" b.
Proof.
  induction a as [| c a IH]; intros N; cbn [append Str.split].
  - rewrite Ascii.eqb_refl. reflexivity.
  - cbn in N. apply orb_false_iff in N. destruct N as [C N].
    rewrite C, (IH N). reflexivity.
Qed.

Lemma split_one_line (a : string) :
  Str.contains_char "010" a = false -> Str.split "010" a = [a].
Proof.
  induction a as [| c a IH]; intros N; [reflexivity |].
  cbn in N. apply orb_false_iff in N. destruct N as [C N].
  cbn [Str.split]. rewrite C, (IH N). reflexivity.
Qed.

(** The lines of the text of the box are the names it lists, whatever
    white space follows them. *)
Lemma text_lines_of_names (names : list string) (tail : string) :
  names <> [] -> Forall clean_name names -> has_ink tail = false ->
  text_lines (lines_text names ++ tail) = names.
Proof.
  intros Nd Hn Ht. unfold text_lines, Str.strip.
  destruct names as [| n names]; [contradiction |]. clear Nd.
  inversion Hn as [| ? ? [Nk [Sk _]] Hn']; subst.
  cbn [lines_text fold_right]. rewrite append_chain.
  rewrite (lstrip_append n) by (try apply stripped_lstrip; assumption).
  clear Nk Sk Hn'. revert n Hn.
  induction names as [| n' names IH]; intros n Hn.
  - inversion Hn as [| ? ? [Nk [Sk Ok]] _]; subst.
    cbn [fold_right append].
    rewrite rstrip_append_blank by (cbn; exact Ht).
    rewrite (stripped_rstrip _ Sk). apply split_one_line, Ok.
  - inversion Hn as [| ? ? [Nk [Sk Ok]] Hn']; subst.
    specialize (IH n' Hn').
    cbn [fold_right].
    change (String "010" (n' ++ String "010"
              (fold_right (fun name r => name ++ String "010" r) "" names)) ++ tail)
      with (String "010" ((n' ++ String "010"
              (fold_right (fun name r => name ++ String "010" r) "" names)) ++ tail)).
    rewrite append_chain.
    set (rest := String "010" (fold_right (fun name r => name ++ String "010" r) "" names)
                 ++ tail) in *.
    assert (Ink : has_ink (n' ++ rest) = true).
    { inversion Hn' as [| ? ? [Nk' [Sk' _]] _]; subst.
      rewrite has_ink_append, (stripped_ink _ Sk' Nk'). reflexivity. }
    cbn [append].
    rewrite (rstrip_append n (String "010" (n' ++ rest))) by (cbn; exact Ink).
    rewrite rstrip_cons.
    destruct (Str.rstrip (n' ++ rest)) as [| x r] eqn:R.
    + exfalso. apply (rstrip_ink _ Ink). exact R.
    + rewrite split_line by exact Ok. f_equal. exact IH.
Qed.

(** *** Saving the box as it was opened *)

Lemma old_price_distinct (d : dict) name price :
  distinct_names d -> In (name, price) (Dict.values d) ->
  old_price d name = price.
Proof.
  unfold distinct_names. intros Nd Hin.
  destruct (old_price_source d name) as [Hin' | [_ No]]; [| destruct (No price Hin)].
  remember (old_price d name) as q eqn:Q. clear Q.
  induction (Dict.values d) as [| [n p] vs IH]; [contradiction |].
  cbn [map fst] in Nd. inversion Nd as [| ? ? Nn Nd']; subst.
  destruct Hin as [E | Hin]; destruct Hin' as [E' | Hin'].
  - congruence.
  - injection E as -> ->. exfalso. apply Nn. apply (in_map fst _ _ Hin').
  - injection E' as -> ->. exfalso. apply Nn. apply (in_map fst _ _ Hin).
  - apply IH; assumption.
Qed.

Lemma enumerate_map {A B : Type} (f : A -> B) (l : list A) : forall i,
  enumerate i (map f l) = map (fun il => (fst il, f (snd il))) (enumerate i l).
Proof.
  induction l as [| x l IH]; intros i; cbn; [reflexivity |]. rewrite IH. reflexivity.
Qed.

Lemma enumerate_in {A : Type} (l : list A) : forall i k x,
  In (k, x) (enumerate i l) -> In x l.
Proof.
  induction l as [| y l IH]; intros i k x Hin; [contradiction |].
  destruct Hin as [E | Hin]; [injection E as _ ->; left; reflexivity |].
  right. apply (IH _ _ _ Hin).
Qed.

Lemma filter_all {A : Type} (f : A -> bool) (l : list A) :
  Forall (fun x => f x = true) l -> filter f l = l.
Proof.
  induction 1 as [| x l Hx _ IH]; [reflexivity |]. cbn. rewrite Hx, IH. reflexivity.
Qed.

Lemma names_loop_unchanged (d : dict) :
  catalog_named d -> distinct_names d ->
  names_loop d 1 (map fst (Dict.values d)) [] = enumerate 1 (Dict.values d).
Proof.
  intros Hn Hd.
  rewrite (names_loop_entries d _ 1 [] (below_nil 1)). cbn [app].
  rewrite filter_all.
  - rewrite enumerate_map, map_map.
    transitivity (map (fun x => x) (enumerate 1 (Dict.values d))); [| apply map_id].
    apply map_ext_in. intros [k [n p]] Hin. unfold named_entry. cbn [fst snd].
    apply enumerate_in in Hin.
    assert (S : Str.strip n = n).
    { unfold Dict.values in Hin. apply in_map_iff in Hin. destruct Hin as [kv [E Hin]].
      unfold catalog_named in Hn. rewrite Forall_forall in Hn.
      destruct (Hn kv Hin) as [_ S]. destruct kv as [k' [n' p']]. cbn [fst snd] in E, S.
      injection E as -> _. exact S. }
    rewrite S, (old_price_distinct d n p Hd Hin). reflexivity.
  - apply Forall_forall. intros [k n] Hin. apply enumerate_in in Hin.
    unfold names_treatment. cbn [snd].
    apply in_map_iff in Hin. destruct Hin as [[n' p] [E Hin]]. cbn in E. subst n'.
    unfold Dict.values in Hin. apply in_map_iff in Hin. destruct Hin as [kv [E Hin]].
    unfold catalog_named in Hn. rewrite Forall_forall in Hn.
    destruct (Hn kv Hin) as [N S]. destruct kv as [k' [n' p']]. cbn [fst snd] in E, N, S.
    injection E as -> _. rewrite S. exact N.
Qed.

Lemma enumerate_dense (d : dict) :
  dense (Dict.keys d) -> enumerate 1 (Dict.values d) = d.
Proof.
  unfold dense. unfold Dict.keys at 2. rewrite length_map.
  assert (G : forall i : nat,
            Dict.keys d = map Z.of_nat (seq i (List.length d)) ->
            enumerate (Z.of_nat i) (Dict.values d) = d).
  { induction d as [| [k v] d IH]; intros i E; [reflexivity |].
    cbn in E. injection E as -> E. cbn [Dict.values map snd enumerate].
    f_equal. replace (Z.of_nat i + 1)%Z with (Z.of_nat (S i)) by lia.
    apply IH. exact E. }
  apply (G 1%nat).
Qed.

Lemma names_editors_install (treatments : dict) (text : string) :
  names_loop treatments 1 (text_lines text) [] <> [] ->
  Dental_Clinic.save_treatments treatments text
  = Installed (names_loop treatments 1 (text_lines text) [])
  /\ dental_billing.save_treatments treatments text
     = Installed (names_loop treatments 1 (text_lines text) []).
Proof.
  intros N. unfold Dental_Clinic.save_treatments, dental_billing.save_treatments.
  cbv zeta.
  assert (X : existsb names_treatment (text_lines text) = true).
  { destruct (existsb names_treatment (text_lines text)) eqn:X; [reflexivity |].
    exfalso. apply N. apply names_loop_empty. exact X. }
  change (fun line => negb (Str.nonempty (Str.strip line)))
    with (fun line => negb (names_treatment line)).
  rewrite existsb_forallb_negb, X. cbn [negb].
  assert (NN : text_lines text <> []) by apply split_not_nil.
  assert (M : match text_lines text with [] => true | _ :: _ => false end = false)
    by (destruct (text_lines text); [contradiction | reflexivity]).
  assert (M' : forall X : edited,
             match text_lines text with
             | [] => Rejected "At least one treatment is required."
             | _ :: _ => X
             end = X)
    by (intros Y; destruct (text_lines text); [contradiction | reflexivity]).
  rewrite M, M'. cbn [orb].
  destruct (names_loop treatments 1 (text_lines text) []); [contradiction |].
  split; reflexivity.
Qed.

(** X23.  Saving the treatment-name window as it was opened keeps the
    catalog: for a catalog as the editors leave it (keys in increasing
    order, names stripped, not empty, on one line) whose names differ from
    each other, both name editors install the same names with the same
    prices in the same order, under the keys [1..N]; a catalog whose keys
    are already [1..N] is installed as it is.  White space after the listed
    names, such as the line feed the text box adds, changes nothing. *)
Theorem unchanged_names_edit_keeps_catalog (d : dict) (tail : string) :
  d <> [] -> keys_increase d -> catalog_named d -> one_line_names d ->
  distinct_names d -> has_ink tail = false ->
  text_lines (names_box d ++ tail) = map fst (Dict.values d)
  /\ Dental_Clinic.save_treatments d (names_box d ++ tail)
     = Installed (enumerate 1 (Dict.values d))
  /\ dental_billing.save_treatments d (names_box d ++ tail)
     = Installed (enumerate 1 (Dict.values d))
  /\ (dense (Dict.keys d) -> enumerate 1 (Dict.values d) = d).
Proof.
  intros Nd Hk Hn Ho Hd Ht.
  assert (L : text_lines (names_box d ++ tail) = map fst (Dict.values d)).
  { rewrite (names_box_lines d Hk). apply text_lines_of_names.
    - destruct d; [contradiction | discriminate].
    - unfold Dict.values. rewrite map_map. apply Forall_forall. intros n Hin.
      apply in_map_iff in Hin. destruct Hin as [kv [<- Hin]].
      unfold catalog_named, one_line_names in *. rewrite Forall_forall in Hn, Ho.
      destruct (Hn kv Hin) as [N S]. repeat split; [exact N | exact S | apply Ho, Hin].
    - exact Ht. }
  pose proof (names_loop_unchanged d Hn Hd) as U.
  destruct (names_editors_install d (names_box d ++ tail)) as [A B].
  { rewrite L, U. destruct d; [contradiction | discriminate]. }
  rewrite L, U in A, B.
  split; [exact L | split; [exact A | split; [exact B | apply enumerate_dense]]].
Qed.

End EditWindow.

(** ** More properties on worked inputs *)

Section MoreExamples.

Import CatalogEdit.
Import Demo.
Import Cases.
Local Open Scope string_scope.
#[local] Existing Instance Py.builtins.


Lemma search_finds_plain_query_witness :
  Dental_Clinic.patient_bills_txt billed_state = Some (demo_bill ++ newline ++ newline)
  /\ Dental_Clinic.matching_bills "ali" (demo_bill ++ newline ++ newline) <> []
  /\ snd (Dental_Clinic.search_bills billed_state " ALI ")
     = Shown (showinfo "Search Results"
                "Found 1 matches. Full details shown below (limited to 10).").
Proof.
  assert (L : Dental_Clinic.patient_bills_txt billed_state
              = Some (demo_bill ++ newline ++ newline)) by reflexivity.
  assert (N : Str.nonempty (Str.lower (Str.strip " ALI ")) = true) by reflexivity.
  assert (P : Str.lower (Str.strip " ALI ") <> Dental_Clinic.placeholder) by discriminate.
  assert (Q : plain_query (Str.lower (Str.strip " ALI ")) = true) by reflexivity.
  assert (C : Str.contains (Str.lower (Str.strip " ALI "))
                (Str.lower (demo_bill ++ newline ++ newline)) = true) by reflexivity.
  destruct (search_finds_plain_query billed_state " ALI " _ L N P Q C) as [_ [M S]].
  split; [exact L | split; [exact M |]].
  rewrite S. reflexivity.
Defined.

Lemma search_matches_hold_the_query_witness :
  Str.nonempty (Str.lower (Str.strip "Ali")) = true
  /\ forall r, In r (Dental_Clinic.matching_bills "ali" (demo_bill ++ newline ++ newline)) ->
               Str.contains "ali" (Str.lower r) = true.
Proof.
  assert (N : Str.nonempty (Str.lower (Str.strip "Ali")) = true) by reflexivity.
  destruct (search_matches_hold_the_query "Ali" (demo_bill ++ newline ++ newline) N)
    as [_ A].
  split; [exact N |]. intros r Hin. apply (A r Hin).
Defined.

Lemma names_edit_lists_kept_lines_witness :
  run_editor NamesEditor small_catalog names_with_blank
  = Installed [(1%Z, ("A", PyInt 1000)); (3%Z, ("B", PyInt 1000))]
  /\ forall p, ~ In ("B", p) (Dict.values small_catalog).
Proof.
  assert (E : run_editor NamesEditor small_catalog names_with_blank
              = Installed [(1%Z, ("A", PyInt 1000)); (3%Z, ("B", PyInt 1000))])
    by reflexivity.
  destruct (names_edit_lists_kept_lines NamesEditor small_catalog names_with_blank _
              (or_introl eq_refl) E) as [_ Price].
  split; [exact E |].
  destruct (Price 3%Z "B" (PyInt 1000) (or_intror (or_introl eq_refl))) as [Hin | [_ No]].
  - exfalso. cbn in Hin. destruct Hin as [X | [X | []]]; discriminate X.
  - exact No.
Defined.

Lemma price_edit_installs_parsed_lines_witness :
  Dental_Clinic.save_prices prices_with_note
  = Installed [(1%Z, ("Cleaning", PyFloat 7000)); (3%Z, ("Filling", PyFloat (5001 # 2)))]
  /\ Forall (fun l => rejected_line l = false) (text_lines prices_with_note).
Proof.
  assert (E : Dental_Clinic.save_prices prices_with_note
              = Installed [(1%Z, ("Cleaning", PyFloat 7000));
                           (3%Z, ("Filling", PyFloat (5001 # 2)))])
    by (vm_compute; reflexivity).
  split; [exact E |].
  apply (proj1 (price_edit_installs_parsed_lines prices_with_note _) E).
Defined.

Lemma edited_catalog_well_formed_witness :
  run_editor PricesEditorOld small_catalog "Cleaning: 7000"
  = Installed [(1%Z, ("Cleaning", PyFloat 7000))]
  /\ catalog_named [(1%Z, ("Cleaning", PyFloat 7000))]
  /\ catalog_nonneg [(1%Z, ("Cleaning", PyFloat 7000))].
Proof.
  assert (E : run_editor PricesEditorOld small_catalog "Cleaning: 7000"
              = Installed [(1%Z, ("Cleaning", PyFloat 7000))])
    by (vm_compute; reflexivity).
  destruct (edited_catalog_well_formed PricesEditorOld small_catalog "Cleaning: 7000" _ E)
    as [_ [N P]].
  split; [exact E | split; [exact N |]].
  apply P. right. right. reflexivity.
Defined.

Lemma load_is_all_or_nothing_witness :
  List.length (load_appointments (Some (JArray [bea_record]))) = 1%nat
  /\ load_appointments (Some (JArray [bea_record; record_without_phone])) = [].
Proof.
  destruct (load_is_all_or_nothing [bea_record]) as [All _].
  destruct (load_is_all_or_nothing [bea_record; record_without_phone]) as [_ Nothing].
  split.
  - assert (F : Forall (fun r => Appointment.from_dict r <> None) [bea_record]).
    { repeat constructor. discriminate. }
    destruct (All F) as [_ Len]. exact Len.
  - apply (Nothing members_without_phone "phone").
    + right. left. reflexivity.
    + cbn. tauto.
    + reflexivity.
Defined.

Lemma delete_removes_one_upcoming_witness :
  upcoming_stored today_demo late_first = [ali; bea]
  /\ upcoming_stored today_demo
       (fst (Dental_Clinic.delete_appointment today_demo late_first 0)) = [bea]
  /\ Dental_Clinic.delete_appointment today_demo late_first 2
     = (late_first, Shown (showwarning "Error" "Invalid selection. Please try again.")).
Proof.
  destruct (delete_removes_one_upcoming today_demo late_first 0) as [Ok _].
  destruct (delete_removes_one_upcoming today_demo late_first 2) as [_ Ko].
  assert (U : upcoming_stored today_demo late_first = [ali; bea]) by (vm_compute; reflexivity).
  split; [exact U | split].
  - assert (L : (0 < List.length (upcoming_stored today_demo late_first))%nat).
    { rewrite U. cbn. lia. }
    destruct (Ok L) as [_ [R _]]. rewrite R, U. reflexivity.
  - apply Ko. rewrite U. cbn. lia.
Defined.

Lemma rows_match_a_book_in_date_order_witness :
  upcoming_stored today_demo early_first = [bea; ali]
  /\ Dental_Clinic.appointments_listbox
       (fst (Dental_Clinic.refresh_appointments_list today_demo early_first))
     = [Appointment.__str__ bea; Appointment.__str__ ali].
Proof.
  assert (U : upcoming_stored today_demo early_first = [bea; ali]) by (vm_compute; reflexivity).
  assert (S : StronglySorted not_after (upcoming_stored today_demo early_first)).
  { rewrite U. repeat constructor. }
  destruct (rows_match_a_book_in_date_order today_demo early_first S) as [Shown_ _].
  split; [exact U |]. rewrite Shown_, U. reflexivity.
Defined.


Lemma failed_appointment_action_changes_nothing_witness :
  fst (Dental_Clinic.book_appointment today_demo late_first "Cy" "0302" "2024-13-01"
         "10:00" [0%nat]) = late_first
  /\ fst (Dental_Clinic.save_edit today_demo late_first 5 "Cy" "0302" "2024-13-01"
            "10:00" [0%nat]) = late_first
  /\ fst (Dental_Clinic.delete_appointment today_demo late_first 7) = late_first.
Proof.
  destruct (failed_appointment_action_changes_nothing today_demo late_first 5 7
              "Cy" "0302" "2024-13-01" "10:00" [0%nat]) as [B [S D]].
  split; [| split].
  - apply B. vm_compute. discriminate.
  - apply S. vm_compute. discriminate.
  - apply D. vm_compute. discriminate.
Defined.

Lemma bill_log_only_grows_witness :
  exists added,
    log_text (Dental_Clinic.patient_bills_txt
                (fold_left Session.step
                   [Session.SearchBills "ali"; Session.Relaunch today_demo] billed_state))
    = (demo_bill ++ newline ++ newline) ++ added
    /\ Dental_Clinic.patient_bills_txt
         (fold_left Session.step
            [Session.SearchBills "ali"; Session.Relaunch today_demo] billed_state)
       <> None.
Proof.
  destruct (bill_log_only_grows billed_state
              [Session.SearchBills "ali"; Session.Relaunch today_demo]) as [added [E K]].
  exists added. split; [exact E |]. apply K. discriminate.
Defined.


Lemma session_rows_find_their_treatments_witness :
  Dental_Clinic.treatment_keys (Session.run today_demo "Bright Smile" morning) = [1%Z; 2%Z]
  /\ forall exc,
       snd (Dental_Clinic.generate_bill (Session.run today_demo "Bright Smile" morning)
              "Cy" "0302" "normal" "10" [1%nat] "2024-10-15 11:00:00") <> Raised exc.
Proof.
  assert (K : Dental_Clinic.treatment_keys (Session.run today_demo "Bright Smile" morning)
              = [1%Z; 2%Z]) by (vm_compute; reflexivity).
  split; [exact K |].
  destruct (session_rows_find_their_treatments today_demo "Bright Smile" morning
              "Cy" "0302" "normal" "10" "2024-10-15 11:00:00" "" "" today_demo [1%nat])
    as [_ [G _]].
  apply G. rewrite K. repeat constructor.
Defined.

Lemma generated_bill_is_found_witness :
  snd (Dental_Clinic.generate_bill demo_state "Ali" "0300" "normal" "10" [0%nat]
         "2024-10-15 10:00:00")
  = Shown (showinfo "Success" "Bill generated and saved!")
  /\ snd (Dental_Clinic.search_bills billed_state "ALI")
     = Shown (showinfo "Search Results"
                "Found 1 matches. Full details shown below (limited to 10).").
Proof.
  assert (Ok : snd (Dental_Clinic.generate_bill demo_state "Ali" "0300" "normal" "10"
                      [0%nat] "2024-10-15 10:00:00")
               = Shown (showinfo "Success" "Bill generated and saved!")) by reflexivity.
  destruct (generated_bill_is_found demo_state "Ali" "0300" "normal" "10" [0%nat]
              "2024-10-15 10:00:00" "ALI" Ok (or_introl eq_refl) eq_refl)
    as [content [L [_ S]]]; [discriminate |].
  split; [exact Ok |].
  unfold billed_state. rewrite S.
  vm_compute in L. injection L as <-. reflexivity.
Defined.

Lemma bill_file_name_is_safe_witness :
  safe_name "Ali Khan/../x" = "Ali_Khan_x"
  /\ Str.contains_char "/" (safe_name "Ali Khan/../x") = false
  /\ safe_name "Ali-1" = "Ali-1".
Proof.
  destruct (bill_file_name_is_safe "Ali Khan/../x") as [_ [_ [_ [Slash _]]]].
  destruct (bill_file_name_is_safe "Ali-1") as [_ [_ [_ [_ [_ [_ [_ [_ Same]]]]]]]].
  split; [reflexivity | split; [exact Slash |]].
  apply Same; [reflexivity | discriminate].
Defined.

Lemma lenient_price_editor_extends_strict_witness :
  dental_billing.save_prices ("Cleaning: 7000" ++ newline ++ "Filling : 2500.50")
  = Installed [(1%Z, ("Cleaning", PyFloat 7000)); (2%Z, ("Filling", PyFloat (5001 # 2)))]
  /\ Dental_Clinic.save_prices ("Cleaning: 7000" ++ newline ++ "Filling : 2500.50")
     = Installed [(1%Z, ("Cleaning", PyFloat 7000)); (2%Z, ("Filling", PyFloat (5001 # 2)))].
Proof.
  assert (E : dental_billing.save_prices ("Cleaning: 7000" ++ newline ++ "Filling : 2500.50")
              = Installed [(1%Z, ("Cleaning", PyFloat 7000));
                           (2%Z, ("Filling", PyFloat (5001 # 2)))])
    by (vm_compute; reflexivity).
  split; [exact E |].
  apply (lenient_price_editor_extends_strict _ _ E).
Defined.


Lemma same_slot_can_be_booked_twice_witness :
  let book s :=
    Dental_Clinic.book_appointment today_demo s "Ali" "0300" "2024-10-20" "14:30"
      [0%nat] in
  snd (book demo_state) = Shown (showinfo "Success" "Appointment booked successfully!")
  /\ snd (book (fst (book demo_state)))
     = Shown (showinfo "Success" "Appointment booked successfully!")
  /\ Dental_Clinic.appointments (fst (book (fst (book demo_state)))) = [ali; ali].
Proof.
  intros book. subst book. cbv beta.
  assert (Ok : snd (Dental_Clinic.book_appointment today_demo demo_state "Ali" "0300"
                      "2024-10-20" "14:30" [0%nat])
               = Shown (showinfo "Success" "Appointment booked successfully!"))
    by (vm_compute; reflexivity).
  destruct (same_slot_can_be_booked_twice today_demo demo_state "Ali" "0300"
              "2024-10-20" "14:30" [0%nat] Ok) as [Again [a [Once Twice]]].
  split; [exact Ok | split; [exact Again |]].
  rewrite Twice.
  assert (A : a = ali).
  { vm_compute in Once. injection Once as <-. reflexivity. }
  rewrite A. reflexivity.
Defined.

Lemma unchanged_names_edit_keeps_catalog_witness :
  names_box small_catalog = "Cleaning" ++ newline ++ "Filling" ++ newline
  /\ Dental_Clinic.save_treatments small_catalog (names_box small_catalog ++ newline)
     = Installed small_catalog.
Proof.
  assert (Nd : small_catalog <> []) by discriminate.
  assert (Hk : keys_increase small_catalog).
  { unfold keys_increase. cbn. repeat constructor. }
  assert (Hn : catalog_named small_catalog).
  { repeat constructor. }
  assert (Ho : one_line_names small_catalog).
  { repeat constructor. }
  assert (Hd : distinct_names small_catalog).
  { unfold distinct_names. cbn. constructor.
    - intros [X | []]. discriminate X.
    - constructor; [intros [] | constructor]. }
  assert (Ht : has_ink newline = false) by reflexivity.
  destruct (unchanged_names_edit_keeps_catalog small_catalog newline Nd Hk Hn Ho Hd Ht)
    as [_ [Saved [_ Dense]]].
  split; [reflexivity |].
  rewrite Saved, Dense; reflexivity.
Defined.

End MoreExamples.
